(** * OCI FOCUS reports to BigQuery: the mirror and partition stages

    A shallow embedding of [src/reorganize.ts] (the Partition Stage,
    [reorganizeToHive]) and of [src/sync.ts] (the Mirror Stage,
    [syncOciToGcs]), followed by the properties of the specification
    that were checked against them.

    Conventions of the embedding.

    - Strings are [string]s of 8-bit code units: the Latin-1 part of
      JavaScript's UTF-16 strings.
    - A JavaScript number that is known to be an integer or [NaN] is an
      [option Z], [None] standing for [NaN]; the numbers read from the
      transfer tool's output are exact rationals (type [Sync.number]).
      Integers and decimal fractions are kept exact where JavaScript
      rounds to the nearest double.
    - A [Date] is its time value, milliseconds since the epoch in UTC,
      or [None] for an Invalid Date.  The calendar follows ECMAScript's
      definitions (Day, DayFromYear, MonthFromTime, MakeDay, TimeClip,
      ...); local time is UTC plus a fixed offset [tza], so daylight
      saving changes are not represented.
    - The asynchronous functions run sequentially (every call is
      awaited), so they are state-passing functions over a [World]: the
      object store, the system clock, the transfer tool and the lines
      written at error level.  A rejected promise is the outcome
      [Throw].  The [info] and [debug] calls of the source only write
      to the console and are left out, with the values that are
      computed for them alone.
    - The object store, the clock and the transfer tool are the
      environment: a request to the store fails when the world says so
      ([faults]) or when the store cannot serve it, the clock gives a
      new reading each time it is read, and [JSON.parse] is a
      parameter. *)

From Stdlib Require Import ZArith QArith Qround Lia Bool Ascii String List.
From Stdlib Require Import DecimalString.
From stdpp Require Import base option list strings gmap.
Import ListNotations.

Close Scope Q_scope.
Open Scope Z_scope.

(** ** JavaScript strings *)

Module JSString.

Definition code (c : ascii) : Z := Z.of_N (N_of_ascii c).

(** [\d] *)
Definition isDigit (c : ascii) : bool := (48 <=? code c) && (code c <=? 57).

(** The line terminators, which [.] does not match (U+2028 and U+2029
    are not 8-bit code units). *)
Definition isLineTerminator (c : ascii) : bool :=
  (code c =? 10) || (code c =? 13).

(** [\s], and the white space that [parseInt] skips *)
Definition isWhiteSpace (c : ascii) : bool :=
  ((9 <=? code c) && (code c <=? 13)) || (code c =? 32) || (code c =? 160).

Definition toUpperChar (c : ascii) : ascii :=
  if (97 <=? code c) && (code c <=? 122)
  then ascii_of_N (Z.to_N (code c - 32)) else c.

(** [s.toUpperCase()], on the ASCII letters *)
Fixpoint toUpperCase (s : string) : string :=
  match s with
  | EmptyString => EmptyString
  | String c s' => String (toUpperChar c) (toUpperCase s')
  end.

(** The rest of [s] after the literal [p], when [s] starts with [p]. *)
Fixpoint dropPrefix (p s : string) : option string :=
  match p, s with
  | EmptyString, _ => Some s
  | String a p', String b s' =>
      if Ascii.eqb a b then dropPrefix p' s' else None
  | String _ _, EmptyString => None
  end.

(** The same, comparing letters without regard to case (flag [i]). *)
Fixpoint dropPrefixI (p s : string) : option string :=
  match p, s with
  | EmptyString, _ => Some s
  | String a p', String b s' =>
      if Ascii.eqb (toUpperChar a) (toUpperChar b)
      then dropPrefixI p' s' else None
  | String _ _, EmptyString => None
  end.

Definition startsWith (s p : string) : bool :=
  match dropPrefix p s with Some _ => true | None => false end.

(** [s.includes(p)] *)
Fixpoint includes (s p : string) : bool :=
  startsWith s p ||
  match s with
  | EmptyString => false
  | String _ s' => includes s' p
  end.

Fixpoint endsWith (s p : string) : bool :=
  String.eqb s p ||
  match s with
  | EmptyString => false
  | String _ s' => endsWith s' p
  end.

Fixpoint forallb (f : ascii -> bool) (s : string) : bool :=
  match s with
  | EmptyString => true
  | String c s' => f c && forallb f s'
  end.

(** The longest prefix of [s] whose characters satisfy [f], and the
    rest: what a greedy [[class]*] consumes. *)
Fixpoint span (f : ascii -> bool) (s : string) : string * string :=
  match s with
  | EmptyString => (EmptyString, EmptyString)
  | String c s' =>
      if f c then let '(a, b) := span f s' in (String c a, b)
      else (EmptyString, s)
  end.

(** Exactly [n] characters satisfying [f], and the rest: [[class]{n}]. *)
Fixpoint take (f : ascii -> bool) (n : nat) (s : string)
  : option (string * string) :=
  match n with
  | O => Some (EmptyString, s)
  | S n' =>
      match s with
      | String c s' =>
          if f c then
            match take f n' s' with
            | Some (a, b) => Some (String c a, b)
            | None => None
            end
          else None
      | EmptyString => None
      end
  end.

(** [s.split("\n")] *)
Fixpoint splitLines (s : string) : list string :=
  match s with
  | EmptyString => [EmptyString]
  | String c s' =>
      if code c =? 10 then EmptyString :: splitLines s'
      else match splitLines s' with
           | l :: ls => String c l :: ls
           | [] => [String c EmptyString]
           end
  end.

(** The leftmost position at which the matcher [m] succeeds, as
    [String.prototype.match] does for a pattern without the flag [g]. *)
Fixpoint search {A} (m : string -> option A) (s : string) : option A :=
  match m s with
  | Some r => Some r
  | None =>
      match s with
      | EmptyString => None
      | String _ s' => search m s'
      end
  end.

End JSString.

(** ** JavaScript numbers read from strings *)

Module JSNumber.
Import JSString.

(** The value of a digit in radix [r], if it is one. *)
Definition digitValue (r : Z) (c : ascii) : option Z :=
  let n := code c in
  let v := if (48 <=? n) && (n <=? 57) then n - 48
           else if (97 <=? n) && (n <=? 122) then n - 87
           else if (65 <=? n) && (n <=? 90) then n - 55
           else 36 in
  if v <? r then Some v else None.

(** The value of the longest prefix of digits, [None] when it is empty. *)
Fixpoint digits (r : Z) (acc : option Z) (s : string) : option Z :=
  match s with
  | EmptyString => acc
  | String c s' =>
      match digitValue r c with
      | Some v => digits r (Some (default 0 acc * r + v)) s'
      | None => acc
      end
  end.

(** [parseInt(s)] and [parseInt(s, 10)]: white space and a sign are
    skipped, [0x] selects radix 16 when no radix is given, and the
    digits that follow are read; [None] is [NaN]. *)
Definition parseInt (s : string) (radix : option Z) : option Z :=
  let s1 := snd (span isWhiteSpace s) in
  let '(sign, s2) :=
    match s1 with
    | String "-" r => (-1, r)
    | String "+" r => (1, r)
    | _ => (1, s1)
    end in
  let '(r, s3) :=
    match radix, s2 with
    | None, String "0" (String x rest) =>
        if Ascii.eqb (toUpperChar x) "X" then (16, rest) else (10, s2)
    | None, _ => (10, s2)
    | Some r, _ => (r, s2)
    end in
  match digits r None s3 with
  | Some v => Some (sign * v)
  | None => None
  end.

End JSNumber.

(** ** JavaScript dates (ECMAScript, Date objects) *)

Module JSDate.

Definition msPerDay : Z := 86400000.

Definition Day (t : Z) : Z := t / msPerDay.
Definition TimeWithinDay (t : Z) : Z := t mod msPerDay.

Definition isLeapYear (y : Z) : bool :=
  ((y mod 4 =? 0) && negb (y mod 100 =? 0)) || (y mod 400 =? 0).

Definition DaysInYear (y : Z) : Z := if isLeapYear y then 366 else 365.

Definition DayFromYear (y : Z) : Z :=
  365 * (y - 1970) + (y - 1969) / 4 - (y - 1901) / 100 + (y - 1601) / 400.

(** The year of day number [d]: the largest [y] with
    [DayFromYear y <= d] (lemma [YearFromDay_spec]), found from the
    mean length of a year and corrected by one either way. *)
Definition YearFromDay (d : Z) : Z :=
  let y := 1970 + (d * 400) / 146097 in
  if d <? DayFromYear y then y - 1
  else if DayFromYear (y + 1) <=? d then y + 1
  else y.

Definition YearFromTime (t : Z) : Z := YearFromDay (Day t).

Definition InLeapYear (t : Z) : Z :=
  if isLeapYear (YearFromTime t) then 1 else 0.

Definition DayWithinYear (t : Z) : Z := Day t - DayFromYear (YearFromTime t).

(** The day within the year on which month [m] (0 to 11) starts. *)
Definition monthStart (leap m : Z) : Z :=
  match m with
  | 0 => 0
  | 1 => 31
  | 2 => 59 + leap
  | 3 => 90 + leap
  | 4 => 120 + leap
  | 5 => 151 + leap
  | 6 => 181 + leap
  | 7 => 212 + leap
  | 8 => 243 + leap
  | 9 => 273 + leap
  | 10 => 304 + leap
  | _ => 334 + leap
  end.

Definition MonthFromTime (t : Z) : Z :=
  let d := DayWithinYear t in
  let leap := InLeapYear t in
  if d <? 31 then 0
  else if d <? 59 + leap then 1
  else if d <? 90 + leap then 2
  else if d <? 120 + leap then 3
  else if d <? 151 + leap then 4
  else if d <? 181 + leap then 5
  else if d <? 212 + leap then 6
  else if d <? 243 + leap then 7
  else if d <? 273 + leap then 8
  else if d <? 304 + leap then 9
  else if d <? 334 + leap then 10
  else 11.

Definition DateFromTime (t : Z) : Z :=
  DayWithinYear t - monthStart (InLeapYear t) (MonthFromTime t) + 1.

Definition MakeTime (hour min sec ms : Z) : Z :=
  hour * 3600000 + min * 60000 + sec * 1000 + ms.

(** [MakeDay]: the day number of the first of month [month mod 12] of
    year [year + month / 12] (lemma [MakeDay_first]), plus [date - 1];
    months and dates out of range roll over. *)
Definition MakeDay (year month date : Z) : Z :=
  let ym := year + month / 12 in
  let mn := month mod 12 in
  DayFromYear ym + monthStart (if isLeapYear ym then 1 else 0) mn + date - 1.

Definition MakeDate (day time : Z) : Z := day * msPerDay + time.

Definition TimeClip (t : Z) : option Z :=
  if Z.abs t <=? 8640000000000000 then Some t else None.

Section LocalTime.
(** The offset of local time from UTC, in milliseconds. *)
Variable tza : Z.

Definition LocalTime (t : Z) : Z := t + tza.
Definition UTC (t : Z) : Z := t - tza.

(** [new Date(year, month, date)]: local midnight; a year from 0 to
    99 means 1900 + year. *)
Definition construct (year month date : option Z) : option Z :=
  match year, month, date with
  | Some y, Some m, Some dt =>
      let yr := if (0 <=? y) && (y <=? 99) then 1900 + y else y in
      TimeClip (UTC (MakeDate (MakeDay yr m dt) (MakeTime 0 0 0 0)))
  | _, _, _ => None
  end.

(** [d.getDate()] *)
Definition getDate (d : option Z) : option Z :=
  match d with
  | Some t => Some (DateFromTime (LocalTime t))
  | None => None
  end.

(** [d.setDate(date)], returning the new time value of [d] *)
Definition setDate (d : option Z) (date : option Z) : option Z :=
  match d, date with
  | Some t0, Some dt =>
      let t := LocalTime t0 in
      TimeClip (UTC (MakeDate (MakeDay (YearFromTime t) (MonthFromTime t) dt)
                              (TimeWithinDay t)))
  | _, _ => None
  end.

(** [d.setHours(hour, min, sec, ms)] *)
Definition setHours (d : option Z) (hour min sec ms : Z) : option Z :=
  match d with
  | Some t0 =>
      let t := LocalTime t0 in
      TimeClip (UTC (MakeDate (Day t) (MakeTime hour min sec ms)))
  | None => None
  end.
End LocalTime.

(** [a >= b] on two dates: false as soon as one is invalid. *)
Definition ge (a b : option Z) : bool :=
  match a, b with
  | Some x, Some y => y <=? x
  | _, _ => false
  end.

(** [a - b] on numbers *)
Definition sub (a b : option Z) : option Z :=
  match a, b with
  | Some x, Some y => Some (x - y)
  | _, _ => None
  end.

End JSDate.

(** ** Configuration ([src/config.ts]) *)

Inductive SyncMode := full | incremental.
Inductive LogLevel := debug | info.

Record OciConfig := {
  oci_remoteName : string;
  tenancyOcid : string;
}.

Record GcsConfig := {
  gcs_remoteName : string;
  stagingBucket : string;
  hiveBucket : string;
  projectId : string;
}.

Record JobConfig := {
  syncMode : SyncMode;
  daysToSync : option Z; (* the result of [parseInt]: an integer or [NaN] *)
  dryRun : bool;
  logLevel : LogLevel;
}.

Record Config := {
  oci : OciConfig;
  gcs : GcsConfig;
  job : JobConfig;
}.

(** ** The world the stages run in *)

(** A bucket of the object store: its objects, name and content, in the
    order in which they are listed. *)
Record Bucket := {
  location : string;
  objects : list (string * string);
}.

(** The requests that the stages send to the object store. *)
Inductive Request :=
| BucketExists (bucket : string)
| CreateBucket (bucket location : string)
| GetFiles (bucket prefix : string)
| FileExists (bucket name : string)
| FileCopy (srcBucket srcName dstBucket dstName : string).

(** A call returns a value or throws; what is thrown is kept as its
    message ([err.message], or [String(err)]). *)
Inductive Outcome (A : Type) :=
| Ok (a : A)
| Throw (message : string).
Arguments Ok {A} a.
Arguments Throw {A} message.

(** What a finished child process leaves behind. *)
Record Process := {
  stdout : string;
  stderr : string;
  exitCode : Z;
}.

Record World := {
  (** the buckets of the object store, by name *)
  store : gmap string Bucket;
  (** the request number [n] (from 0) fails with this message, whatever
      the store holds: the network, permissions, quotas *)
  faults : nat -> option string;
  (** the requests sent so far, oldest first *)
  requests : list Request;
  (** the reading number [n] of the system clock, in milliseconds *)
  clock : nat -> Z;
  (** the number of readings taken so far *)
  ticks : nat;
  (** what running a command (the transfer tool) gives *)
  exec : list string -> Outcome Process;
  (** the lines logged at error level so far: step and message *)
  errlog : list (string * string);
}.

Definition setStore (s : gmap string Bucket) (w : World) : World :=
  {| store := s; faults := faults w; requests := requests w; clock := clock w;
     ticks := ticks w; exec := exec w; errlog := errlog w |}.

Definition addRequest (r : Request) (w : World) : World :=
  {| store := store w; faults := faults w; requests := requests w ++ [r];
     clock := clock w; ticks := ticks w; exec := exec w;
     errlog := errlog w |}.

Definition tick (w : World) : World :=
  {| store := store w; faults := faults w; requests := requests w;
     clock := clock w; ticks := S (ticks w); exec := exec w;
     errlog := errlog w |}.

Definition addError (step message : string) (w : World) : World :=
  {| store := store w; faults := faults w; requests := requests w;
     clock := clock w; ticks := ticks w; exec := exec w;
     errlog := errlog w ++ [(step, message)] |}.

(** Computations over the world that may throw. *)
Definition IO (A : Type) : Type := World -> Outcome A * World.

Definition ret {A} (a : A) : IO A := fun w => (Ok a, w).

Definition bind {A B} (m : IO A) (k : A -> IO B) : IO B :=
  fun w =>
    match m w with
    | (Ok a, w') => k a w'
    | (Throw e, w') => (Throw e, w')
    end.

Definition throw {A} (message : string) : IO A := fun w => (Throw message, w).

(** [try { body } catch (err) { handler }] *)
Definition tryCatch {A} (body : IO A) (handler : string -> IO A) : IO A :=
  fun w =>
    match body w with
    | (Ok a, w') => (Ok a, w')
    | (Throw e, w') => handler e w'
    end.

Declare Scope io_scope.
Delimit Scope io_scope with io.
Notation "x <- c1 ;; c2" := (bind c1 (fun x => c2))
  (at level 100, c1 at next level, right associativity) : io_scope.
Notation "c1 ;; c2" := (bind c1 (fun _ => c2))
  (at level 100, right associativity) : io_scope.
Open Scope io_scope.

(** [Date.now()], and the time value of [new Date()] *)
Definition Date_now : IO Z :=
  fun w => (Ok (clock w (ticks w)), tick w).

(** [error(step, message)] of the logger, which always prints *)
Definition error (step message : string) : IO unit :=
  fun w => (Ok tt, addError step message w).

(** *** The object store *)

Definition hasObject (b : Bucket) (name : string) : bool :=
  existsb (fun o => String.eqb (fst o) name) (objects b).

Fixpoint getObject (os : list (string * string)) (name : string)
  : option string :=
  match os with
  | [] => None
  | (n, c) :: os' => if String.eqb n name then Some c else getObject os' name
  end.

(** Writing an object replaces the one of that name, or adds it last. *)
Fixpoint putObject (os : list (string * string)) (name content : string)
  : list (string * string) :=
  match os with
  | [] => [(name, content)]
  | (n, c) :: os' =>
      if String.eqb n name then (n, content) :: os'
      else (n, c) :: putObject os' name content
  end.

(** A request is recorded, then fails if the world says so. *)
Definition send (r : Request) : IO unit :=
  fun w =>
    match faults w (length (requests w)) with
    | Some e => (Throw e, addRequest r w)
    | None => (Ok tt, addRequest r w)
    end.

(** [storage.bucket(name).exists()] *)
Definition bucket_exists (bucketName : string) : IO bool :=
  send (BucketExists bucketName) ;;
  fun w => (Ok (bool_decide (is_Some (store w !! bucketName))), w).

(** [storage.createBucket(name, { location })] *)
Definition createBucket (bucketName loc : string) : IO unit :=
  send (CreateBucket bucketName loc) ;;
  fun w =>
    match store w !! bucketName with
    | Some _ => (Throw "Conflict", w)
    | None =>
        (Ok tt,
         setStore (<[bucketName := {| location := loc; objects := [] |}]> (store w)) w)
    end.

(** [bucket.getFiles({ prefix })]: the names of the objects *)
Definition getFiles (bucketName prefix : string) : IO (list string) :=
  send (GetFiles bucketName prefix) ;;
  fun w =>
    match store w !! bucketName with
    | Some b =>
        (Ok (List.filter (fun n => JSString.startsWith n prefix) (map fst (objects b))), w)
    | None => (Throw "Not Found", w)
    end.

(** [bucket.file(name).exists()] *)
Definition file_exists (bucketName name : string) : IO bool :=
  send (FileExists bucketName name) ;;
  fun w =>
    match store w !! bucketName with
    | Some b => (Ok (hasObject b name), w)
    | None => (Ok false, w)
    end.

(** [srcBucket.file(srcName).copy(dstBucket.file(dstName))] *)
Definition file_copy (srcBucket srcName dstBucket dstName : string) : IO unit :=
  send (FileCopy srcBucket srcName dstBucket dstName) ;;
  fun w =>
    match store w !! srcBucket, store w !! dstBucket with
    | Some sb, Some db =>
        match getObject (objects sb) srcName with
        | Some content =>
            (Ok tt,
             setStore (<[dstBucket := {| location := location db;
                                         objects := putObject (objects db) dstName content |}]>
                         (store w)) w)
        | None => (Throw "Not Found", w)
        end
    | _, _ => (Throw "Not Found", w)
    end.

(** [Math.round(x / 1000)] for an integer [x] *)
Definition roundSeconds (x : Z) : Z := (x + 500) / 1000.

(** ** The Partition Stage ([src/reorganize.ts]) *)

Module Reorganize.
Import JSString.

Record ReorganizeResult := {
  files_processed : nat;
  files_copied : nat;
  files_skipped : nat;
  files_errored : nat;
  duration_seconds : Z;
}.

Record ParsedFile := {
  year : string;
  month : string;
  day : string;
  filename : string;
  fullPath : string;
  date : option Z;
}.

(** [.+\.csv\.gz$] on what is left of the path: one character or more
    that is no line terminator, then the literal [.csv.gz], then the
    end of the input. *)
Definition isFilename (s : string) : bool :=
  forallb (fun c => negb (isLineTerminator c)) s
  && endsWith s ".csv.gz"
  && (String.length ".csv.gz" <? String.length s)%nat.

(** [path.match(FILE_PATH_REGEX)], the pattern being
    [^FOCUS-Reports\/(\d{4})\/(\d{2})\/(\d{2})\/(.+\.csv\.gz)$]:
    the four captures, or [None] for [null]. *)
Definition FILE_PATH_REGEX (path : string)
  : option (string * string * string * string) :=
  r ← dropPrefix "FOCUS-Reports/" path;
  '(y, r) ← take isDigit 4 r;
  r ← dropPrefix "/" r;
  '(m, r) ← take isDigit 2 r;
  r ← dropPrefix "/" r;
  '(d, r) ← take isDigit 2 r;
  r ← dropPrefix "/" r;
  if isFilename r then Some (y, m, d, r) else None.

Definition buildHivePath (parsed : ParsedFile) : string :=
  "year=" +:+ year parsed +:+ "/month=" +:+ month parsed
    +:+ "/day=" +:+ day parsed +:+ "/" +:+ filename parsed.

Section TimeZone.
(** The offset of the process's local time from UTC. *)
Variable tza : Z.

Definition parseFilePath (path : string) : option ParsedFile :=
  match FILE_PATH_REGEX path with
  | None => None
  | Some (y, m, d, f) =>
      Some {| year := y; month := m; day := d; filename := f;
              fullPath := path;
              date := JSDate.construct tza
                        (JSNumber.parseInt y None)
                        (JSDate.sub (JSNumber.parseInt m None) (Some 1))
                        (JSNumber.parseInt d None) |}
  end.

(** The cutoff of [isWithinDateRange] when the clock reads [now]. *)
Definition cutoffDate (now : Z) (daysToSync : option Z) : option Z :=
  let cutoffDate := Some now in
  let cutoffDate :=
    JSDate.setDate tza cutoffDate
      (JSDate.sub (JSDate.getDate tza cutoffDate) daysToSync) in
  JSDate.setHours tza cutoffDate 0 0 0 0.

Definition isWithinDateRange (fileDate : option Z) (daysToSync : option Z)
  : IO bool :=
  now <- Date_now ;;
  ret (JSDate.ge fileDate (cutoffDate now daysToSync)).

Definition ensureBucketExists (bucketName loc : string) : IO bool :=
  exists_ <- bucket_exists bucketName ;;
  if negb exists_ then
    createBucket bucketName loc ;;
    ret true
  else ret true.

Definition checkBucketExists (bucketName : string) : IO bool :=
  bucket_exists bucketName.

(** The variables of the loop that parses and filters the listing. *)
Record Selection := {
  parsedFiles : list ParsedFile;
  skippedNonMatching : nat;
  skippedOutOfRange : nat;
}.

Fixpoint selectFiles (config : Config) (files : list string) (s : Selection)
  : IO Selection :=
  match files with
  | [] => ret s
  | name :: files' =>
      match parseFilePath name with
      | None =>
          selectFiles config files'
            {| parsedFiles := parsedFiles s;
               skippedNonMatching := S (skippedNonMatching s);
               skippedOutOfRange := skippedOutOfRange s |}
      | Some parsed =>
          keep <- match syncMode (job config) with
                  | incremental =>
                      isWithinDateRange (date parsed) (daysToSync (job config))
                  | full => ret true
                  end ;;
          if negb keep then
            selectFiles config files'
              {| parsedFiles := parsedFiles s;
                 skippedNonMatching := skippedNonMatching s;
                 skippedOutOfRange := S (skippedOutOfRange s) |}
          else
            selectFiles config files'
              {| parsedFiles := parsedFiles s ++ [parsed];
                 skippedNonMatching := skippedNonMatching s;
                 skippedOutOfRange := skippedOutOfRange s |}
      end
  end.

(** The variables of the loop that copies. *)
Record Progress := {
  filesCopied : nat;
  filesSkipped : nat;
  filesErrored : nat;
  errors : list (string * string);
}.

(** One turn of the copying loop. *)
Definition processFile (config : Config) (parsed : ParsedFile) (p : Progress)
  : IO Progress :=
  let hivePath := buildHivePath parsed in
  tryCatch
    (exists_ <- file_exists (hiveBucket (gcs config)) hivePath ;;
     if exists_ : bool then
       ret {| filesCopied := filesCopied p;
              filesSkipped := S (filesSkipped p);
              filesErrored := filesErrored p;
              errors := errors p |}
     else
       file_copy (stagingBucket (gcs config)) (fullPath parsed)
                 (hiveBucket (gcs config)) hivePath ;;
       ret {| filesCopied := S (filesCopied p);
              filesSkipped := filesSkipped p;
              filesErrored := filesErrored p;
              errors := errors p |})
    (fun errorMessage =>
       error "REORGANIZE"
         ("Error copying " +:+ fullPath parsed +:+ " to " +:+ hivePath
            +:+ ": " +:+ errorMessage) ;;
       ret {| filesCopied := filesCopied p;
              filesSkipped := filesSkipped p;
              filesErrored := S (filesErrored p);
              errors := errors p ++ [(fullPath parsed, errorMessage)] |}).

Fixpoint processFiles (config : Config) (files : list ParsedFile) (p : Progress)
  : IO Progress :=
  match files with
  | [] => ret p
  | parsed :: files' =>
      p' <- processFile config parsed p ;;
      processFiles config files' p'
  end.

Fixpoint reportErrors (es : list (string * string)) : IO unit :=
  match es with
  | [] => ret tt
  | e :: es' =>
      error "REORGANIZE" ("  " +:+ fst e +:+ ": " +:+ snd e) ;;
      reportErrors es'
  end.

(** [reorganizeToHive] from the listing on, once the buckets have
    been dealt with. *)
Definition reorganizeListed (config : Config) (startTime : Z)
  : IO ReorganizeResult :=
  files <- getFiles (stagingBucket (gcs config)) "FOCUS-Reports/" ;;
  sel <- selectFiles config files
           {| parsedFiles := []; skippedNonMatching := 0;
              skippedOutOfRange := 0 |} ;;
  if dryRun (job config) then
    t <- Date_now ;;
    ret {| files_processed := length (parsedFiles sel);
           files_copied := 0;
           files_skipped := 0;
           files_errored := 0;
           duration_seconds := roundSeconds (t - startTime) |}
  else
    p <- processFiles config (parsedFiles sel)
           {| filesCopied := 0; filesSkipped := 0; filesErrored := 0;
              errors := [] |} ;;
    t <- Date_now ;;
    let durationSeconds := roundSeconds (t - startTime) in
    (if (0 <? length (errors p))%nat then
       error "REORGANIZE" "Errors encountered:" ;;
       reportErrors (errors p)
     else ret tt) ;;
    ret {| files_processed := length (parsedFiles sel);
           files_copied := filesCopied p;
           files_skipped := filesSkipped p;
           files_errored := filesErrored p;
           duration_seconds := durationSeconds |}.

Definition reorganizeToHive (config : Config) : IO ReorganizeResult :=
  startTime <- Date_now ;;
  let bucketLocation := "europe-west3" in
  if dryRun (job config) then
    stagingExists <- checkBucketExists (stagingBucket (gcs config)) ;;
    hiveExists <- checkBucketExists (hiveBucket (gcs config)) ;;
    if negb stagingExists then
      t <- Date_now ;;
      ret {| files_processed := 0;
             files_copied := 0;
             files_skipped := 0;
             files_errored := 0;
             duration_seconds := roundSeconds (t - startTime) |}
    else reorganizeListed config startTime
  else
    ensureBucketExists (stagingBucket (gcs config)) bucketLocation ;;
    ensureBucketExists (hiveBucket (gcs config)) bucketLocation ;;
    reorganizeListed config startTime.
End TimeZone.

End Reorganize.

(** ** The Mirror Stage ([src/sync.ts]) *)

Module Sync.
Import JSString.

(** A JavaScript number, a finite one being an exact rational. *)
Inductive number :=
| NaN
| Infinity (negative : bool)
| Finite (q : Q).

(** The values that [JSON.parse] returns, and [undefined]. *)
#[warnings="-register-all"] Inductive JSValue :=
| Undefined
| Null
| Boolean (b : bool)
| Number (n : number)
| Str (s : string)
| Array (elements : list JSValue)
| Object (properties : list (string * JSValue)).

Record SyncResult := {
  files_transferred : JSValue;
  bytes_transferred : JSValue;
  duration_seconds : Z;
}.

Definition ofZ (z : Z) : JSValue := Number (Finite (inject_Z z)).

Definition ofInt (n : option Z) : JSValue :=
  match n with
  | Some z => ofZ z
  | None => Number NaN
  end.

Fixpoint lookupProperty (ps : list (string * JSValue)) (name : string)
  : JSValue :=
  match ps with
  | [] => Undefined
  | (n, v) :: ps' => if String.eqb n name then v else lookupProperty ps' name
  end.

(** [v.name] for a name that no prototype defines ([transfers],
    [bytes]): a [TypeError] on [null] and [undefined], an own property
    of an object, [undefined] otherwise. *)
Definition getProperty (v : JSValue) (name : string) : IO JSValue :=
  match v with
  | Undefined | Null => throw "TypeError"
  | Object ps => ret (lookupProperty ps name)
  | _ => ret Undefined
  end.

Definition truthy (v : JSValue) : bool :=
  match v with
  | Undefined | Null => false
  | Boolean b => b
  | Number NaN => false
  | Number (Infinity _) => true
  | Number (Finite q) => negb (Qeq_bool q 0)
  | Str s => negb (String.eqb s EmptyString)
  | Array _ | Object _ => true
  end.

(** [a || b] *)
Definition or (a b : JSValue) : JSValue := if truthy a then a else b.

Definition isEmpty (s : string) : bool := String.eqb s EmptyString.

(** [parseFloat(s)] on the decimal literals without exponent: digits
    with an optional fraction, or a fraction alone, after white space
    and a sign; what follows the literal is ignored. *)
Definition parseFloat (s : string) : number :=
  let s1 := snd (span isWhiteSpace s) in
  let '(sign, s2) :=
    match s1 with
    | String "-" r => (-1, r)
    | String "+" r => (1, r)
    | _ => (1, s1)
    end in
  let '(ip, r) := span isDigit s2 in
  let fp := match r with
            | String "." r' => fst (span isDigit r')
            | _ => EmptyString
            end in
  if isEmpty ip && isEmpty fp then NaN
  else
    let mantissa := default 0 (JSNumber.digits 10 None (ip +:+ fp)) in
    Finite (Qmake (sign * mantissa) (Z.to_pos (10 ^ Z.of_nat (String.length fp)))).

(** [x * k] for a whole [k] *)
Definition times (x : number) (k : Z) : number :=
  match x with
  | Finite q => Finite (Qmult q (inject_Z k))
  | _ => x
  end.

(** [Math.round(x)]: the nearest integer, a half going up *)
Definition Math_round (x : number) : number :=
  match x with
  | Finite q => Finite (inject_Z (Qfloor (Qplus q (Qmake 1 2))))
  | _ => x
  end.

(** [/Transferred:\s+(\d+)\s*\/\s*(\d+),\s*(\d+)%/] at the start of
    [s]: the three captures.  The classes that follow one another are
    disjoint, so the greedy reading is the only one. *)
Definition transferredAt (s : string) : option (string * string * string) :=
  r ← dropPrefix "Transferred:" s;
  let '(ws, r) := span isWhiteSpace r in
  if isEmpty ws then None else
  let '(n, r) := span isDigit r in
  if isEmpty n then None else
  let '(_, r) := span isWhiteSpace r in
  r ← dropPrefix "/" r;
  let '(_, r) := span isWhiteSpace r in
  let '(m, r) := span isDigit r in
  if isEmpty m then None else
  r ← dropPrefix "," r;
  let '(_, r) := span isWhiteSpace r in
  let '(p, r) := span isDigit r in
  if isEmpty p then None else
  r ← dropPrefix "%" r;
  Some (n, m, p).

(** An optional character of [cs], whatever its case: [[cs]?] under
    the flag [i]. *)
Definition optionalI (cs : string) (s : string) : string * string :=
  match s with
  | String c r =>
      if includes cs (String (toUpperChar c) EmptyString)
      then (String c EmptyString, r) else (EmptyString, s)
  | EmptyString => (EmptyString, s)
  end.

(** [/Transferred:\s+([\d.]+)\s*([KMGT]?i?B)/i] at the start of [s]:
    the two captures. *)
Definition bytesAt (s : string) : option (string * string) :=
  r ← dropPrefixI "Transferred:" s;
  let '(ws, r) := span isWhiteSpace r in
  if isEmpty ws then None else
  let '(n, r) := span (fun c => isDigit c || Ascii.eqb c ".") r in
  if isEmpty n then None else
  let '(_, r) := span isWhiteSpace r in
  let '(u1, r) := optionalI "KMGT" r in
  let '(u2, r) := optionalI "I" r in
  match r with
  | String b _ =>
      if Ascii.eqb (toUpperChar b) "B"
      then Some (n, u1 +:+ u2 +:+ String b EmptyString) else None
  | EmptyString => None
  end.

(** The factor that the unit stands for. *)
Definition unitFactor (unit : string) : Z :=
  if includes unit "K" then 1024
  else if includes unit "M" then 1024 * 1024
  else if includes unit "G" then 1024 * 1024 * 1024
  else if includes unit "T" then 1024 * 1024 * 1024 * 1024
  else 1.

Definition quote : string := String "034" EmptyString.

Section Json.
(** [JSON.parse], [None] when it throws. *)
Variable JSON_parse : string -> option JSValue.

(** The loop over the lines: the first line that holds both keys
    and parses is returned. *)
Fixpoint jsonStats (lines : list string) : option JSValue :=
  match lines with
  | [] => None
  | line :: lines' =>
      if includes line (quote +:+ "transfers" +:+ quote)
         && includes line (quote +:+ "bytes" +:+ quote)
      then match JSON_parse line with
           | Some v => Some v
           | None => jsonStats lines'
           end
      else jsonStats lines'
  end.

(** The object that the text patterns fill, a property at a time in
    the order of the assignments. *)
Definition textStats (output : string) : JSValue :=
  let stats :=
    match search transferredAt output with
    | Some (n, m, _) =>
        [("transfers", ofInt (JSNumber.parseInt n (Some 10)));
         ("totalTransfers", ofInt (JSNumber.parseInt m (Some 10)))]
    | None => []
    end in
  let stats :=
    match search bytesAt output with
    | Some (n, u) =>
        let bytes := parseFloat n in
        let unit := toUpperCase u in
        let bytes := times bytes (unitFactor unit) in
        stats ++ [("bytes", Number (Math_round bytes))]
    | None => stats
    end in
  Object stats.

Definition parseRcloneOutput (output : string) : JSValue :=
  match jsonStats (splitLines output) with
  | Some v => v
  | None => textStats output
  end.

(** [spawn({ cmd })], the two streams read and the exit awaited *)
Definition spawn (cmd : list string) : IO Process :=
  fun w => (exec w cmd, w).

Definition showZ (z : Z) : string :=
  DecimalString.NilZero.string_of_int (Z.to_int z).

(** The files listed by the dry run, and the two counters of the live
    run once formatted, only go to [info] and [debug] lines. *)
Definition syncOciToGcs (config : Config) : IO SyncResult :=
  startTime <- Date_now ;;
  let source :=
    oci_remoteName (oci config) +:+ ":" +:+ tenancyOcid (oci config)
      +:+ "/FOCUS Reports" in
  let destination :=
    gcs_remoteName (gcs config) +:+ ":" +:+ stagingBucket (gcs config)
      +:+ "/FOCUS-Reports" in
  if dryRun (job config) then
    let args := ["lsf"; source; "--recursive"; "--config"; "rclone.conf"] in
    proc <- spawn ("rclone" :: args) ;;
    if negb (exitCode proc =? 0) then
      error "SYNC" ("rclone lsf failed: " +:+ stderr proc) ;;
      throw ("rclone lsf failed with exit code " +:+ showZ (exitCode proc))
    else
      t <- Date_now ;;
      ret {| files_transferred := ofZ 0;
             bytes_transferred := ofZ 0;
             duration_seconds := roundSeconds (t - startTime) |}
  else
    let args := ["sync"; source; destination; "--config"; "rclone.conf";
                 "--stats"; "1s"; "--stats-one-line"; "--stats-log-level";
                 "NOTICE"; "-v"] in
    proc <- spawn ("rclone" :: args) ;;
    let combinedOutput :=
      stdout proc +:+ String "010" EmptyString +:+ stderr proc in
    if negb (exitCode proc =? 0) then
      error "SYNC" ("rclone sync failed with exit code " +:+ showZ (exitCode proc)) ;;
      error "SYNC" (stderr proc) ;;
      throw ("rclone sync failed with exit code " +:+ showZ (exitCode proc))
    else
      let stats := parseRcloneOutput combinedOutput in
      transfers <- getProperty stats "transfers" ;;
      let filesTransferred := or transfers (ofZ 0) in
      bytes <- getProperty stats "bytes" ;;
      let bytesTransferred := or bytes (ofZ 0) in
      t <- Date_now ;;
      ret {| files_transferred := filesTransferred;
             bytes_transferred := bytesTransferred;
             duration_seconds := roundSeconds (t - startTime) |}.
End Json.

End Sync.

(** * Vocabulary of the statements *)

Import Reorganize.

(** ** The object store *)

Definition objectExists (s : gmap string Bucket) (bucketName name : string) : bool :=
  match s !! bucketName with
  | Some b => hasObject b name
  | None => false
  end.

(** The store after a copy, when the copy can be done. *)
Definition copyObject (s : gmap string Bucket)
  (srcBucket srcName dstBucket dstName : string) : option (gmap string Bucket) :=
  match s !! srcBucket, s !! dstBucket with
  | Some sb, Some db =>
      match getObject (objects sb) srcName with
      | Some content =>
          Some (<[dstBucket := {| location := location db;
                                  objects := putObject (objects db) dstName content |}]> s)
      | None => None
      end
  | _, _ => None
  end.

(** The names that a listing of the bucket under the prefix returns. *)
Definition listing (s : gmap string Bucket) (bucketName prefix : string)
  : option (list string) :=
  match s !! bucketName with
  | Some b => Some (List.filter (fun n => JSString.startsWith n prefix) (map fst (objects b)))
  | None => None
  end.

(** The requests that change the store. *)
Definition mutating (r : Request) : bool :=
  match r with
  | CreateBucket _ _ | FileCopy _ _ _ _ => true
  | _ => false
  end.

(** ** The copying loop *)

Definition copiedOne (p : Progress) : Progress :=
  {| filesCopied := S (filesCopied p); filesSkipped := filesSkipped p;
     filesErrored := filesErrored p; errors := errors p |}.

Definition skippedOne (p : Progress) : Progress :=
  {| filesCopied := filesCopied p; filesSkipped := S (filesSkipped p);
     filesErrored := filesErrored p; errors := errors p |}.

Definition erroredOne (path message : string) (p : Progress) : Progress :=
  {| filesCopied := filesCopied p; filesSkipped := filesSkipped p;
     filesErrored := S (filesErrored p);
     errors := errors p ++ [(path, message)] |}.

Definition existsRequest (config : Config) (parsed : ParsedFile) : Request :=
  FileExists (hiveBucket (gcs config)) (buildHivePath parsed).

Definition copyRequest (config : Config) (parsed : ParsedFile) : Request :=
  FileCopy (stagingBucket (gcs config)) (fullPath parsed)
           (hiveBucket (gcs config)) (buildHivePath parsed).

(** Whether the store holds the destination of [parsed]. *)
Definition destExists (config : Config) (parsed : ParsedFile)
  (s : gmap string Bucket) : bool :=
  objectExists s (hiveBucket (gcs config)) (buildHivePath parsed).

Definition copied (config : Config) (parsed : ParsedFile)
  (s : gmap string Bucket) : option (gmap string Bucket) :=
  copyObject s (stagingBucket (gcs config)) (fullPath parsed)
    (hiveBucket (gcs config)) (buildHivePath parsed).

Definition errorLine (parsed : ParsedFile) (e : string) : string :=
  "Error copying " +:+ fullPath parsed +:+ " to " +:+ buildHivePath parsed
    +:+ ": " +:+ e.

(** The body of the [try] of one turn: the check and, when the
    destination is absent, the copy. *)
Definition attempt (config : Config) (parsed : ParsedFile) (p : Progress)
  : IO Progress :=
  exists_ <- file_exists (hiveBucket (gcs config)) (buildHivePath parsed) ;;
  if exists_ : bool then ret (skippedOne p)
  else
    file_copy (stagingBucket (gcs config)) (fullPath parsed)
              (hiveBucket (gcs config)) (buildHivePath parsed) ;;
    ret (copiedOne p).

(** The world and the counters after the object [parsed] failed with
    the message [e]. *)
Definition failedWith (parsed : ParsedFile) (e : string) (p : Progress) (w : World)
  : Progress * World :=
  (erroredOne (fullPath parsed) e p,
   addError "REORGANIZE" (errorLine parsed e) w).

(** What one turn of the loop does, case by case. *)
Definition turn (config : Config) (parsed : ParsedFile) (p : Progress) (w : World)
  : Progress * World :=
  let n := length (requests w) in
  let w1 := addRequest (existsRequest config parsed) w in
  match faults w n with
  | Some e => failedWith parsed e p w1
  | None =>
      if destExists config parsed (store w) then (skippedOne p, w1)
      else
        let w2 := addRequest (copyRequest config parsed) w1 in
        match faults w (S n) with
        | Some e => failedWith parsed e p w2
        | None =>
            match copied config parsed (store w) with
            | Some s' => (copiedOne p, setStore s' w2)
            | None => failedWith parsed "Not Found" p w2
            end
        end
  end.

Fixpoint turns (config : Config) (files : list ParsedFile) (p : Progress) (w : World)
  : Progress * World :=
  match files with
  | [] => (p, w)
  | parsed :: files' =>
      turns config files' (fst (turn config parsed p w)) (snd (turn config parsed p w))
  end.

(** The number of objects accounted for. *)
Definition accounted (p : Progress) : nat :=
  (filesCopied p + filesSkipped p + filesErrored p)%nat.

(** ** The loop that parses and filters *)

Definition keepFile (parsed : ParsedFile) (s : Selection) : Selection :=
  {| parsedFiles := parsedFiles s ++ [parsed];
     skippedNonMatching := skippedNonMatching s;
     skippedOutOfRange := skippedOutOfRange s |}.

Definition dropNonMatching (s : Selection) : Selection :=
  {| parsedFiles := parsedFiles s;
     skippedNonMatching := S (skippedNonMatching s);
     skippedOutOfRange := skippedOutOfRange s |}.

Definition dropOutOfRange (s : Selection) : Selection :=
  {| parsedFiles := parsedFiles s;
     skippedNonMatching := skippedNonMatching s;
     skippedOutOfRange := S (skippedOutOfRange s) |}.

(** What the loop does with one listed name. *)
Definition choose (tza : Z) (config : Config) (name : string) (s : Selection) (w : World)
  : Selection * World :=
  match parseFilePath tza name with
  | None => (dropNonMatching s, w)
  | Some parsed =>
      match syncMode (job config) with
      | full => (keepFile parsed s, w)
      | incremental =>
          if JSDate.ge (date parsed)
               (cutoffDate tza (clock w (ticks w)) (daysToSync (job config)))
          then (keepFile parsed s, tick w)
          else (dropOutOfRange s, tick w)
      end
  end.

Fixpoint chosen (tza : Z) (config : Config) (files : list string) (s : Selection) (w : World)
  : Selection * World :=
  match files with
  | [] => (s, w)
  | name :: files' =>
      chosen tza config files' (fst (choose tza config name s w))
        (snd (choose tza config name s w))
  end.

(** The parsed object of a listed name that a run in [mode] retains
    when the cutoff of the window is [cutoff]. *)
Definition eligible (tza : Z) (mode : SyncMode) (cutoff : option Z) (name : string)
  : option ParsedFile :=
  match parseFilePath tza name with
  | Some parsed =>
      match mode with
      | full => Some parsed
      | incremental =>
          if JSDate.ge (date parsed) cutoff then Some parsed else None
      end
  | None => None
  end.

(** The window does not move while the world [w] lasts: every reading
    of the clock gives the cutoff [c]. *)
Definition steadyWindow (tza : Z) (config : Config) (w : World) (c : option Z) : Prop :=
  syncMode (job config) = full \/
  forall i, cutoffDate tza (clock w i) (daysToSync (job config)) = c.

(** The names of the objects of a bucket, none when it does not exist. *)
Definition objectNames (s : gmap string Bucket) (bucketName : string) : list string :=
  match s !! bucketName with
  | Some b => map fst (objects b)
  | None => []
  end.

Definition emptySelection : Selection :=
  {| parsedFiles := []; skippedNonMatching := 0; skippedOutOfRange := 0 |}.

Definition noProgress : Progress :=
  {| filesCopied := 0; filesSkipped := 0; filesErrored := 0; errors := [] |}.

(** ** The stage as a whole *)

Definition addErrors (lines : list (string * string)) (w : World) : World :=
  fold_left (fun w l => addError (fst l) (snd l) w) lines w.

Definition reportLines (es : list (string * string)) : list (string * string) :=
  map (fun e => ("REORGANIZE", "  " +:+ fst e +:+ ": " +:+ snd e)) es.

(** The world after the errors of the run have been reported. *)
Definition reported (p : Progress) (w : World) : World :=
  if (0 <? length (errors p))%nat
  then addErrors (("REORGANIZE", "Errors encountered:") :: reportLines (errors p)) w
  else w.

Definition listRequest (config : Config) : Request :=
  GetFiles (stagingBucket (gcs config)) "FOCUS-Reports/".

(** The result and the world of a run that started at [startTime],
    from the listing [files] on. *)
Definition runListed (tza : Z) (config : Config) (startTime : Z)
  (files : list string) (w : World) : ReorganizeResult * World :=
  let sel := fst (chosen tza config files emptySelection w) in
  let w2 := snd (chosen tza config files emptySelection w) in
  if dryRun (job config) then
    ({| files_processed := length (parsedFiles sel);
        files_copied := 0; files_skipped := 0; files_errored := 0;
        duration_seconds := roundSeconds (clock w2 (ticks w2) - startTime) |},
     tick w2)
  else
    let p := fst (turns config (parsedFiles sel) noProgress w2) in
    let w3 := snd (turns config (parsedFiles sel) noProgress w2) in
    ({| files_processed := length (parsedFiles sel);
        files_copied := filesCopied p;
        files_skipped := filesSkipped p;
        files_errored := filesErrored p;
        duration_seconds := roundSeconds (clock w3 (ticks w3) - startTime) |},
     reported p (tick w3)).

(** The parts of the world that no call changes. *)
Definition sameOracles (w w' : World) : Prop :=
  faults w' = faults w /\ clock w' = clock w /\ exec w' = exec w.

(** The requests about buckets. *)
Definition aboutBucket (r : Request) : bool :=
  match r with
  | BucketExists _ | CreateBucket _ _ => true
  | _ => false
  end.

(** The requests that one turn of the copying loop sends. *)
Definition turnRequests (config : Config) (parsed : ParsedFile) (w : World)
  : list Request :=
  match faults w (length (requests w)) with
  | Some _ => [existsRequest config parsed]
  | None =>
      if destExists config parsed (store w) then [existsRequest config parsed]
      else [existsRequest config parsed; copyRequest config parsed]
  end.

Fixpoint turnsRequests (config : Config) (files : list ParsedFile) (p : Progress)
  (w : World) : list Request :=
  match files with
  | [] => []
  | parsed :: files' =>
      turnRequests config parsed w ++
      turnsRequests config files' (fst (turn config parsed p w))
        (snd (turn config parsed p w))
  end.

Definition isFileExists (r : Request) : bool :=
  match r with FileExists _ _ => true | _ => false end.

Definition isFileCopy (r : Request) : bool :=
  match r with FileCopy _ _ _ _ => true | _ => false end.

(** The store can serve the copies of [files]: the destination bucket
    exists and the staging bucket holds every source. *)
Definition ready (config : Config) (files : list ParsedFile) (s : gmap string Bucket)
  : Prop :=
  is_Some (s !! hiveBucket (gcs config)) /\
  forall f, In f files ->
    exists sb c, s !! stagingBucket (gcs config) = Some sb /\
                 getObject (objects sb) (fullPath f) = Some c.

(** ** Staged keys *)

(** A string of [n] decimal digits. *)
Definition digitString (n : nat) (s : string) : Prop :=
  String.length s = n /\ JSString.forallb JSString.isDigit s = true.

(** The structure [FOCUS-Reports/<4 digits>/<2 digits>/<2 digits>/<name>.csv.gz]
    of a staged key. *)
Definition stagedKey (path : string) : Prop :=
  exists y m d name,
    path = "FOCUS-Reports/" +:+ y +:+ "/" +:+ m +:+ "/" +:+ d +:+ "/"
             +:+ name +:+ ".csv.gz" /\
    digitString 4 y /\ digitString 2 m /\ digitString 2 d /\
    name <> EmptyString.

(** No character of [s] ends a line. *)
Definition oneLine (s : string) : bool :=
  JSString.forallb (fun c => negb (JSString.isLineTerminator c)) s.

(** ** The Mirror Stage *)

(** The command line of the live transfer. *)
Definition syncCommand (config : Config) : list string :=
  ["rclone"; "sync";
   oci_remoteName (oci config) +:+ ":" +:+ tenancyOcid (oci config) +:+ "/FOCUS Reports";
   gcs_remoteName (gcs config) +:+ ":" +:+ stagingBucket (gcs config) +:+ "/FOCUS-Reports";
   "--config"; "rclone.conf"; "--stats"; "1s"; "--stats-one-line";
   "--stats-log-level"; "NOTICE"; "-v"].

(** The command line of the dry run. *)
Definition listCommand (config : Config) : list string :=
  ["rclone"; "lsf";
   oci_remoteName (oci config) +:+ ":" +:+ tenancyOcid (oci config) +:+ "/FOCUS Reports";
   "--recursive"; "--config"; "rclone.conf"].

(** A line that is tried as a structured progress line. *)
Definition structured (line : string) : bool :=
  JSString.includes line (Sync.quote +:+ "transfers" +:+ Sync.quote)
  && JSString.includes line (Sync.quote +:+ "bytes" +:+ Sync.quote).

(** What the pattern of the transfer counts gives. *)
Definition transferFields (output : string) : list (string * Sync.JSValue) :=
  match JSString.search Sync.transferredAt output with
  | Some (n, m, _) =>
      [("transfers", Sync.ofInt (JSNumber.parseInt n (Some 10)));
       ("totalTransfers", Sync.ofInt (JSNumber.parseInt m (Some 10)))]
  | None => []
  end.

(** What the pattern of the byte quantity gives. *)
Definition byteFields (output : string) : list (string * Sync.JSValue) :=
  match JSString.search Sync.bytesAt output with
  | Some (n, u) =>
      [("bytes",
        Sync.Number (Sync.Math_round
                       (Sync.times (Sync.parseFloat n)
                          (Sync.unitFactor (JSString.toUpperCase u)))))]
  | None => []
  end.

(** The property [name] of a value that is not [null]. *)
Definition property (v : Sync.JSValue) (name : string) : Sync.JSValue :=
  match v with
  | Sync.Object ps => Sync.lookupProperty ps name
  | _ => Sync.Undefined
  end.

(** The units that the byte pattern captures, in upper case, with the
    number of steps of 1024 that each stands for. *)
Definition unitSteps : list (string * Z) :=
  [("B", 0); ("IB", 0); ("KB", 1); ("KIB", 1); ("MB", 2); ("MIB", 2);
   ("GB", 3); ("GIB", 3); ("TB", 4); ("TIB", 4)].

Definition newline : string := String "010" EmptyString.

(** The text of the specification's example of a byte quantity. *)
Definition gibLine : string := "Transferred: 1.5 GiB".

(** ** Concrete inputs *)

(** A key of the 13th month, and the key of the day it stands for. *)
Definition rolledKey : string := "FOCUS-Reports/2024/13/40/x.csv.gz".

(** An output in which a smaller byte quantity comes first. *)
Definition twoQuantities : string :=
  "Transferred: 1 B" +:+ newline +:+ gibLine.

Definition exampleConfig (mode : SyncMode) (dry : bool) : Config :=
  {| oci := {| oci_remoteName := "oci"; tenancyOcid := "tenancy" |};
     gcs := {| gcs_remoteName := "gcs"; stagingBucket := "staging";
               hiveBucket := "hive"; projectId := "project" |};
     job := {| syncMode := mode; daysToSync := Some 7; dryRun := dry;
               logLevel := info |} |}.

(** 13:45 UTC on the 15th of June 2024. *)
Definition exampleNow : Z := 1718459100000.

(** A world whose staging bucket holds [objs], whose destination
    bucket is empty, whose requests fail as [f] says and whose clock
    stands at [exampleNow]. *)
Definition exampleWorld (objs : list (string * string)) (f : nat -> option string)
  : World :=
  {| store := <["hive" := {| location := "europe-west3"; objects := [] |}]>
                (<["staging" := {| location := "europe-west3"; objects := objs |}]> ∅);
     faults := f;
     requests := [];
     clock := fun _ => exampleNow;
     ticks := 0;
     exec := fun _ => Throw "ENOENT";
     errlog := [] |}.


Definition noFault : nat -> option string := fun _ => None.

(** Only the request number [k] fails. *)
Definition faultAt (k : nat) (e : string) : nat -> option string :=
  fun n => if (n =? k)%nat then Some e else None.

(** Ten reports of June 2024, one a day from the 6th to the 15th. *)
Definition tenReports : list (string * string) :=
  map (fun d => ("FOCUS-Reports/2024/06/" +:+ d +:+ "/report.csv.gz", "data " +:+ d))
    ["06"; "07"; "08"; "09"; "10"; "11"; "12"; "13"; "14"; "15"].

(** A world in which the transfer tool ends as [p] says. *)
Definition toolWorld (p : Outcome Process) : World :=
  {| store := ∅; faults := noFault; requests := []; clock := fun _ => exampleNow;
     ticks := 0; exec := fun _ => p; errlog := [] |}.

(** A JSON array that names both keys, and a parser that knows it. *)
Definition keysLine : string :=
  "[" +:+ Sync.quote +:+ "transfers" +:+ Sync.quote +:+ ","
      +:+ Sync.quote +:+ "bytes" +:+ Sync.quote +:+ "]".

Definition parseKeysLine (line : string) : option Sync.JSValue :=
  if String.eqb line keysLine
  then Some (Sync.Array [Sync.Str "transfers"; Sync.Str "bytes"])
  else None.

(** * More of the code

    The rest of the program around the two stages: how the
    configuration is read from the environment ([src/config.ts],
    [loadConfig]) and the entry point that runs the stages in turn and
    ends the process ([src/index.ts], [main]), with the vocabulary of
    the properties that follow.

    - The environment [process.env] is a finite map from the names of
      the variables to their values, a parameter of [loadConfig].
    - [process.exit(status)] ends [main]: [main] is a function from the
      world to the way the process ends (its status, and the
      statistics it printed, if any) and the world it leaves.
    - The Mirror Stage of the embedding does not touch the buckets;
      what the command it runs does to them is a parameter of [main],
      applied when the stage ends. *)

(** ** Vocabulary for the contents of the store *)

(** The content of the object [name] of the bucket [bucketName]. *)
Definition objectContent (s : gmap string Bucket) (bucketName name : string)
  : option string :=
  match s !! bucketName with
  | Some b => getObject (objects b) name
  | None => None
  end.

(** Every object of [s] is in [s'] with the content it had. *)
Definition keepsObjects (s s' : gmap string Bucket) : Prop :=
  forall b n c, objectContent s b n = Some c -> objectContent s' b n = Some c.

(** The two stores hold the same objects. *)
Definition sameObjects (s s' : gmap string Bucket) : Prop :=
  forall b n, objectContent s' b n = objectContent s b n.

(** The requests about objects. *)
Definition aboutObject (r : Request) : bool :=
  match r with
  | FileExists _ _ | FileCopy _ _ _ _ => true
  | _ => false
  end.

(** ** Vocabulary for the calendar *)

(** The number of days of the month [m] (1 to 12). *)
Definition daysInMonth (leap : bool) (m : Z) : Z :=
  match m with
  | 2 => if leap then 29 else 28
  | 4 | 6 | 9 | 11 => 30
  | _ => 31
  end.

(** The year that [new Date(y, ...)] means by the number [y]. *)
Definition fullYear (y : Z) : Z :=
  if (0 <=? y) && (y <=? 99) then 1900 + y else y.

(** ** Reading the configuration ([src/config.ts]) *)

(** [c.toLowerCase()] on an 8-bit code unit: the letters A to Z and
    the capital letters of Latin-1. *)
Definition toLowerChar (c : ascii) : ascii :=
  let n := JSString.code c in
  if ((65 <=? n) && (n <=? 90))
     || ((192 <=? n) && (n <=? 222) && negb (n =? 215))
  then ascii_of_N (Z.to_N (n + 32)) else c.

(** [s.toLowerCase()] *)
Fixpoint toLowerCase (s : string) : string :=
  match s with
  | EmptyString => EmptyString
  | String c s' => String (toLowerChar c) (toLowerCase s')
  end.

Module Configuration.

(** The cast [as "full" | "incremental"] checks nothing: the mode is a
    string that the stages only compare with ["incremental"]. *)
Definition asSyncMode (s : string) : SyncMode :=
  if String.eqb s "incremental" then incremental else full.

(** The same for the log level, which the logger only compares with
    ["debug"]. *)
Definition asLogLevel (s : string) : LogLevel :=
  if String.eqb s "debug" then debug else info.

Section Environment.
(** [process.env]: the variables that are set, with their values. *)
Variable env : gmap string string.

Definition getRequiredEnv (name : string) : IO string :=
  match env !! name with
  | Some value =>
      if String.eqb value EmptyString
      then throw ("Missing required environment variable: " +:+ name)
      else ret value
  | None => throw ("Missing required environment variable: " +:+ name)
  end.

(** [process.env[name] || defaultValue] *)
Definition getOptionalEnv (name defaultValue : string) : string :=
  match env !! name with
  | Some value => if String.eqb value EmptyString then defaultValue else value
  | None => defaultValue
  end.

(** The properties of the object literal are evaluated in the order in
    which they are written. *)
Definition loadConfig : IO Config :=
  let ociRemote := getOptionalEnv "OCI_RCLONE_REMOTE" "oci-usage-reports-config" in
  tenancy <- getRequiredEnv "OCI_TENANCY_OCID" ;;
  let gcsRemote := getOptionalEnv "GCS_RCLONE_REMOTE" "gcs-config" in
  staging <- getRequiredEnv "GCS_STAGING_BUCKET" ;;
  hive <- getRequiredEnv "GCS_HIVE_BUCKET" ;;
  project <- getRequiredEnv "GCS_PROJECT_ID" ;;
  ret {| oci := {| oci_remoteName := ociRemote; tenancyOcid := tenancy |};
         gcs := {| gcs_remoteName := gcsRemote; stagingBucket := staging;
                   hiveBucket := hive; projectId := project |};
         job := {| syncMode := asSyncMode (getOptionalEnv "SYNC_MODE" "incremental");
                   daysToSync :=
                     JSNumber.parseInt (getOptionalEnv "DAYS_TO_SYNC" "7") (Some 10);
                   dryRun :=
                     String.eqb (toLowerCase (getOptionalEnv "DRY_RUN" "false")) "true";
                   logLevel := asLogLevel (getOptionalEnv "LOG_LEVEL" "info") |} |}.
End Environment.

End Configuration.

(** ** The entry point ([src/index.ts]) *)

Module Main.

Record JobStatistics := {
  sync : Sync.SyncResult;
  reorganize : ReorganizeResult;
  total_duration_seconds : Z;
}.

(** How the process ends: the status passed to [process.exit], and the
    statistics written to the standard output, if any were. *)
Record Exit := {
  status : Z;
  printed : option JobStatistics;
}.

Section Job.
Variable tza : Z.
Variable JSON_parse : string -> option Sync.JSValue.
Variable env : gmap string string.
(** What running a command of the transfer tool does to the buckets. *)
Variable rclone : list string -> gmap string Bucket -> gmap string Bucket.

(** The command that the Mirror Stage runs. *)
Definition command (config : Config) : list string :=
  if dryRun (job config) then listCommand config else syncCommand config.

(** The Mirror Stage with what its command does to the buckets; the
    stage itself neither reads the buckets nor sends them a request. *)
Definition mirror (config : Config) : IO Sync.SyncResult :=
  fun w =>
    let '(out, w') := Sync.syncOciToGcs JSON_parse config w in
    (out, setStore (rclone (command config) (store w')) w').

(** [try { ... } catch (err) { error("MAIN", label + message);
    process.exit(1) }], followed by the rest of [main]. *)
Definition orExit {A} (body : IO A) (label : string)
  (rest : A -> World -> Exit * World) : World -> Exit * World :=
  fun w =>
    match body w with
    | (Ok a, w') => rest a w'
    | (Throw message, w') =>
        ({| status := 1; printed := None |},
         addError "MAIN" (label +:+ message) w')
    end.

Definition main : World -> Exit * World :=
  fun w =>
    let totalStartTime := clock w (ticks w) in
    orExit (Configuration.loadConfig env) "Configuration error: " (fun config =>
    orExit (mirror config) "Sync step failed: " (fun syncResult =>
    orExit (reorganizeToHive tza config) "Reorganize step failed: "
      (fun reorganizeResult w' =>
         let totalDurationSeconds :=
           roundSeconds (clock w' (ticks w') - totalStartTime) in
         let statistics :=
           {| sync := syncResult; reorganize := reorganizeResult;
              total_duration_seconds := totalDurationSeconds |} in
         if (0 <? files_errored reorganizeResult)%nat then
           ({| status := 1; printed := Some statistics |},
            addError "MAIN"
              ("Job completed with "
                 +:+ Sync.showZ (Z.of_nat (files_errored reorganizeResult))
                 +:+ " errors")
              (tick w'))
         else ({| status := 0; printed := Some statistics |}, tick w'))))
      (tick w).
End Job.

End Main.

(** ** Vocabulary for the configuration *)

(** The variables without which [loadConfig] throws, in the order in
    which it reads them. *)
Definition required : list string :=
  ["OCI_TENANCY_OCID"; "GCS_STAGING_BUCKET"; "GCS_HIVE_BUCKET"; "GCS_PROJECT_ID"].

(** The variable is set to a value that is not empty. *)
Definition provided (env : gmap string string) (name : string) : bool :=
  match env !! name with
  | Some value => negb (String.eqb value EmptyString)
  | None => false
  end.

(** ** Vocabulary for the Mirror Stage *)

(** The world [w] with the transfer tool [e] in place of its own. *)
Definition withExec (e : list string -> Outcome Process) (w : World) : World :=
  {| store := store w; faults := faults w; requests := requests w;
     clock := clock w; ticks := ticks w; exec := e; errlog := errlog w |}.


(** The message of the Mirror Stage when its command fails. *)
Definition failedCommand (config : Config) (code : Z) : string :=
  (if dryRun (job config) then "rclone lsf" else "rclone sync")
    +:+ " failed with exit code " +:+ Sync.showZ code.

(** The counter that a live run reads from the property [name] of the
    statistics. *)
Definition counter (stats : Sync.JSValue) (name : string) : Sync.JSValue :=
  Sync.or (property stats name) (Sync.ofZ 0).



(** ** More concrete inputs *)

(** The world of [exampleWorld] with the ten reports, when the
    destination already holds the partition of the 10th of June with
    an older content. *)
Definition seededWorld (f : nat -> option string) : World :=
  {| store := <["hive" := {| location := "europe-west3";
                             objects := [("year=2024/month=06/day=10/report.csv.gz",
                                          "older")] |}]>
                (<["staging" := {| location := "europe-west3";
                                   objects := tenReports |}]> ∅);
     faults := f;
     requests := [];
     clock := fun _ => exampleNow;
     ticks := 0;
     exec := fun _ => Throw "ENOENT";
     errlog := [] |}.

(** The report of day [d] of June 2024, parsed. *)
Definition reportOf (d : string) (t : Z) : ParsedFile :=
  {| year := "2024"; month := "06"; day := d; filename := "report.csv.gz";
     fullPath := "FOCUS-Reports/2024/06/" +:+ d +:+ "/report.csv.gz";
     date := Some t |}.

(** The four required variables, after the variables [more]. *)
Definition exampleEnv (more : list (string * string)) : gmap string string :=
  list_to_map
    (more ++ [("OCI_TENANCY_OCID", "tenancy"); ("GCS_STAGING_BUCKET", "staging");
              ("GCS_HIVE_BUCKET", "hive"); ("GCS_PROJECT_ID", "project")]).

(** The configuration that [exampleEnv] gives when [more] sets
    neither remote. *)
Definition loadedConfig (mode : SyncMode) (days : option Z) (dry : bool) : Config :=
  {| oci := {| oci_remoteName := "oci-usage-reports-config"; tenancyOcid := "tenancy" |};
     gcs := {| gcs_remoteName := "gcs-config"; stagingBucket := "staging";
               hiveBucket := "hive"; projectId := "project" |};
     job := {| syncMode := mode; daysToSync := days; dryRun := dry;
               logLevel := info |} |}.

(** A transfer tool whose every command prints [out] and [err] and
    exits with [code]. *)
Definition toolThat (out err : string) (code : Z) : Outcome Process :=
  Ok {| stdout := out; stderr := err; exitCode := code |}.

(** A transfer that leaves the ten reports in the staging bucket; a
    listing changes nothing. *)
Definition deliverReports (cmd : list string) (s : gmap string Bucket)
  : gmap string Bucket :=
  match cmd with
  | _ :: "sync" :: _ =>
      <["staging" := {| location := "europe-west3"; objects := tenReports |}]> s
  | _ => s
  end.

(** A tool that answers a listing and refuses a transfer. *)
Definition listingOnly (p : Outcome Process) (cmd : list string) : Outcome Process :=
  match cmd with
  | _ :: "sync" :: _ => Throw "not in a dry run"
  | _ => p
  end.

(** The output of a transfer of three files. *)
Definition threeFiles : string :=
  "Transferred: 3 / 3, 100%" +:+ newline +:+ "Transferred: 2.5 MiB".

(** * Properties *)

(** ** The calendar *)

Ltac div_lia := Z.div_mod_to_equations; lia.

Lemma quarter_step y :
  (y + 1 - 1969) / 4 = (y - 1969) / 4 + (if y mod 4 =? 0 then 1 else 0).
Proof. destruct (y mod 4 =? 0) eqn:E; rewrite ?Z.eqb_eq, ?Z.eqb_neq in E; div_lia. Qed.

Lemma century_step y :
  (y + 1 - 1901) / 100 = (y - 1901) / 100 + (if y mod 100 =? 0 then 1 else 0).
Proof. destruct (y mod 100 =? 0) eqn:E; rewrite ?Z.eqb_eq, ?Z.eqb_neq in E; div_lia. Qed.

Lemma quadricentennial_step y :
  (y + 1 - 1601) / 400 = (y - 1601) / 400 + (if y mod 400 =? 0 then 1 else 0).
Proof. destruct (y mod 400 =? 0) eqn:E; rewrite ?Z.eqb_eq, ?Z.eqb_neq in E; div_lia. Qed.

(** A year is as long as [DaysInYear] says. *)
Lemma DayFromYear_succ y :
  JSDate.DayFromYear (y + 1) = JSDate.DayFromYear y + JSDate.DaysInYear y.
Proof.
  unfold JSDate.DayFromYear, JSDate.DaysInYear, JSDate.isLeapYear.
  rewrite quarter_step, century_step, quadricentennial_step.
  generalize ((y - 1969) / 4) ((y - 1901) / 100) ((y - 1601) / 400); intros a b c.
  assert (H1 : y mod 100 = 0 -> y mod 4 = 0) by (intros; div_lia).
  assert (H2 : y mod 400 = 0 -> y mod 100 = 0) by (intros; div_lia).
  destruct (y mod 4 =? 0) eqn:E4; destruct (y mod 100 =? 0) eqn:E100;
    destruct (y mod 400 =? 0) eqn:E400; cbn [orb andb negb];
    rewrite ?Z.eqb_eq, ?Z.eqb_neq in *; lia.
Qed.

(** [YearFromDay d] is the year that holds the day [d]. *)
Lemma YearFromDay_spec d :
  JSDate.DayFromYear (JSDate.YearFromDay d) <= d
  < JSDate.DayFromYear (JSDate.YearFromDay d + 1).
Proof.
  unfold JSDate.YearFromDay.
  set (y := 1970 + d * 400 / 146097).
  assert (Hlo : JSDate.DayFromYear (y - 1) <= d)
    by (unfold JSDate.DayFromYear, y; div_lia).
  assert (Hhi : d < JSDate.DayFromYear (y + 2))
    by (unfold JSDate.DayFromYear, y; div_lia).
  destruct (d <? JSDate.DayFromYear y) eqn:E1;
    [apply Z.ltb_lt in E1 | apply Z.ltb_ge in E1].
  - replace (y - 1 + 1) with y by lia. lia.
  - destruct (JSDate.DayFromYear (y + 1) <=? d) eqn:E2;
      [apply Z.leb_le in E2 | apply Z.leb_gt in E2].
    + replace (y + 1 + 1) with (y + 2) by lia. lia.
    + lia.
Qed.

Lemma MonthFromTime_range t : 0 <= JSDate.MonthFromTime t <= 11.
Proof.
  unfold JSDate.MonthFromTime.
  repeat match goal with
         | |- context [if ?b then _ else _] => destruct b
         end; lia.
Qed.

(** Setting the date of [t] to its own date plus [k] moves it by [k]
    days. *)
Lemma MakeDay_own t k :
  JSDate.MakeDay (JSDate.YearFromTime t) (JSDate.MonthFromTime t)
    (JSDate.DateFromTime t + k) = JSDate.Day t + k.
Proof.
  pose proof (MonthFromTime_range t) as Hm.
  unfold JSDate.MakeDay, JSDate.DateFromTime, JSDate.DayWithinYear, JSDate.InLeapYear.
  replace (JSDate.MonthFromTime t / 12) with 0 by div_lia.
  replace (JSDate.MonthFromTime t mod 12) with (JSDate.MonthFromTime t) by div_lia.
  rewrite Z.add_0_r.
  generalize (JSDate.monthStart (if JSDate.isLeapYear (JSDate.YearFromTime t) then 1 else 0)
                (JSDate.MonthFromTime t)).
  intros. lia.
Qed.

Lemma TimeClip_Some t u : JSDate.TimeClip t = Some u -> u = t.
Proof. unfold JSDate.TimeClip. destruct (_ <=? _); congruence. Qed.

Lemma Day_midnight d s :
  0 <= s < JSDate.msPerDay -> JSDate.Day (d * JSDate.msPerDay + s) = d.
Proof. unfold JSDate.Day, JSDate.msPerDay. intros. div_lia. Qed.

Lemma TimeWithinDay_range t : 0 <= JSDate.TimeWithinDay t < JSDate.msPerDay.
Proof. unfold JSDate.TimeWithinDay, JSDate.msPerDay. div_lia. Qed.

(** The cutoff, when it is a date, is the local midnight that starts
    the day [n] days before the day of [now]. *)
Lemma cutoffDate_midnight tza now n c :
  cutoffDate tza now (Some n) = Some c ->
  JSDate.LocalTime tza c =
  (JSDate.Day (JSDate.LocalTime tza now) - n) * JSDate.msPerDay.
Proof.
  unfold cutoffDate, JSDate.setDate, JSDate.getDate, JSDate.sub, JSDate.setHours.
  set (t := JSDate.LocalTime tza now).
  replace (JSDate.DateFromTime t - n) with (JSDate.DateFromTime t + - n) by lia.
  rewrite MakeDay_own.
  destruct (JSDate.TimeClip _) as [u|] eqn:Hu; [|discriminate].
  apply TimeClip_Some in Hu. intros Hc. apply TimeClip_Some in Hc.
  subst c u. unfold JSDate.LocalTime, JSDate.UTC, JSDate.MakeDate, JSDate.MakeTime.
  ring_simplify (JSDate.Day t + - n) .
  replace ((JSDate.Day t - n) * JSDate.msPerDay + JSDate.TimeWithinDay t - tza + tza)
    with ((JSDate.Day t - n) * JSDate.msPerDay + JSDate.TimeWithinDay t) by lia.
  rewrite Day_midnight by apply TimeWithinDay_range. lia.
Qed.

(** A date built from a year, a month and a day is a local midnight. *)
Lemma construct_midnight tza y m d t :
  JSDate.construct tza y m d = Some t ->
  JSDate.TimeWithinDay (JSDate.LocalTime tza t) = 0.
Proof.
  unfold JSDate.construct.
  destruct y as [y|]; [|discriminate].
  destruct m as [m|]; [|discriminate].
  destruct d as [d|]; [|discriminate].
  intros H. apply TimeClip_Some in H. subst t.
  unfold JSDate.LocalTime, JSDate.UTC, JSDate.MakeDate, JSDate.MakeTime,
    JSDate.TimeWithinDay, JSDate.msPerDay.
  generalize (JSDate.MakeDay (if (0 <=? y) && (y <=? 99) then 1900 + y else y) m d).
  intros. div_lia.
Qed.

(** Comparing a local midnight with the cutoff compares the days. *)
Lemma ge_cutoff tza now n c t :
  cutoffDate tza now (Some n) = Some c ->
  JSDate.TimeWithinDay (JSDate.LocalTime tza t) = 0 ->
  JSDate.ge (Some t) (Some c) =
  (JSDate.Day (JSDate.LocalTime tza now) - n <=? JSDate.Day (JSDate.LocalTime tza t)).
Proof.
  intros Hc Ht. apply cutoffDate_midnight in Hc.
  unfold JSDate.ge. revert Hc Ht.
  unfold JSDate.LocalTime, JSDate.TimeWithinDay, JSDate.Day, JSDate.msPerDay.
  generalize ((now + tza) / 86400000). intros dn Hc Ht.
  destruct (c <=? t) eqn:E1; destruct (dn - n <=? (t + tza) / 86400000) eqn:E2;
    rewrite ?Z.leb_le, ?Z.leb_gt in *; try reflexivity; exfalso; div_lia.
Qed.

Lemma DayFromYear_mono a b : a <= b -> JSDate.DayFromYear a <= JSDate.DayFromYear b.
Proof. unfold JSDate.DayFromYear. intros. div_lia. Qed.

(** The year of a day is the only year that holds it. *)
Lemma YearFromDay_unique d y :
  JSDate.DayFromYear y <= d < JSDate.DayFromYear (y + 1) ->
  JSDate.YearFromDay d = y.
Proof.
  intros H. pose proof (YearFromDay_spec d) as S.
  destruct (Z.lt_trichotomy (JSDate.YearFromDay d) y) as [L|[E|G]]; [|exact E|].
  - pose proof (DayFromYear_mono (JSDate.YearFromDay d + 1) y ltac:(lia)). lia.
  - pose proof (DayFromYear_mono (y + 1) (JSDate.YearFromDay d) ltac:(lia)). lia.
Qed.

Lemma monthStart_range leap m :
  0 <= leap <= 1 -> 0 <= m <= 11 ->
  0 <= JSDate.monthStart leap m <= 334 + leap.
Proof.
  intros Hl Hm.
  assert (C : m = 0 \/ m = 1 \/ m = 2 \/ m = 3 \/ m = 4 \/ m = 5 \/ m = 6 \/
              m = 7 \/ m = 8 \/ m = 9 \/ m = 10 \/ m = 11) by lia.
  repeat (destruct C as [->|C]; [simpl; lia|]). subst m. simpl. lia.
Qed.

(** [MakeDay] does what ECMAScript asks of it: the day it counts from
    is the first of the month [mn] of the year [ym]. *)
Lemma MakeDay_first ym mn :
  0 <= mn <= 11 ->
  let t := (JSDate.MakeDay ym mn 1) * JSDate.msPerDay in
  JSDate.YearFromTime t = ym /\ JSDate.MonthFromTime t = mn /\
  JSDate.DateFromTime t = 1.
Proof.
  intros Hm t.
  assert (Hday : JSDate.Day t =
                 JSDate.DayFromYear ym
                 + JSDate.monthStart (if JSDate.isLeapYear ym then 1 else 0) mn).
  { unfold t, JSDate.MakeDay.
    replace (mn / 12) with 0 by div_lia. replace (mn mod 12) with mn by div_lia.
    rewrite Z.add_0_r.
    replace ((JSDate.DayFromYear ym
              + JSDate.monthStart (if JSDate.isLeapYear ym then 1 else 0) mn + 1 - 1)
             * JSDate.msPerDay)
      with ((JSDate.DayFromYear ym
             + JSDate.monthStart (if JSDate.isLeapYear ym then 1 else 0) mn)
            * JSDate.msPerDay + 0) by lia.
    apply Day_midnight. unfold JSDate.msPerDay. lia. }
  set (leap := if JSDate.isLeapYear ym then 1 else 0) in *.
  assert (Hleap : 0 <= leap <= 1) by (unfold leap; destruct (JSDate.isLeapYear ym); lia).
  pose proof (monthStart_range leap mn Hleap Hm) as Hs.
  assert (Hy : JSDate.YearFromTime t = ym).
  { unfold JSDate.YearFromTime. apply YearFromDay_unique.
    rewrite Hday, DayFromYear_succ. unfold JSDate.DaysInYear. fold leap.
    unfold leap in *. destruct (JSDate.isLeapYear ym); lia. }
  assert (Hw : JSDate.DayWithinYear t = JSDate.monthStart leap mn).
  { unfold JSDate.DayWithinYear. rewrite Hy, Hday. lia. }
  assert (Hl : JSDate.InLeapYear t = leap).
  { unfold JSDate.InLeapYear. now rewrite Hy. }
  assert (Hmonth : JSDate.MonthFromTime t = mn).
  { unfold JSDate.MonthFromTime. rewrite Hw, Hl.
    assert (C : mn = 0 \/ mn = 1 \/ mn = 2 \/ mn = 3 \/ mn = 4 \/ mn = 5 \/ mn = 6 \/
                mn = 7 \/ mn = 8 \/ mn = 9 \/ mn = 10 \/ mn = 11) by lia.
    repeat (destruct C as [->|C];
            [cbn [JSDate.monthStart];
             repeat match goal with
                    | |- context [?a <? ?b] =>
                        destruct (Z.ltb_spec a b); try lia
                    end; reflexivity|]).
    subst mn. cbn [JSDate.monthStart].
    repeat match goal with
           | |- context [?a <? ?b] => destruct (Z.ltb_spec a b); try lia
           end; reflexivity. }
  split; [exact Hy|]. split; [exact Hmonth|].
  unfold JSDate.DateFromTime. rewrite Hw, Hl, Hmonth. lia.
Qed.

(** Two readings of the clock on one local day give one cutoff. *)
Lemma cutoffDate_same_day tza now1 now2 n c1 c2 :
  cutoffDate tza now1 (Some n) = Some c1 ->
  cutoffDate tza now2 (Some n) = Some c2 ->
  JSDate.Day (JSDate.LocalTime tza now1) = JSDate.Day (JSDate.LocalTime tza now2) ->
  c1 = c2.
Proof.
  intros H1 H2 E. apply cutoffDate_midnight in H1, H2.
  rewrite E in H1. unfold JSDate.LocalTime in H1, H2. lia.
Qed.

(** Without a cutoff nothing is in range: [daysToSync] that is [NaN],
    or so large that the cutoff is no date. *)
Lemma no_cutoff_nothing_in_range tza now fileDate :
  cutoffDate tza now None = None /\
  (forall days, cutoffDate tza now days = None ->
                JSDate.ge fileDate (cutoffDate tza now days) = false).
Proof.
  split; [reflexivity|]. intros days ->. now destruct fileDate.
Qed.

Example cutoff_out_of_range : cutoffDate 0 exampleNow (Some 1000000000) = None.
Proof. reflexivity. Qed.

(** The example of the specification: seven days to sync on the 15th
    of June 2024; the report of the 8th is retained, that of the 7th is
    not, and in full mode a report a year old is retained. *)
Example window_boundary :
  let keep mode name :=
    parsedFiles (fst (chosen 0 (exampleConfig mode false) [name] emptySelection
                        (exampleWorld [] noFault))) in
  map fullPath (keep incremental "FOCUS-Reports/2024/06/08/report.csv.gz")
    = ["FOCUS-Reports/2024/06/08/report.csv.gz"] /\
  keep incremental "FOCUS-Reports/2024/06/07/report.csv.gz" = [] /\
  map fullPath (keep full "FOCUS-Reports/2023/06/15/report.csv.gz")
    = ["FOCUS-Reports/2023/06/15/report.csv.gz"] /\
  keep incremental "FOCUS-Reports/2023/06/15/report.csv.gz" = [].
Proof. repeat split; vm_compute; reflexivity. Qed.

(** ** Strings and the pattern of the staged keys *)

Lemma dropPrefix_Some p : forall s r,
  JSString.dropPrefix p s = Some r -> s = p +:+ r.
Proof.
  induction p as [|a p IH]; intros s r; simpl.
  - now intros [= ->].
  - destruct s as [|b s]; [discriminate|].
    destruct (Ascii.eqb a b) eqn:E; [|discriminate].
    apply Ascii.eqb_eq in E. subst b. intros H. now rewrite (IH _ _ H).
Qed.

Lemma dropPrefix_append p r : JSString.dropPrefix p (p +:+ r) = Some r.
Proof.
  induction p as [|a p IH]; simpl; [reflexivity|].
  now rewrite Ascii.eqb_refl.
Qed.

Lemma take_Some f n : forall s a b,
  JSString.take f n s = Some (a, b) ->
  s = a +:+ b /\ String.length a = n /\ JSString.forallb f a = true.
Proof.
  induction n as [|n IH]; intros s a b; simpl.
  - intros [= <- <-]. auto.
  - destruct s as [|c s]; [discriminate|].
    destruct (f c) eqn:Hc; [|discriminate].
    destruct (JSString.take f n s) as [[a' b']|] eqn:Ht; [|discriminate].
    intros [= <- <-]. destruct (IH _ _ _ Ht) as (-> & <- & Hf).
    simpl. now rewrite Hc, Hf.
Qed.

Lemma take_append f : forall a b,
  JSString.forallb f a = true ->
  JSString.take f (String.length a) (a +:+ b) = Some (a, b).
Proof.
  induction a as [|c a IH]; intros b; simpl; [reflexivity|].
  intros H. apply andb_true_iff in H. destruct H as [-> H].
  now rewrite IH.
Qed.

Lemma append_cons x (a b : string) : String x a +:+ b = String x (a +:+ b).
Proof. reflexivity. Qed.

Lemma length_append (a b : string) :
  String.length (a +:+ b) = (String.length a + String.length b)%nat.
Proof.
  induction a as [|x a IH]; [reflexivity|].
  rewrite append_cons. simpl. now rewrite IH.
Qed.

Lemma endsWith_Some p : forall s,
  JSString.endsWith s p = true -> exists a, s = a +:+ p.
Proof.
  induction s as [|c s IH]; cbn [JSString.endsWith]; intros H; apply orb_true_iff in H.
  - destruct H as [H|H]; [|discriminate].
    apply String.eqb_eq in H. subst p. now exists EmptyString.
  - destruct H as [H|H].
    + apply String.eqb_eq in H. subst p. now exists EmptyString.
    + destruct (IH H) as [a ->]. now exists (String c a).
Qed.

Lemma endsWith_append p : forall a, JSString.endsWith (a +:+ p) p = true.
Proof.
  induction a as [|c a IH].
  - change (EmptyString +:+ p) with p.
    destruct p; simpl; [reflexivity|].
    rewrite Ascii.eqb_refl, String.eqb_refl. reflexivity.
  - rewrite append_cons. simpl. rewrite IH. apply orb_true_r.
Qed.

Lemma forallb_append f (a b : string) :
  JSString.forallb f (a +:+ b) = JSString.forallb f a && JSString.forallb f b.
Proof.
  induction a as [|c a IH]; [reflexivity|].
  rewrite append_cons. simpl. rewrite IH. now rewrite andb_assoc.
Qed.

(** What the pattern accepts has the structure of a staged key, and
    the captures are its parts. *)
Lemma FILE_PATH_REGEX_sound path y m d f :
  FILE_PATH_REGEX path = Some (y, m, d, f) ->
  exists name,
    f = name +:+ ".csv.gz" /\ name <> EmptyString /\ oneLine name = true /\
    path = "FOCUS-Reports/" +:+ y +:+ "/" +:+ m +:+ "/" +:+ d +:+ "/" +:+ f /\
    digitString 4 y /\ digitString 2 m /\ digitString 2 d.
Proof.
  unfold FILE_PATH_REGEX.
  destruct (JSString.dropPrefix "FOCUS-Reports/" path) as [r0|] eqn:H0; [|discriminate].
  cbn [mbind option_bind].
  destruct (JSString.take JSString.isDigit 4 r0) as [[y' r1]|] eqn:H1; [|discriminate].
  cbn [mbind option_bind].
  destruct (JSString.dropPrefix "/" r1) as [r2|] eqn:H2; [|discriminate].
  cbn [mbind option_bind].
  destruct (JSString.take JSString.isDigit 2 r2) as [[m' r3]|] eqn:H3; [|discriminate].
  cbn [mbind option_bind].
  destruct (JSString.dropPrefix "/" r3) as [r4|] eqn:H4; [|discriminate].
  cbn [mbind option_bind].
  destruct (JSString.take JSString.isDigit 2 r4) as [[d' r5]|] eqn:H5; [|discriminate].
  cbn [mbind option_bind].
  destruct (JSString.dropPrefix "/" r5) as [r6|] eqn:H6; [|discriminate].
  cbn [mbind option_bind].
  destruct (isFilename r6) eqn:Hf; [|discriminate].
  intros [= <- <- <- <-].
  apply dropPrefix_Some in H0, H2, H4, H6.
  apply take_Some in H1, H3, H5.
  destruct H1 as (-> & Hy1 & Hy2), H3 as (-> & Hm1 & Hm2), H5 as (-> & Hd1 & Hd2).
  unfold isFilename in Hf.
  apply andb_true_iff in Hf. destruct Hf as [Hf Hlen].
  apply andb_true_iff in Hf. destruct Hf as [Hline Hend].
  apply endsWith_Some in Hend. destruct Hend as [name ->].
  exists name. repeat split; try assumption.
  - intros ->. simpl in Hlen. discriminate.
  - rewrite forallb_append in Hline. apply andb_true_iff in Hline. apply Hline.
  - subst. reflexivity.
Qed.

(** A staged key whose name holds no line terminator is accepted. *)
Lemma FILE_PATH_REGEX_complete y m d name :
  digitString 4 y -> digitString 2 m -> digitString 2 d ->
  name <> EmptyString -> oneLine name = true ->
  FILE_PATH_REGEX ("FOCUS-Reports/" +:+ y +:+ "/" +:+ m +:+ "/" +:+ d +:+ "/"
                     +:+ name +:+ ".csv.gz")
  = Some (y, m, d, name +:+ ".csv.gz").
Proof.
  intros [Hy1 Hy2] [Hm1 Hm2] [Hd1 Hd2] Hname Hline.
  unfold FILE_PATH_REGEX.
  rewrite dropPrefix_append. cbn [mbind option_bind].
  rewrite <- Hy1 at 1. rewrite take_append by assumption. cbn [mbind option_bind].
  rewrite dropPrefix_append. cbn [mbind option_bind].
  rewrite <- Hm1 at 1. rewrite take_append by assumption. cbn [mbind option_bind].
  rewrite dropPrefix_append. cbn [mbind option_bind].
  rewrite <- Hd1 at 1. rewrite take_append by assumption. cbn [mbind option_bind].
  rewrite dropPrefix_append. cbn [mbind option_bind].
  assert (Hf : isFilename (name +:+ ".csv.gz") = true).
  { unfold isFilename. rewrite forallb_append, endsWith_append, length_append.
    unfold oneLine in Hline. rewrite Hline. simpl.
    destruct name; [contradiction|]. simpl String.length.
    apply Nat.ltb_lt. lia. }
  now rewrite Hf.
Qed.

Lemma parseFilePath_Some tza path parsed :
  parseFilePath tza path = Some parsed ->
  FILE_PATH_REGEX path = Some (year parsed, month parsed, day parsed, filename parsed) /\
  fullPath parsed = path /\
  date parsed = JSDate.construct tza (JSNumber.parseInt (year parsed) None)
                  (JSDate.sub (JSNumber.parseInt (month parsed) None) (Some 1))
                  (JSNumber.parseInt (day parsed) None).
Proof.
  unfold parseFilePath.
  destruct (FILE_PATH_REGEX path) as [[[[y m] d] f]|]; [|discriminate].
  intros [= <-]. simpl. auto.
Qed.

Lemma parseFilePath_staged tza path parsed :
  parseFilePath tza path = Some parsed -> stagedKey path.
Proof.
  intros H. apply parseFilePath_Some in H. destruct H as (H & _).
  apply FILE_PATH_REGEX_sound in H.
  destruct H as (name & Hf & Hn & _ & Hp & Hy & Hm & Hd).
  exists (year parsed), (month parsed), (day parsed), name.
  rewrite Hf in Hp. auto.
Qed.

(** ** The numbers of a staged key *)

Lemma isDigit_code c : JSString.isDigit c = true -> 48 <= JSString.code c <= 57.
Proof. unfold JSString.isDigit. intros H. apply andb_true_iff in H. lia. Qed.

Lemma digit_not_space c : JSString.isDigit c = true -> JSString.isWhiteSpace c = false.
Proof.
  intros H. apply isDigit_code in H. unfold JSString.isWhiteSpace.
  repeat match goal with
         | |- context [?a <=? ?b] => destruct (Z.leb_spec a b); try lia
         | |- context [?a =? ?b] => destruct (Z.eqb_spec a b); try lia
         end; reflexivity.
Qed.

Lemma digitValue_digit c :
  JSString.isDigit c = true ->
  JSNumber.digitValue 10 c = Some (JSString.code c - 48) /\
  0 <= JSString.code c - 48 <= 9.
Proof.
  intros H. pose proof (isDigit_code c H) as R. unfold JSNumber.digitValue.
  fold (JSString.isDigit c). rewrite H.
  destruct (Z.ltb_spec (JSString.code c - 48) 10); [split; [reflexivity|lia] | lia].
Qed.

(** The digits of a string of digits are all read, and give a number
    below the power of ten of their count. *)
Lemma digits_bound s : forall acc a,
  JSString.forallb JSString.isDigit s = true ->
  acc = None \/ acc = Some a -> 0 <= a ->
  s <> EmptyString \/ acc <> None ->
  exists v, JSNumber.digits 10 acc s = Some v /\
            0 <= v < (a + 1) * 10 ^ Z.of_nat (String.length s).
Proof.
  induction s as [|c s IH]; intros acc a Hd Hacc Ha Hne.
  - simpl. destruct Hacc as [-> | ->].
    + destruct Hne as [Hne|Hne]; congruence.
    + exists a. split; [reflexivity|lia].
  - simpl in Hd. apply andb_true_iff in Hd. destruct Hd as [Hc Hd].
    destruct (digitValue_digit c Hc) as [Hv Hr].
    cbn [JSNumber.digits]. rewrite Hv.
    set (a' := default 0 acc * 10 + (JSString.code c - 48)).
    assert (Ha' : 0 <= a' <= a * 10 + 9).
    { unfold a'. destruct Hacc as [-> | ->]; simpl; lia. }
    assert (Hsome : s <> EmptyString \/ Some a' <> None) by (right; discriminate).
    assert (Hpos : 0 <= a') by lia.
    destruct (IH (Some a') a' Hd (or_intror eq_refl) Hpos Hsome) as (v & Hv' & Hb).
    exists v. split; [exact Hv'|].
    replace (Z.of_nat (String.length (String c s)))
      with (Z.succ (Z.of_nat (String.length s))) by (simpl String.length; lia).
    rewrite Z.pow_succ_r by lia. nia.
Qed.

Lemma parseInt_digitString n s :
  digitString (S n) s ->
  exists v, JSNumber.parseInt s None = Some v /\ 0 <= v < 10 ^ Z.of_nat (S n).
Proof.
  intros [Hlen Hd].
  destruct s as [|c s]; [discriminate Hlen|].
  pose proof Hd as Hd'. simpl in Hd'. apply andb_true_iff in Hd'.
  destruct Hd' as [Hc Hs].
  assert (Hne : String c s <> EmptyString \/ @None Z <> None) by (left; discriminate).
  destruct (digits_bound (String c s) None 0 Hd (or_introl eq_refl) (Z.le_refl 0) Hne)
    as (v & Hv & Hb).
  exists v. rewrite Hlen in Hb. split; [|lia].
  unfold JSNumber.parseInt. cbn [JSString.span]. rewrite (digit_not_space c Hc).
  cbn [snd].
  assert (E1 : (let '(sign, s2) :=
                  match String c s with
                  | String "-" r => (-1, r)
                  | String "+" r => (1, r)
                  | _ => (1, String c s)
                  end in
                let '(r, s3) :=
                  match s2 with
                  | String "0" (String x rest) =>
                      if Ascii.eqb (JSString.toUpperChar x) "X" then (16, rest) else (10, s2)
                  | _ => (10, s2)
                  end in
                match JSNumber.digits r None s3 with
                | Some v => Some (sign * v)
                | None => None
                end) = Some v); [|exact E1].
  destruct c as [[|] [|] [|] [|] [|] [|] [|] [|]];
    try (exfalso; vm_compute in Hc; discriminate Hc).
  all: cbv beta iota zeta.
  all: try (rewrite Hv; f_equal; lia).
  (* the first digit is 0: what follows is a digit, not an x *)
  destruct s as [|x s].
  - rewrite Hv. f_equal. lia.
  - simpl in Hs. apply andb_true_iff in Hs. destruct Hs as [Hx _].
    assert (Hnx : Ascii.eqb (JSString.toUpperChar x) "X" = false).
    { pose proof (isDigit_code x Hx) as R. unfold JSString.toUpperChar.
      destruct ((97 <=? JSString.code x) && (JSString.code x <=? 122)) eqn:E.
      - apply andb_true_iff in E. lia.
      - apply Ascii.eqb_neq. intros E2. rewrite E2 in Hx.
        vm_compute in Hx. discriminate Hx. }
    rewrite Hnx, Hv. f_equal. lia.
Qed.

(** ** Dates that are dates *)

Lemma TimeClip_valid t : Z.abs t <= 8640000000000000 -> JSDate.TimeClip t = Some t.
Proof.
  intros H. unfold JSDate.TimeClip.
  destruct (Z.leb_spec (Z.abs t) 8640000000000000); [reflexivity|lia].
Qed.

Lemma DayFromYear_bound y :
  -1 <= y <= 10007 -> -720000 <= JSDate.DayFromYear y <= 2940000.
Proof. unfold JSDate.DayFromYear. intros. div_lia. Qed.

(** The date of a parsed key is never an Invalid Date, the offset of
    local time being a day at most. *)
Lemma parsed_date_valid tza path parsed :
  Z.abs tza <= JSDate.msPerDay ->
  parseFilePath tza path = Some parsed ->
  exists t, date parsed = Some t.
Proof.
  intros Htz Hp. apply parseFilePath_Some in Hp. destruct Hp as (Hre & _ & ->).
  apply FILE_PATH_REGEX_sound in Hre.
  destruct Hre as (name & _ & _ & _ & _ & Hy & Hm & Hd).
  apply parseInt_digitString in Hy, Hm, Hd.
  destruct Hy as (vy & -> & Hy), Hm as (vm & -> & Hm), Hd as (vd & -> & Hd).
  change (10 ^ Z.of_nat 4) with 10000 in Hy.
  change (10 ^ Z.of_nat 2) with 100 in Hm, Hd.
  simpl JSDate.sub. unfold JSDate.construct.
  eexists. apply TimeClip_valid.
  set (yr := if (0 <=? vy) && (vy <=? 99) then 1900 + vy else vy).
  assert (Hyr : 0 <= yr <= 9999).
  { unfold yr. destruct ((0 <=? vy) && (vy <=? 99)) eqn:E; [|lia].
    apply andb_true_iff in E. lia. }
  unfold JSDate.UTC, JSDate.MakeDate, JSDate.MakeTime, JSDate.MakeDay.
  assert (Hq : -1 <= (vm - 1) / 12 <= 8) by div_lia.
  assert (Hr : 0 <= (vm - 1) mod 12 <= 11) by div_lia.
  pose proof (DayFromYear_bound (yr + (vm - 1) / 12) ltac:(lia)) as Hdfy.
  assert (Hleap : 0 <= (if JSDate.isLeapYear (yr + (vm - 1) / 12) then 1 else 0) <= 1)
    by (destruct (JSDate.isLeapYear _); lia).
  pose proof (monthStart_range _ _ Hleap Hr) as Hms.
  unfold JSDate.msPerDay in *. lia.
Qed.

(** The cutoff is a date for any clock and any number of days that
    can be met: a clock within 8 * 10^15 ms of the epoch, five million
    days at most. *)
Lemma cutoffDate_valid tza now n :
  Z.abs tza <= JSDate.msPerDay ->
  Z.abs now <= 8000000000000000 ->
  Z.abs n <= 5000000 ->
  exists c, cutoffDate tza now (Some n) = Some c.
Proof.
  intros Htz Hnow Hn.
  unfold cutoffDate, JSDate.setDate, JSDate.getDate, JSDate.sub, JSDate.setHours.
  set (t := JSDate.LocalTime tza now).
  replace (JSDate.DateFromTime t - n) with (JSDate.DateFromTime t + - n) by lia.
  rewrite MakeDay_own.
  pose proof (TimeWithinDay_range t) as Hw.
  assert (Hday : -93000000 <= JSDate.Day t <= 93000000).
  { unfold t, JSDate.Day, JSDate.LocalTime, JSDate.msPerDay in *. div_lia. }
  rewrite TimeClip_valid.
  2:{ unfold JSDate.UTC, JSDate.MakeDate, JSDate.msPerDay in *. lia. }
  eexists. apply TimeClip_valid.
  unfold JSDate.UTC, JSDate.MakeDate, JSDate.MakeTime, JSDate.LocalTime.
  replace ((JSDate.Day t + - n) * JSDate.msPerDay + JSDate.TimeWithinDay t - tza + tza)
    with ((JSDate.Day t - n) * JSDate.msPerDay + JSDate.TimeWithinDay t) by lia.
  rewrite Day_midnight by assumption.
  unfold JSDate.msPerDay in *. lia.
Qed.

(** A world whose clock stays within one local day has a window that
    does not move. *)
Lemma steadyWindow_one_day tza config w n c :
  daysToSync (job config) = Some n ->
  cutoffDate tza (clock w 0%nat) (Some n) = Some c ->
  (forall i, JSDate.Day (JSDate.LocalTime tza (clock w i)) =
             JSDate.Day (JSDate.LocalTime tza (clock w 0%nat))) ->
  (forall i, exists ci, cutoffDate tza (clock w i) (Some n) = Some ci) ->
  steadyWindow tza config w (Some c).
Proof.
  intros Hn Hc Hday Hvalid. right. intros i. rewrite Hn.
  destruct (Hvalid i) as [ci Hci]. rewrite Hci. f_equal.
  eapply cutoffDate_same_day; eauto.
Qed.

(** ** The monad and the requests *)

Lemma bind_Ok {A B} (m : IO A) (k : A -> IO B) w b w' :
  bind m k w = (Ok b, w') ->
  exists a w1, m w = (Ok a, w1) /\ k a w1 = (Ok b, w').
Proof.
  unfold bind. destruct (m w) as [[a|e] w1]; [eauto | discriminate].
Qed.

Lemma bind_eq {A B} (m : IO A) (k : A -> IO B) w a w1 :
  m w = (Ok a, w1) -> bind m k w = k a w1.
Proof. unfold bind. now intros ->. Qed.

Lemma bind_throw {A B} (m : IO A) (k : A -> IO B) w e w1 :
  m w = (Throw e, w1) -> bind m k w = (Throw e, w1).
Proof. unfold bind. now intros ->. Qed.

Lemma file_exists_eq b n w :
  file_exists b n w =
  match faults w (length (requests w)) with
  | Some e => (Throw e, addRequest (FileExists b n) w)
  | None => (Ok (objectExists (store w) b n), addRequest (FileExists b n) w)
  end.
Proof.
  unfold file_exists, bind, send, objectExists.
  destruct (faults w _); simpl; [reflexivity|].
  destruct (store w !! b); reflexivity.
Qed.

Lemma file_copy_eq sb sn db dn w :
  file_copy sb sn db dn w =
  match faults w (length (requests w)) with
  | Some e => (Throw e, addRequest (FileCopy sb sn db dn) w)
  | None =>
      match copyObject (store w) sb sn db dn with
      | Some s' => (Ok tt, setStore s' (addRequest (FileCopy sb sn db dn) w))
      | None => (Throw "Not Found", addRequest (FileCopy sb sn db dn) w)
      end
  end.
Proof.
  unfold file_copy, bind, send, copyObject.
  destruct (faults w _); simpl; [reflexivity|].
  destruct (store w !! sb); [|reflexivity].
  destruct (store w !! db); [|reflexivity].
  destruct (getObject _ _); reflexivity.
Qed.

Lemma bucket_exists_eq b w :
  bucket_exists b w =
  match faults w (length (requests w)) with
  | Some e => (Throw e, addRequest (BucketExists b) w)
  | None => (Ok (bool_decide (is_Some (store w !! b))), addRequest (BucketExists b) w)
  end.
Proof.
  unfold bucket_exists, bind, send.
  destruct (faults w _); reflexivity.
Qed.

Lemma createBucket_eq b loc w :
  createBucket b loc w =
  match faults w (length (requests w)) with
  | Some e => (Throw e, addRequest (CreateBucket b loc) w)
  | None =>
      match store w !! b with
      | Some _ => (Throw "Conflict", addRequest (CreateBucket b loc) w)
      | None =>
          (Ok tt, setStore (<[b := {| location := loc; objects := [] |}]> (store w))
                    (addRequest (CreateBucket b loc) w))
      end
  end.
Proof.
  unfold createBucket, bind, send.
  destruct (faults w _); simpl; [reflexivity|].
  destruct (store w !! b); reflexivity.
Qed.

Lemma getFiles_eq b prefix w :
  getFiles b prefix w =
  match faults w (length (requests w)) with
  | Some e => (Throw e, addRequest (GetFiles b prefix) w)
  | None =>
      match listing (store w) b prefix with
      | Some l => (Ok l, addRequest (GetFiles b prefix) w)
      | None => (Throw "Not Found", addRequest (GetFiles b prefix) w)
      end
  end.
Proof.
  unfold getFiles, bind, send, listing.
  destruct (faults w _); simpl; [reflexivity|].
  destruct (store w !! b); reflexivity.
Qed.

(** ** The copying loop *)

Lemma processFile_turn config parsed p w :
  processFile config parsed p w =
  (Ok (fst (turn config parsed p w)), snd (turn config parsed p w)).
Proof.
  unfold processFile, turn, failedWith, tryCatch, bind.
  rewrite file_exists_eq.
  destruct (faults w (length (requests w))) as [e|] eqn:F1; [reflexivity|].
  fold (destExists config parsed (store w)).
  destruct (destExists config parsed (store w)); [reflexivity|].
  rewrite file_copy_eq. simpl.
  rewrite length_app, Nat.add_1_r. simpl.
  destruct (faults w (S (length (requests w)))) as [e|] eqn:F2; [reflexivity|].
  fold (copied config parsed (store w)).
  destruct (copied config parsed (store w)); reflexivity.
Qed.

Lemma processFiles_turns config files : forall p w,
  processFiles config files p w =
  (Ok (fst (turns config files p w)), snd (turns config files p w)).
Proof.
  induction files as [|f files IH]; intros p w; simpl; [reflexivity|].
  rewrite (bind_eq _ _ _ _ _ (processFile_turn config f p w)).
  apply IH.
Qed.

Lemma turn_accounted config parsed p w :
  accounted (fst (turn config parsed p w)) = S (accounted p).
Proof.
  unfold turn, failedWith, accounted.
  repeat (match goal with
          | |- context [match ?x with _ => _ end] => destruct x
          end; simpl); lia.
Qed.

Lemma turns_accounted config files : forall p w,
  accounted (fst (turns config files p w)) = (length files + accounted p)%nat.
Proof.
  induction files as [|f files IH]; intros p w; simpl; [reflexivity|].
  rewrite IH, turn_accounted. lia.
Qed.

(** ** The loop that parses and filters *)

Lemma selectFiles_chosen tza config files : forall s w,
  selectFiles tza config files s w =
  (Ok (fst (chosen tza config files s w)), snd (chosen tza config files s w)).
Proof.
  induction files as [|name files IH]; intros s w; simpl; [reflexivity|].
  unfold choose.
  destruct (parseFilePath tza name) as [parsed|]; [|apply IH].
  destruct (syncMode (job config)).
  - unfold bind, ret. simpl. apply IH.
  - unfold bind, ret, isWithinDateRange, Date_now. simpl.
    destruct (JSDate.ge _ _); simpl; apply IH.
Qed.

(** The loop only reads the clock. *)
Lemma chosen_frame tza config files : forall s w,
  let w' := snd (chosen tza config files s w) in
  store w' = store w /\ requests w' = requests w /\ faults w' = faults w /\
  clock w' = clock w /\ exec w' = exec w /\ errlog w' = errlog w.
Proof.
  induction files as [|name files IH]; intros s w; simpl; [tauto|].
  specialize (IH (fst (choose tza config name s w)) (snd (choose tza config name s w))).
  simpl in IH.
  assert (H : let w1 := snd (choose tza config name s w) in
              store w1 = store w /\ requests w1 = requests w /\ faults w1 = faults w /\
              clock w1 = clock w /\ exec w1 = exec w /\ errlog w1 = errlog w).
  { unfold choose.
    destruct (parseFilePath tza name); [|simpl; tauto].
    destruct (syncMode (job config)); [simpl; tauto|].
    destruct (JSDate.ge _ _); simpl; tauto. }
  simpl in H.
  destruct IH as (-> & -> & -> & -> & -> & ->). exact H.
Qed.

(** With a window that does not move, the loop retains the eligible
    names, in the order of the listing. *)
Lemma chosen_steady tza config c files : forall s w,
  steadyWindow tza config w c ->
  parsedFiles (fst (chosen tza config files s w)) =
  parsedFiles s ++ omap (eligible tza (syncMode (job config)) c) files.
Proof.
  induction files as [|name files IH]; intros s w Hc; simpl.
  - now rewrite app_nil_r.
  - rewrite IH.
    + unfold choose, eligible.
      destruct (parseFilePath tza name) as [parsed|]; [|reflexivity].
      destruct Hc as [Hf|Hc].
      * rewrite Hf. simpl. now rewrite <- app_assoc.
      * destruct (syncMode (job config)).
        -- simpl. now rewrite <- app_assoc.
        -- rewrite Hc.
           destruct (JSDate.ge _ _); simpl; [now rewrite <- app_assoc | reflexivity].
    + destruct Hc as [Hf|Hc]; [now left|right].
      intros i.
      pose proof (chosen_frame tza config [name] s w) as H. simpl in H.
      destruct H as (_ & _ & _ & -> & _). apply Hc.
Qed.

(** Every retained object is the parse of a listed name. *)
Lemma chosen_parsed tza config files : forall s w parsed,
  In parsed (parsedFiles (fst (chosen tza config files s w))) ->
  In parsed (parsedFiles s) \/
  (In (fullPath parsed) files /\ parseFilePath tza (fullPath parsed) = Some parsed).
Proof.
  induction files as [|name files IH]; intros s w parsed Hin; simpl in *; [now left|].
  apply IH in Hin. destruct Hin as [Hin|[Hin Hp]]; [|now right; split; [right|]].
  unfold choose in Hin.
  destruct (parseFilePath tza name) as [q|] eqn:Hq; [|now left].
  assert (Hname : fullPath q = name).
  { unfold parseFilePath in Hq.
    destruct (FILE_PATH_REGEX name) as [[[[y m] d] f]|]; [|discriminate].
    now inversion Hq. }
  assert (Hkeep : In parsed (parsedFiles (keepFile q s)) ->
                  In parsed (parsedFiles s) \/
                  (In (fullPath parsed) (name :: files) /\
                   parseFilePath tza (fullPath parsed) = Some parsed)).
  { simpl. rewrite in_app_iff. simpl. intros [H|[H|[]]]; [now left|right].
    subst q. rewrite Hname. split; [now left | exact Hq]. }
  destruct (syncMode (job config)); [now apply Hkeep|].
  destruct (JSDate.ge _ _); [now apply Hkeep | now left].
Qed.

(** ** The stage as a whole *)

Lemma addErrors_frame lines : forall w,
  store (addErrors lines w) = store w /\
  requests (addErrors lines w) = requests w /\
  faults (addErrors lines w) = faults w /\
  clock (addErrors lines w) = clock w /\
  exec (addErrors lines w) = exec w /\
  ticks (addErrors lines w) = ticks w /\
  errlog (addErrors lines w) = errlog w ++ lines.
Proof.
  induction lines as [|[a b] lines IH]; intros w; simpl.
  - rewrite app_nil_r. tauto.
  - destruct (IH (addError a b w)) as (-> & -> & -> & -> & -> & -> & ->).
    simpl. rewrite <- app_assoc. tauto.
Qed.

Lemma reportErrors_eq es : forall w,
  reportErrors es w = (Ok tt, addErrors (reportLines es) w).
Proof.
  induction es as [|e es IH]; intros w; simpl; [reflexivity|].
  unfold bind, error. simpl. apply IH.
Qed.

Lemma reported_frame p w :
  store (reported p w) = store w /\
  requests (reported p w) = requests w /\
  faults (reported p w) = faults w /\
  clock (reported p w) = clock w /\
  exec (reported p w) = exec w /\
  ticks (reported p w) = ticks w.
Proof.
  unfold reported. destruct (0 <? length (errors p))%nat; [|tauto].
  pose proof (addErrors_frame (("REORGANIZE", "Errors encountered:") :: reportLines (errors p)) w).
  tauto.
Qed.

Lemma reorganizeListed_eq tza config startTime w :
  reorganizeListed tza config startTime w =
  match faults w (length (requests w)) with
  | Some e => (Throw e, addRequest (listRequest config) w)
  | None =>
      match listing (store w) (stagingBucket (gcs config)) "FOCUS-Reports/" with
      | Some files =>
          (Ok (fst (runListed tza config startTime files (addRequest (listRequest config) w))),
           snd (runListed tza config startTime files (addRequest (listRequest config) w)))
      | None => (Throw "Not Found", addRequest (listRequest config) w)
      end
  end.
Proof.
  unfold reorganizeListed, runListed, listRequest, bind at 1.
  rewrite getFiles_eq.
  destruct (faults w (length (requests w))); [reflexivity|].
  destruct (listing _ _ _) as [files|]; [|reflexivity].
  unfold bind at 1. rewrite selectFiles_chosen.
  fold emptySelection.
  destruct (dryRun (job config)).
  - reflexivity.
  - unfold bind at 1. fold noProgress. rewrite processFiles_turns.
    unfold bind, Date_now, ret, reported, error. simpl.
    destruct (0 <? length (errors _))%nat.
    + simpl. rewrite reportErrors_eq. reflexivity.
    + reflexivity.
Qed.

(** How a bucket is ensured. *)
Lemma ensureBucketExists_eq b loc w :
  ensureBucketExists b loc w =
  let n := length (requests w) in
  let w1 := addRequest (BucketExists b) w in
  match faults w n with
  | Some e => (Throw e, w1)
  | None =>
      match store w !! b with
      | Some _ => (Ok true, w1)
      | None =>
          let w2 := addRequest (CreateBucket b loc) w1 in
          match faults w (S n) with
          | Some e => (Throw e, w2)
          | None =>
              (Ok true,
               setStore (<[b := {| location := loc; objects := [] |}]> (store w)) w2)
          end
      end
  end.
Proof.
  unfold ensureBucketExists, bind at 1. rewrite bucket_exists_eq. simpl.
  destruct (faults w (length (requests w))); [reflexivity|].
  destruct (store w !! b) as [bk|] eqn:Hb.
  - rewrite bool_decide_eq_true_2 by eauto. reflexivity.
  - rewrite bool_decide_eq_false_2 by (intros [? ?]; discriminate). simpl.
    unfold bind. rewrite createBucket_eq. simpl.
    rewrite length_app, Nat.add_1_r. simpl.
    destruct (faults w (S (length (requests w)))); [reflexivity|].
    rewrite Hb. reflexivity.
Qed.

(** What ensuring a bucket leaves when it succeeds. *)
Lemma ensureBucketExists_Ok b loc w v w1 :
  ensureBucketExists b loc w = (Ok v, w1) ->
  sameOracles w w1 /\ ticks w1 = ticks w /\ errlog w1 = errlog w /\
  is_Some (store w1 !! b) /\
  (forall b', is_Some (store w !! b') -> is_Some (store w1 !! b')) /\
  (is_Some (store w !! b) -> store w1 = store w) /\
  exists rs, requests w1 = requests w ++ rs /\ forallb aboutBucket rs = true.
Proof.
  rewrite ensureBucketExists_eq. unfold sameOracles. simpl.
  destruct (faults w (length (requests w))); [discriminate|].
  destruct (store w !! b) as [bk|] eqn:Hb.
  - intros [= <- <-]. simpl. rewrite Hb. repeat split; eauto.
  - destruct (faults w (S (length (requests w)))); [discriminate|].
    intros [= <- <-]. simpl. rewrite lookup_insert_eq. repeat split; eauto.
    + intros b' Hb'. destruct (decide (b = b')) as [->|Hne].
      * rewrite lookup_insert_eq. eauto.
      * now rewrite lookup_insert_ne.
    + intros [? ?]; discriminate.
    + eexists. rewrite <- app_assoc. split; [reflexivity|reflexivity].
Qed.

(** A live run that returns, taken apart: the buckets are there, the
    staging bucket has been listed, and the rest is [runListed]. *)
Lemma reorganizeToHive_live tza config w r w' :
  dryRun (job config) = false ->
  reorganizeToHive tza config w = (Ok r, w') ->
  exists w1 files rs,
    sameOracles w w1 /\ ticks w1 = S (ticks w) /\ errlog w1 = errlog w /\
    requests w1 = requests w ++ rs /\ forallb aboutBucket rs = true /\
    is_Some (store w1 !! stagingBucket (gcs config)) /\
    is_Some (store w1 !! hiveBucket (gcs config)) /\
    (is_Some (store w !! stagingBucket (gcs config)) ->
     is_Some (store w !! hiveBucket (gcs config)) -> store w1 = store w) /\
    faults w (length (requests w1)) = None /\
    listing (store w1) (stagingBucket (gcs config)) "FOCUS-Reports/" = Some files /\
    r = fst (runListed tza config (clock w (ticks w)) files
               (addRequest (listRequest config) w1)) /\
    w' = snd (runListed tza config (clock w (ticks w)) files
                (addRequest (listRequest config) w1)).
Proof.
  intros Hlive H. unfold reorganizeToHive in H.
  apply bind_Ok in H. destruct H as (t0 & wa & Ha & H).
  unfold Date_now in Ha. injection Ha as <- <-.
  rewrite Hlive in H.
  apply bind_Ok in H. destruct H as (v1 & wb & Hb & H).
  apply bind_Ok in H. destruct H as (v2 & wc & Hc & H).
  apply ensureBucketExists_Ok in Hb, Hc.
  destruct Hb as ((Hf1 & Hk1 & He1) & Ht1 & Hl1 & Hs1 & Hp1 & Hu1 & rs1 & Hr1 & Ha1).
  destruct Hc as ((Hf2 & Hk2 & He2) & Ht2 & Hl2 & Hs2 & Hp2 & Hu2 & rs2 & Hr2 & Ha2).
  simpl in *.
  rewrite reorganizeListed_eq in H.
  destruct (faults wc (length (requests wc))) eqn:Hfault; [discriminate|].
  destruct (listing _ _ _) as [files|] eqn:Hlist; [|discriminate].
  injection H as <- <-.
  exists wc, files, (rs1 ++ rs2). unfold sameOracles.
  rewrite Hf2, Hf1 in Hfault.
  repeat split; try congruence.
  - rewrite Hr2, Hr1. now rewrite app_assoc.
  - rewrite forallb_app. now rewrite Ha1, Ha2.
  - now apply Hp2.
  - intros Hs Hh. rewrite Hu2; [now apply Hu1|]. rewrite Hu1; assumption.
Qed.

(** ** The counters of a live run *)

Lemma turn_one_counter config parsed p w :
  fst (turn config parsed p w) = copiedOne p \/
  fst (turn config parsed p w) = skippedOne p \/
  exists e, fst (turn config parsed p w) = erroredOne (fullPath parsed) e p.
Proof.
  unfold turn, failedWith.
  repeat (match goal with
          | |- context [match ?x with _ => _ end] => destruct x
          end; simpl); eauto.
Qed.

(** C10.  In live mode every turn of the copying loop adds one to
    exactly one of the three counters (copied, skipped, errored), and
    the result of a run that returns satisfies
    files_copied + files_skipped + files_errored = files_processed. *)
Theorem live_counters_add_up :
  (forall config parsed p w, exists p' w',
      processFile config parsed p w = (Ok p', w') /\
      (p' = copiedOne p \/ p' = skippedOne p \/
       exists e, p' = erroredOne (fullPath parsed) e p)) /\
  (forall tza config w r w',
      dryRun (job config) = false ->
      reorganizeToHive tza config w = (Ok r, w') ->
      (files_copied r + files_skipped r + files_errored r)%nat = files_processed r).
Proof.
  split.
  - intros config parsed p w. rewrite processFile_turn.
    do 2 eexists. split; [reflexivity|]. apply turn_one_counter.
  - intros tza config w r w' Hlive H.
    apply reorganizeToHive_live in H; [|assumption].
    destruct H as (w1 & files & rs & _ & _ & _ & _ & _ & _ & _ & _ & _ & _ & -> & _).
    unfold runListed. rewrite Hlive. simpl.
    pose proof (turns_accounted config
      (parsedFiles (fst (chosen tza config files emptySelection
                           (addRequest (listRequest config) w1))))
      noProgress
      (snd (chosen tza config files emptySelection
              (addRequest (listRequest config) w1)))) as H.
    unfold accounted in H. simpl in H. lia.
Qed.

(** ** Errors in the copying loop *)

Lemma turn_frame config parsed p w :
  let w' := snd (turn config parsed p w) in
  requests w' = requests w ++ turnRequests config parsed w /\
  faults w' = faults w /\ clock w' = clock w /\ exec w' = exec w /\
  ticks w' = ticks w.
Proof.
  unfold turn, turnRequests, failedWith.
  destruct (faults w (length (requests w))); simpl; [tauto|].
  destruct (destExists config parsed (store w)); simpl; [tauto|].
  destruct (faults w (S (length (requests w)))); simpl;
    [rewrite <- app_assoc; tauto|].
  destruct (copied config parsed (store w)); simpl; rewrite <- app_assoc; tauto.
Qed.

Lemma turns_frame config files : forall p w,
  let w' := snd (turns config files p w) in
  requests w' = requests w ++ turnsRequests config files p w /\
  faults w' = faults w /\ clock w' = clock w /\ exec w' = exec w /\
  ticks w' = ticks w.
Proof.
  induction files as [|f files IH]; intros p w; simpl.
  - rewrite app_nil_r. tauto.
  - destruct (IH (fst (turn config f p w)) (snd (turn config f p w)))
      as (-> & -> & -> & -> & ->).
    destruct (turn_frame config f p w) as (-> & -> & -> & -> & ->).
    rewrite <- app_assoc. tauto.
Qed.

(** Every object of the list has its existence check, in order,
    whatever fails. *)
Lemma turnsRequests_checks config files : forall p w,
  List.filter isFileExists (turnsRequests config files p w) =
  map (existsRequest config) files.
Proof.
  induction files as [|f files IH]; intros p w; simpl; [reflexivity|].
  rewrite List.filter_app, IH. unfold turnRequests.
  destruct (faults w (length (requests w))); [reflexivity|].
  destruct (destExists config f (store w)); reflexivity.
Qed.

Lemma turnsRequests_about config files : forall p w r,
  In r (turnsRequests config files p w) ->
  exists f, In f files /\ (r = existsRequest config f \/ r = copyRequest config f).
Proof.
  induction files as [|f files IH]; intros p w r Hin; simpl in *; [contradiction|].
  apply in_app_iff in Hin. destruct Hin as [Hin|Hin].
  - exists f. split; [now left|]. unfold turnRequests in Hin.
    destruct (faults w (length (requests w))); simpl in Hin; [intuition|].
    destruct (destExists config f (store w)); simpl in Hin; intuition.
  - apply IH in Hin. destruct Hin as (g & Hg & Hr). exists g. split; [now right|assumption].
Qed.

Lemma getObject_putObject os n c m :
  getObject (putObject os n c) m =
  if String.eqb n m then Some c else getObject os m.
Proof.
  induction os as [|[n0 c0] os IH]; simpl.
  - reflexivity.
  - destruct (String.eqb n0 n) eqn:E0; simpl.
    + apply String.eqb_eq in E0. subst n0.
      destruct (String.eqb n m); reflexivity.
    + rewrite IH. destruct (String.eqb n0 m) eqn:E1; [|reflexivity].
      apply String.eqb_eq in E1. subst n0.
      rewrite String.eqb_sym in E0. now rewrite E0.
Qed.

Lemma ready_copied config files s f :
  ready config files s -> In f files -> is_Some (copied config f s).
Proof.
  intros [[db Hdb] Hsrc] Hin. destruct (Hsrc f Hin) as (sb & c & Hsb & Hc).
  unfold copied, copyObject. rewrite Hsb, Hdb, Hc. eauto.
Qed.

Lemma copied_ready config files s f s' :
  copied config f s = Some s' -> ready config files s -> ready config files s'.
Proof.
  unfold copied, copyObject.
  destruct (s !! stagingBucket (gcs config)) as [sb|] eqn:Hsb; [|discriminate].
  destruct (s !! hiveBucket (gcs config)) as [db|] eqn:Hdb; [|discriminate].
  destruct (getObject (objects sb) (fullPath f)) as [c|]; [|discriminate].
  intros [= <-] [_ Hsrc]. split.
  - rewrite lookup_insert_eq. eauto.
  - intros g Hg. destruct (Hsrc g Hg) as (sb' & c' & Hsb' & Hc').
    destruct (decide (hiveBucket (gcs config) = stagingBucket (gcs config))) as [E|E].
    + rewrite <- E. rewrite lookup_insert_eq.
      rewrite <- E in Hsb'. rewrite Hdb in Hsb'. injection Hsb' as <-.
      assert (Hput : exists c2, getObject (putObject (objects db) (buildHivePath f) c)
                                  (fullPath g) = Some c2).
      { rewrite getObject_putObject. destruct (String.eqb _ _); eauto. }
      destruct Hput as [c2 Hc2]. eexists _, c2. split; [reflexivity|exact Hc2].
    + rewrite lookup_insert_ne by assumption. eauto.
Qed.

Lemma turn_ready config files f p w :
  ready config files (store w) ->
  ready config files (store (snd (turn config f p w))).
Proof.
  intros Hr. unfold turn, failedWith.
  destruct (faults w (length (requests w))); simpl; [assumption|].
  destruct (destExists config f (store w)); simpl; [assumption|].
  destruct (faults w (S (length (requests w)))); simpl; [assumption|].
  destruct (copied config f (store w)) eqn:Hc; simpl; [|assumption].
  eapply copied_ready; eassumption.
Qed.

Lemma ready_tail config f files s :
  ready config (f :: files) s -> ready config files s.
Proof. intros [H1 H2]. split; [assumption|]. intros g Hg. apply H2. now right. Qed.

Lemma turnRequests_length config f w :
  (1 <= length (turnRequests config f w) <= 2)%nat.
Proof.
  unfold turnRequests.
  destruct (faults w (length (requests w))); simpl; [lia|].
  destruct (destExists config f (store w)); simpl; lia.
Qed.

(** Without a failing request, a loop that the store can serve
    records no error. *)
Lemma turns_no_fault config files : forall p w,
  ready config files (store w) ->
  (forall n, (length (requests w) <= n)%nat -> faults w n = None) ->
  filesErrored (fst (turns config files p w)) = filesErrored p /\
  errors (fst (turns config files p w)) = errors p /\
  errlog (snd (turns config files p w)) = errlog w.
Proof.
  induction files as [|f files IH]; intros p w Hr Hf; simpl; [tauto|].
  pose proof (turn_frame config f p w) as Hfr. simpl in Hfr.
  destruct Hfr as (Hrq & Hfa & _).
  pose proof (turn_ready config (f :: files) f p w Hr) as Hr'.
  destruct (IH (fst (turn config f p w)) (snd (turn config f p w))) as (-> & -> & ->).
  - eapply ready_tail; eassumption.
  - intros n Hn. rewrite Hfa. apply Hf. rewrite Hrq, length_app in Hn. lia.
  - unfold turn, failedWith.
    rewrite (Hf (length (requests w))) by lia.
    destruct (destExists config f (store w)); simpl; [tauto|].
    rewrite (Hf (S (length (requests w)))) by lia.
    destruct (ready_copied config (f :: files) (store w) f Hr) as [s' ->]; [now left|].
    simpl. tauto.
Qed.

(** With one failing request, and that request a copy, a loop that the
    store can serve records one error: that of the object whose copy
    it was. *)
Lemma turns_single_fault config files : forall p w k e,
  ready config files (store w) ->
  (forall n, faults w n <> None -> n = k) ->
  faults w k = Some e ->
  (length (requests w) <= k)%nat ->
  (exists r, requests (snd (turns config files p w)) !! k = Some r /\ isFileCopy r = true) ->
  filesErrored (fst (turns config files p w)) = S (filesErrored p) /\
  exists bad, In bad files /\
    errors (fst (turns config files p w)) = errors p ++ [(fullPath bad, e)] /\
    requests (snd (turns config files p w)) !! k = Some (copyRequest config bad) /\
    errlog (snd (turns config files p w)) =
    errlog w ++ [("REORGANIZE", errorLine bad e)].
Proof.
  induction files as [|f files IH]; intros p w k e Hr H1 Hk Hle (r & Hrk & Hcopy).
  - simpl in Hrk. apply lookup_lt_Some in Hrk. lia.
  - simpl in *.
    pose proof (turn_frame config f p w) as Hfr. simpl in Hfr.
    destruct Hfr as (Hrq & Hfa & _).
    pose proof (turn_ready config (f :: files) f p w Hr) as Hr'.
    apply ready_tail in Hr'.
    pose proof (turns_frame config files (fst (turn config f p w))
                  (snd (turn config f p w))) as Hfrs. simpl in Hfrs.
    destruct Hfrs as (Hrqs & _).
    assert (Hstep : forall rs,
      turnRequests config f w = rs ->
      (forall i, (i < length rs)%nat -> faults w (length (requests w) + i) = None) ->
      (length (requests (snd (turn config f p w))) <= k)%nat).
    { intros rs E Hnone. rewrite Hrq, length_app, E.
      destruct (Nat.lt_ge_cases k (length (requests w) + length rs)) as [Hlt|]; [|lia].
      specialize (Hnone (k - length (requests w))%nat ltac:(lia)).
      replace (length (requests w) + (k - length (requests w)))%nat with k in Hnone by lia.
      congruence. }
    destruct (faults w (length (requests w))) as [e'|] eqn:F1.
    + (* the check itself failed: then request [k] is no copy *)
      assert (length (requests w) = k) by (apply H1; congruence). subst k.
      exfalso. rewrite Hrqs, Hrq in Hrk. unfold turnRequests in Hrk. rewrite F1 in Hrk.
      rewrite <- app_assoc in Hrk. rewrite lookup_app_r in Hrk by lia.
      rewrite Nat.sub_diag in Hrk. simpl in Hrk. injection Hrk as <-. discriminate.
    + unfold turn in *. unfold turnRequests in *. rewrite F1 in *.
      destruct (destExists config f (store w)) eqn:Hd.
      * simpl in *.
        destruct (IH (skippedOne p) (addRequest (existsRequest config f) w) k e)
          as (He & bad & Hin & Herr & Hreq & Hlog); try assumption.
        -- apply (Hstep [existsRequest config f] eq_refl).
           intros i Hi. simpl in Hi. replace i with 0%nat by lia.
           now rewrite Nat.add_0_r.
        -- eauto.
        -- split; [exact He|]. exists bad. auto.
      * destruct (faults w (S (length (requests w)))) as [e'|] eqn:F2.
        -- assert (S (length (requests w)) = k) by (apply H1; congruence). subst k.
           assert (e' = e) by congruence. subst e'.
           unfold failedWith in *. simpl in *.
           destruct (turns_no_fault config files (erroredOne (fullPath f) e p)
                       (addError "REORGANIZE" (errorLine f e)
                          (addRequest (copyRequest config f)
                             (addRequest (existsRequest config f) w))))
             as (-> & -> & ->).
           ++ assumption.
           ++ simpl. intros n Hn. rewrite !length_app in Hn. simpl in Hn.
              destruct (faults w n) eqn:Fn; [|reflexivity].
              assert (n = S (length (requests w))) by (apply H1; congruence). lia.
           ++ simpl. split; [reflexivity|]. exists f. split; [now left|].
              split; [reflexivity|]. split; [|reflexivity].
              rewrite Hrqs. simpl. rewrite <- !app_assoc.
              rewrite lookup_app_r by lia.
              replace (S (length (requests w)) - length (requests w))%nat with 1%nat by lia.
              reflexivity.
        -- destruct (ready_copied config (f :: files) (store w) f Hr) as [s' Hs'];
             [now left|].
           rewrite Hs' in *. simpl in *.
           destruct (IH (copiedOne p)
                       (setStore s' (addRequest (copyRequest config f)
                                       (addRequest (existsRequest config f) w))) k e)
             as (He & bad & Hin & Herr & Hreq & Hlog); try assumption.
           ++ apply (Hstep [existsRequest config f; copyRequest config f] eq_refl).
              intros i Hi. simpl in Hi.
              destruct i as [|[|i]]; [now rewrite Nat.add_0_r| |lia].
              now rewrite Nat.add_1_r.
           ++ eauto.
           ++ split; [exact He|]. exists bad. auto.
Qed.

Lemma listing_getObject s b prefix files name :
  listing s b prefix = Some files -> In name files ->
  exists sb c, s !! b = Some sb /\ getObject (objects sb) name = Some c.
Proof.
  unfold listing. destruct (s !! b) as [sb|]; [|discriminate].
  intros [= <-] Hin. exists sb.
  apply filter_In in Hin. destruct Hin as [Hin _].
  induction (objects sb) as [|[n c] os IH]; simpl in *; [contradiction|].
  destruct (String.eqb n name) eqn:E; [eauto|].
  destruct Hin as [Hin|Hin]; [|now apply IH].
  subst n. rewrite String.eqb_refl in E. discriminate.
Qed.

(** The objects that a live run retains can be copied. *)
Lemma chosen_ready tza config files w :
  is_Some (store w !! hiveBucket (gcs config)) ->
  listing (store w) (stagingBucket (gcs config)) "FOCUS-Reports/" = Some files ->
  ready config (parsedFiles (fst (chosen tza config files emptySelection w))) (store w).
Proof.
  intros Hh Hl. split; [assumption|]. intros f Hf.
  apply chosen_parsed in Hf. destruct Hf as [[]|[Hf _]].
  eapply listing_getObject; eassumption.
Qed.

(** The body of the [try] throws when the check fails, and when the
    copy does. *)
Lemma attempt_throws config parsed p w e :
  (faults w (length (requests w)) = Some e ->
   attempt config parsed p w = (Throw e, addRequest (existsRequest config parsed) w)) /\
  (faults w (length (requests w)) = None ->
   destExists config parsed (store w) = false ->
   faults w (S (length (requests w))) = Some e ->
   attempt config parsed p w =
   (Throw e, addRequest (copyRequest config parsed)
               (addRequest (existsRequest config parsed) w))).
Proof.
  unfold attempt, bind. rewrite file_exists_eq. split.
  - now intros ->.
  - intros -> Hd F2. unfold destExists in Hd. rewrite Hd.
    rewrite file_copy_eq. simpl. rewrite length_app, Nat.add_1_r. simpl.
    now rewrite F2.
Qed.

(** C2.  An error raised by the existence check or by the copy of one
    object (by the body of the [try]) is caught for that object: its
    path and message are added to the list of errors, files_errored
    grows by one and the loop goes on with the next object; every
    object has its existence check whatever fails.  In a live run in which one request fails, a copy,
    the result has files_errored = 1, files_processed counts all the
    eligible objects and each of them has been attempted. *)
Theorem per_object_error_isolation :
  (forall config parsed rest p w e w1,
      attempt config parsed p w = (Throw e, w1) ->
      processFiles config (parsed :: rest) p w =
      processFiles config rest (erroredOne (fullPath parsed) e p)
        (addError "REORGANIZE" (errorLine parsed e) w1)) /\
  (forall config files p w, exists p' w',
      processFiles config files p w = (Ok p', w') /\
      List.filter isFileExists (drop (length (requests w)) (requests w')) =
      map (existsRequest config) files) /\
  (forall tza config w r w' k e,
      dryRun (job config) = false ->
      reorganizeToHive tza config w = (Ok r, w') ->
      (forall n, faults w n <> None -> n = k) ->
      faults w k = Some e ->
      (length (requests w) <= k)%nat ->
      (exists rq, requests w' !! k = Some rq /\ isFileCopy rq = true) ->
      files_errored r = 1%nat /\
      length (List.filter isFileExists (drop (length (requests w)) (requests w')))
      = files_processed r /\
      exists bad,
        requests w' !! k = Some (copyRequest config bad) /\
        errlog w' = errlog w ++
          [("REORGANIZE", errorLine bad e);
           ("REORGANIZE", "Errors encountered:");
           ("REORGANIZE", "  " +:+ fullPath bad +:+ ": " +:+ e)]).
Proof.
  split; [|split].
  - intros config parsed rest p w e w1 H.
    cbn [processFiles]. unfold bind at 1.
    change (processFile config parsed p w)
      with (tryCatch (attempt config parsed p)
              (fun errorMessage =>
                 error "REORGANIZE" (errorLine parsed errorMessage) ;;
                 ret (erroredOne (fullPath parsed) errorMessage p)) w).
    unfold tryCatch. rewrite H. reflexivity.
  - intros config files p w. rewrite processFiles_turns.
    do 2 eexists. split; [reflexivity|].
    destruct (turns_frame config files p w) as (-> & _).
    rewrite drop_app_length. apply turnsRequests_checks.
  - intros tza config w r w' k e Hlive H H1 Hk Hle (rq & Hrq & Hcopy).
    apply reorganizeToHive_live in H; [|assumption].
    destruct H as (w1 & files & rs & (Hf & _) & _ & Hlog1 & Hrs & Hab & _ & Hh & _ & _ & Hl & -> & ->).
    unfold runListed in *. rewrite Hlive in *. simpl in *.
    set (wl := addRequest (listRequest config) w1) in *.
    pose proof (chosen_frame tza config files emptySelection wl) as Hfr. simpl in Hfr.
    destruct Hfr as (Hst & Hreq & Hfa & _ & _ & Hel).
    set (sel := fst (chosen tza config files emptySelection wl)) in *.
    set (w2 := snd (chosen tza config files emptySelection wl)) in *.
    destruct (reported_frame (fst (turns config (parsedFiles sel) noProgress w2))
                (tick (snd (turns config (parsedFiles sel) noProgress w2))))
      as (_ & Hrep & _).
    rewrite Hrep in *. simpl in *.
    pose proof (turns_frame config (parsedFiles sel) noProgress w2) as Hfrs.
    simpl in Hfrs. destruct Hfrs as (Hrqs & _).
    assert (Hw2 : requests w2 = requests w ++ rs ++ [listRequest config]).
    { rewrite Hreq. unfold wl. simpl. rewrite Hrs. now rewrite <- app_assoc. }
    assert (Hready : ready config (parsedFiles sel) (store w2)).
    { rewrite Hst. change (store w1) with (store wl). unfold sel.
      apply chosen_ready; assumption. }
    assert (Hk2 : (length (requests w2) <= k)%nat).
    { destruct (Nat.lt_ge_cases k (length (requests w2))) as [Hlt|]; [|assumption].
      exfalso. rewrite Hrqs, lookup_app_l in Hrq by assumption.
      rewrite Hw2, lookup_app_r in Hrq by assumption.
      apply list_elem_of_lookup_2, list_elem_of_In, in_app_iff in Hrq.
      destruct Hrq as [Hin|[<-|[]]]; [|discriminate].
      rewrite forallb_forall in Hab. apply Hab in Hin.
      destruct rq; discriminate. }
    destruct (turns_single_fault config (parsedFiles sel) noProgress w2 k e)
      as (He & bad & Hin & Herr & Hreqk & Hlog); try assumption; eauto.
    + intros n Hn. apply H1. now rewrite Hfa, Hf in Hn.
    + now rewrite Hfa, Hf.
    + split; [exact He|]. split.
      * rewrite Hrqs, Hw2, <- app_assoc, drop_app_length.
        rewrite !List.filter_app, turnsRequests_checks, length_app, length_app, length_map.
        replace (List.filter isFileExists rs) with (@nil Request).
        -- reflexivity.
        -- clear -Hab. induction rs as [|a rs IH]; [reflexivity|].
           simpl in Hab. apply andb_true_iff in Hab. destruct Hab as [Ha Hab].
           destruct a; try discriminate; simpl; auto.
      * exists bad. split; [exact Hreqk|].
        unfold reported. rewrite Herr. simpl.
        rewrite Hlog, Hel. unfold wl. simpl. rewrite Hlog1.
        rewrite <- !app_assoc. reflexivity.
Qed.

(** ** Dry runs *)

Lemma steadyWindow_clock tza config w w' c :
  clock w' = clock w -> steadyWindow tza config w c -> steadyWindow tza config w' c.
Proof. intros E [H|H]; [now left|right]. intros i. rewrite E. apply H. Qed.

Lemma parseFilePath_prefix tza name parsed :
  parseFilePath tza name = Some parsed ->
  JSString.startsWith name "FOCUS-Reports/" = true.
Proof.
  unfold parseFilePath, FILE_PATH_REGEX, JSString.startsWith.
  destruct (JSString.dropPrefix "FOCUS-Reports/" name); [reflexivity|discriminate].
Qed.

Lemma eligible_prefix tza mode c (names : list string) :
  omap (eligible tza mode c)
    (List.filter (fun n => JSString.startsWith n "FOCUS-Reports/") names) =
  omap (eligible tza mode c) names.
Proof.
  induction names as [|n names IH]; [reflexivity|].
  cbn [List.filter]. destruct (JSString.startsWith n "FOCUS-Reports/") eqn:Hp.
  - cbn [omap list_omap]. now rewrite IH.
  - rewrite IH.
    assert (Hn : eligible tza mode c n = None).
    { unfold eligible. destruct (parseFilePath tza n) eqn:E; [|reflexivity].
      apply parseFilePath_prefix in E. congruence. }
    cbn [omap list_omap]. now rewrite Hn.
Qed.

(** C3.  A dry run changes nothing: the store is left as it was and no
    request creates a bucket or copies an object, whatever the listing
    holds and whether the run returns or throws.  The result has
    files_copied = files_skipped = files_errored = 0, and
    files_processed counts the objects of the staging bucket whose key
    has the structure and, in incremental mode, whose date is in the
    window. *)
Theorem dry_run_no_side_effects tza config w out w' :
  dryRun (job config) = true ->
  reorganizeToHive tza config w = (out, w') ->
  store w' = store w /\
  (exists rs, requests w' = requests w ++ rs /\
              forallb (fun r => negb (mutating r)) rs = true) /\
  forall r, out = Ok r ->
    files_copied r = 0%nat /\ files_skipped r = 0%nat /\ files_errored r = 0%nat /\
    forall c, steadyWindow tza config w c ->
      files_processed r =
      length (omap (eligible tza (syncMode (job config)) c)
                (objectNames (store w) (stagingBucket (gcs config)))).
Proof.
  intros Hdry. unfold reorganizeToHive, checkBucketExists.
  rewrite Hdry. unfold bind at 1. unfold Date_now at 1.
  unfold bind at 1. rewrite bucket_exists_eq. simpl.
  destruct (faults w (length (requests w))) as [e|].
  { intros [= <- <-]. simpl. split; [reflexivity|]. split; [|discriminate].
    eexists. split; reflexivity. }
  unfold bind at 1. rewrite bucket_exists_eq. simpl.
  destruct (faults w (length (requests w ++ _))) as [e|].
  { intros [= <- <-]. simpl. split; [reflexivity|]. split; [|discriminate].
    eexists. rewrite <- app_assoc. split; reflexivity. }
  destruct (store w !! stagingBucket (gcs config)) as [sb|] eqn:Hsb.
  - rewrite bool_decide_eq_true_2 by eauto. simpl.
    rewrite reorganizeListed_eq. simpl.
    destruct (faults w (length ((requests w ++ _) ++ _))) as [e|].
    { intros [= <- <-]. simpl. split; [reflexivity|]. split; [|discriminate].
      eexists. rewrite <- !app_assoc. split; reflexivity. }
    unfold listing. simpl. rewrite Hsb.
    intros [= <- <-]. unfold runListed. rewrite Hdry. simpl.
    match goal with |- context [chosen tza config ?fs emptySelection ?wl] =>
      pose proof (chosen_frame tza config fs emptySelection wl) as Hfr;
      pose proof (fun c => chosen_steady tza config c fs emptySelection wl) as Hst
    end.
    simpl in Hfr. destruct Hfr as (-> & -> & _ & Hck & _).
    simpl. split; [reflexivity|]. split.
    { eexists. rewrite <- !app_assoc. split; reflexivity. }
    intros r [= <-]. simpl. repeat split.
    intros c Hc. rewrite (Hst c).
    + simpl. rewrite eligible_prefix. unfold objectNames. now rewrite Hsb.
    + eapply steadyWindow_clock; [|exact Hc]. reflexivity.
  - rewrite bool_decide_eq_false_2 by (intros [? ?]; discriminate). simpl.
    unfold bind, Date_now, ret. simpl.
    intros [= <- <-]. simpl. split; [reflexivity|]. split.
    { eexists. rewrite <- !app_assoc. split; reflexivity. }
    intros r [= <-]. simpl. repeat split.
    intros c _. unfold objectNames. now rewrite Hsb.
Qed.

(** ** Running the stage again *)

Lemma hasObject_putObject loc loc' os n c m :
  hasObject {| location := loc; objects := putObject os n c |} m =
  String.eqb n m || hasObject {| location := loc'; objects := os |} m.
Proof.
  unfold hasObject. simpl.
  induction os as [|[n0 c0] os IH]; simpl.
  - reflexivity.
  - destruct (String.eqb n0 n) eqn:E0; simpl.
    + apply String.eqb_eq in E0. subst n0.
      destruct (String.eqb n m); reflexivity.
    + rewrite IH.
      destruct (String.eqb n0 m), (String.eqb n m); reflexivity.
Qed.

Lemma names_putObject (P : string -> bool) os n c :
  P n = false ->
  List.filter P (map fst (putObject os n c)) = List.filter P (map fst os).
Proof.
  intros Hn. induction os as [|[n0 c0] os IH]; simpl.
  - now rewrite Hn.
  - destruct (String.eqb n0 n) eqn:E0; simpl; [reflexivity|].
    now rewrite IH.
Qed.

Lemma buildHivePath_prefix parsed :
  JSString.startsWith (buildHivePath parsed) "FOCUS-Reports/" = false.
Proof. reflexivity. Qed.

(** A copy leaves the listing of the staging bucket as it was, keeps
    the buckets and the destinations that were there, and puts the
    destination of the object in place. *)
Lemma copied_effect config f s s' :
  copied config f s = Some s' ->
  listing s' (stagingBucket (gcs config)) "FOCUS-Reports/" =
  listing s (stagingBucket (gcs config)) "FOCUS-Reports/" /\
  destExists config f s' = true /\
  (forall g, destExists config g s = true -> destExists config g s' = true) /\
  (forall b, is_Some (s !! b) -> is_Some (s' !! b)).
Proof.
  unfold copied, copyObject.
  destruct (s !! stagingBucket (gcs config)) as [sb|] eqn:Hsb; [|discriminate].
  destruct (s !! hiveBucket (gcs config)) as [db|] eqn:Hdb; [|discriminate].
  destruct (getObject (objects sb) (fullPath f)) as [c|]; [|discriminate].
  intros [= <-]. repeat split.
  - unfold listing.
    destruct (decide (hiveBucket (gcs config) = stagingBucket (gcs config))) as [E|E].
    + rewrite <- E, lookup_insert_eq, Hdb. simpl.
      now rewrite names_putObject by apply buildHivePath_prefix.
    + now rewrite lookup_insert_ne by assumption.
  - unfold destExists, objectExists. rewrite lookup_insert_eq.
    rewrite (hasObject_putObject _ (location db)). now rewrite String.eqb_refl.
  - intros g. unfold destExists, objectExists. rewrite lookup_insert_eq, Hdb.
    rewrite (hasObject_putObject _ (location db)). intros Hg.
    replace {| location := location db; objects := objects db |} with db by now destruct db.
    rewrite Hg. apply orb_true_r.
  - intros b. destruct (decide (hiveBucket (gcs config) = b)) as [<-|E].
    + rewrite lookup_insert_eq. eauto.
    + now rewrite lookup_insert_ne.
Qed.

(** What a turn of the loop does to the store: nothing, or the copy. *)
Lemma turn_store config f p w :
  store (snd (turn config f p w)) = store w \/
  (copied config f (store w) = Some (store (snd (turn config f p w))) /\
   fst (turn config f p w) = copiedOne p).
Proof.
  unfold turn, failedWith.
  destruct (faults w (length (requests w))); simpl; [now left|].
  destruct (destExists config f (store w)); simpl; [now left|].
  destruct (faults w (S (length (requests w)))); simpl; [now left|].
  destruct (copied config f (store w)); simpl; [now right | now left].
Qed.

Lemma turn_keeps config f p w :
  listing (store (snd (turn config f p w))) (stagingBucket (gcs config)) "FOCUS-Reports/" =
  listing (store w) (stagingBucket (gcs config)) "FOCUS-Reports/" /\
  (forall g, destExists config g (store w) = true ->
             destExists config g (store (snd (turn config f p w))) = true) /\
  (forall b, is_Some (store w !! b) -> is_Some (store (snd (turn config f p w)) !! b)).
Proof.
  destruct (turn_store config f p w) as [->|[H _]]; [tauto|].
  apply copied_effect in H. tauto.
Qed.

Lemma turns_keeps config files : forall p w,
  listing (store (snd (turns config files p w))) (stagingBucket (gcs config)) "FOCUS-Reports/" =
  listing (store w) (stagingBucket (gcs config)) "FOCUS-Reports/" /\
  (forall g, destExists config g (store w) = true ->
             destExists config g (store (snd (turns config files p w))) = true) /\
  (forall b, is_Some (store w !! b) -> is_Some (store (snd (turns config files p w)) !! b)).
Proof.
  induction files as [|f files IH]; intros p w; simpl; [tauto|].
  destruct (IH (fst (turn config f p w)) (snd (turn config f p w))) as (-> & H2 & H3).
  destruct (turn_keeps config f p w) as (-> & H5 & H6).
  repeat split; auto.
Qed.

Lemma turn_errored_le config f p w :
  (filesErrored p <= filesErrored (fst (turn config f p w)))%nat.
Proof.
  destruct (turn_one_counter config f p w) as [->|[->|[e ->]]]; simpl; lia.
Qed.

Lemma turns_errored_le config files : forall p w,
  (filesErrored p <= filesErrored (fst (turns config files p w)))%nat.
Proof.
  induction files as [|f files IH]; intros p w; simpl; [lia|].
  etransitivity; [apply (turn_errored_le config f p w)|apply IH].
Qed.





(** ** The window of incremental mode *)

Lemma selectFiles_step tza config name rest s w :
  selectFiles tza config (name :: rest) s w =
  selectFiles tza config rest (fst (choose tza config name s w))
    (snd (choose tza config name s w)).
Proof.
  rewrite !selectFiles_chosen. reflexivity.
Qed.

(** C4.  The date of a parsed object is a local midnight.  In
    incremental mode the object is retained if and only if that date
    is on or after the cutoff, and the cutoff is the local midnight that
    starts the day [daysToSync] days before the current day: the object
    is retained exactly when its day is not before that day, the day
    itself included, however far in the future it lies.  In full mode
    every parsed object is retained. *)
Theorem incremental_window tza config name parsed rest s w :
  Z.abs tza <= JSDate.msPerDay ->
  parseFilePath tza name = Some parsed ->
  exists t,
    date parsed = Some t /\
    JSDate.TimeWithinDay (JSDate.LocalTime tza t) = 0 /\
    match syncMode (job config) with
    | full =>
        selectFiles tza config (name :: rest) s w =
        selectFiles tza config rest (keepFile parsed s) w
    | incremental =>
        forall n c,
          daysToSync (job config) = Some n ->
          cutoffDate tza (clock w (ticks w)) (Some n) = Some c ->
          let today := JSDate.Day (JSDate.LocalTime tza (clock w (ticks w))) in
          JSDate.LocalTime tza c = (today - n) * JSDate.msPerDay /\
          JSDate.ge (date parsed) (Some c) =
            (today - n <=? JSDate.Day (JSDate.LocalTime tza t)) /\
          selectFiles tza config (name :: rest) s w =
          selectFiles tza config rest
            (if today - n <=? JSDate.Day (JSDate.LocalTime tza t)
             then keepFile parsed s else dropOutOfRange s)
            (tick w)
    end.
Proof.
  intros Htz Hp.
  destruct (parsed_date_valid tza name parsed Htz Hp) as [t Ht].
  assert (Hmid : JSDate.TimeWithinDay (JSDate.LocalTime tza t) = 0).
  { pose proof Hp as Hp'. apply parseFilePath_Some in Hp'. destruct Hp' as (_ & _ & Hd).
    rewrite Ht in Hd. symmetry in Hd. eapply construct_midnight; eassumption. }
  exists t. split; [exact Ht|]. split; [exact Hmid|].
  destruct (syncMode (job config)) eqn:Hmode.
  { rewrite selectFiles_step. unfold choose. now rewrite Hp, Hmode. }
  intros n c Hn Hc today.
  rewrite selectFiles_step. unfold choose. rewrite Hp, Hmode.
  pose proof (ge_cutoff tza _ n c t Hc Hmid) as Hge.
  split; [now apply cutoffDate_midnight|].
  rewrite Hn, Hc, Ht. fold today in Hge. rewrite Hge. split; [reflexivity|].
  destruct (today - n <=? _); reflexivity.
Qed.

(** ** Keys without the structure *)

Lemma chosen_app tza config files1 : forall files2 s w,
  chosen tza config (files1 ++ files2) s w =
  chosen tza config files2 (fst (chosen tza config files1 s w))
    (snd (chosen tza config files1 s w)).
Proof.
  induction files1 as [|n files1 IH]; intros files2 s w; simpl; [reflexivity|].
  apply IH.
Qed.

(** The counter of the non-matching names has no part in what is
    retained. *)
Lemma chosen_dropNonMatching tza config files : forall s w,
  chosen tza config files (dropNonMatching s) w =
  (dropNonMatching (fst (chosen tza config files s w)),
   snd (chosen tza config files s w)).
Proof.
  induction files as [|n files IH]; intros s w; simpl; [reflexivity|].
  unfold choose.
  destruct (parseFilePath tza n) as [parsed|]; simpl.
  - destruct (syncMode (job config)); simpl.
    + apply (IH (keepFile parsed s)).
    + destruct (JSDate.ge _ _); simpl.
      * apply (IH (keepFile parsed s)).
      * apply (IH (dropOutOfRange s)).
  - apply (IH (dropNonMatching s)).
Qed.

Lemma ensureBucketExists_requests b loc w out w1 :
  ensureBucketExists b loc w = (out, w1) ->
  exists rs, requests w1 = requests w ++ rs /\ forallb aboutBucket rs = true.
Proof.
  rewrite ensureBucketExists_eq. simpl.
  destruct (faults w (length (requests w))).
  { intros [= <- <-]. simpl. eauto. }
  destruct (store w !! b).
  { intros [= <- <-]. simpl. eauto. }
  destruct (faults w (S (length (requests w)))); intros [= <- <-]; simpl;
    rewrite <- app_assoc; eauto.
Qed.

(** The requests of a run, whatever its outcome: those about the
    buckets, the listing, and the checks and copies of objects that
    were parsed from their keys. *)
Lemma reorganizeListed_requests tza config startTime w out w' :
  reorganizeListed tza config startTime w = (out, w') ->
  exists rs, requests w' = requests w ++ listRequest config :: rs /\
    forall r, In r rs ->
      exists f, parseFilePath tza (fullPath f) = Some f /\
                (r = existsRequest config f \/ r = copyRequest config f).
Proof.
  rewrite reorganizeListed_eq.
  destruct (faults w (length (requests w))).
  { intros [= <- <-]. exists []. simpl. split; [reflexivity|contradiction]. }
  destruct (listing _ _ _) as [files|].
  2:{ intros [= <- <-]. exists []. simpl. split; [reflexivity|contradiction]. }
  intros [= <- <-]. unfold runListed.
  set (wl := addRequest (listRequest config) w).
  pose proof (chosen_frame tza config files emptySelection wl) as Hfr. simpl in Hfr.
  destruct Hfr as (_ & Hreq & _).
  destruct (dryRun (job config)); simpl.
  - exists []. rewrite Hreq. simpl. split; [reflexivity|contradiction].
  - set (sel := fst (chosen tza config files emptySelection wl)).
    set (w2 := snd (chosen tza config files emptySelection wl)) in *.
    destruct (reported_frame (fst (turns config (parsedFiles sel) noProgress w2))
                (tick (snd (turns config (parsedFiles sel) noProgress w2))))
      as (_ & -> & _).
    simpl.
    destruct (turns_frame config (parsedFiles sel) noProgress w2) as (-> & _).
    rewrite Hreq. simpl. rewrite <- app_assoc. simpl.
    eexists. split; [reflexivity|].
    intros r Hr. apply turnsRequests_about in Hr.
    destruct Hr as (f & Hf & Hr). exists f. split; [|assumption].
    apply chosen_parsed in Hf. destruct Hf as [[]|[_ Hf]]. exact Hf.
Qed.

Lemma reorganizeToHive_requests tza config w out w' :
  reorganizeToHive tza config w = (out, w') ->
  exists rs, requests w' = requests w ++ rs /\
    forall r, In r rs ->
      aboutBucket r = true \/ r = listRequest config \/
      exists f, parseFilePath tza (fullPath f) = Some f /\
                (r = existsRequest config f \/ r = copyRequest config f).
Proof.
  unfold reorganizeToHive. unfold bind at 1. unfold Date_now at 1.
  destruct (dryRun (job config)).
  - unfold checkBucketExists. unfold bind at 1. rewrite bucket_exists_eq. simpl.
    destruct (faults w (length (requests w))).
    { intros [= <- <-]. simpl. eexists. split; [reflexivity|].
      intros r [<-|[]]. now left. }
    unfold bind at 1. rewrite bucket_exists_eq. simpl.
    destruct (faults w (length (requests w ++ _))).
    { intros [= <- <-]. simpl. rewrite <- app_assoc. eexists. split; [reflexivity|].
      intros r [<-|[<-|[]]]; now left. }
    destruct (negb _).
    + unfold bind, Date_now, ret. simpl. intros [= <- <-]. simpl.
      rewrite <- app_assoc. eexists. split; [reflexivity|].
      intros r [<-|[<-|[]]]; now left.
    + intros H. apply reorganizeListed_requests in H.
      destruct H as (rs & -> & Hrs). simpl. rewrite <- !app_assoc. simpl.
      eexists. split; [reflexivity|].
      intros r [<-|[<-|[<-|Hr]]]; auto.
  - unfold bind at 1.
    destruct (ensureBucketExists _ _ (tick w)) as [[v1|e1] wa] eqn:Ha;
      apply ensureBucketExists_requests in Ha; destruct Ha as (rs1 & Hr1 & Ha1);
      simpl in Hr1.
    2:{ intros [= <- <-]. exists rs1. split; [assumption|].
        intros r Hr. left. rewrite forallb_forall in Ha1. auto. }
    unfold bind at 1.
    destruct (ensureBucketExists _ _ wa) as [[v2|e2] wb] eqn:Hb;
      apply ensureBucketExists_requests in Hb; destruct Hb as (rs2 & Hr2 & Ha2).
    2:{ intros [= <- <-]. exists (rs1 ++ rs2). rewrite Hr2, Hr1, app_assoc.
        split; [reflexivity|].
        intros r Hr. left. apply in_app_iff in Hr.
        rewrite forallb_forall in Ha1, Ha2. destruct Hr; auto. }
    intros H. apply reorganizeListed_requests in H.
    destruct H as (rs & -> & Hrs). rewrite Hr2, Hr1.
    exists (rs1 ++ rs2 ++ listRequest config :: rs).
    rewrite <- !app_assoc. split; [reflexivity|].
    intros r Hr. rewrite forallb_forall in Ha1, Ha2.
    apply in_app_iff in Hr. destruct Hr as [Hr|Hr]; [auto|].
    apply in_app_iff in Hr. destruct Hr as [Hr|[<-|Hr]]; auto.
Qed.

(** C5.  A listed key that does not have the structure
    FOCUS-Reports/<4 digits>/<2 digits>/<2 digits>/<name>.csv.gz is
    left out silently, in every sync mode: parsing gives null; the
    filtering loop only counts it as non-matching, sends no request and
    logs no error, so what is retained, and with it files_processed, is
    what it would be without the key;
    and no run, whatever its outcome, copies the object. *)
Theorem non_matching_keys_are_skipped tza path :
  ~ stagedKey path ->
  parseFilePath tza path = None /\
  (forall config files1 files2 s w, exists s1 s2 w1,
      selectFiles tza config (files1 ++ path :: files2) s w = (Ok s1, w1) /\
      selectFiles tza config (files1 ++ files2) s w = (Ok s2, w1) /\
      parsedFiles s1 = parsedFiles s2 /\
      skippedNonMatching s1 = S (skippedNonMatching s2) /\
      skippedOutOfRange s1 = skippedOutOfRange s2 /\
      requests w1 = requests w /\ errlog w1 = errlog w /\ store w1 = store w) /\
  (forall config w out w',
      reorganizeToHive tza config w = (out, w') ->
      exists rs, requests w' = requests w ++ rs /\
        forall r, In r rs ->
          match r with
          | FileCopy _ src _ _ => src <> path
          | _ => True
          end).
Proof.
  intros Hns.
  assert (Hnone : parseFilePath tza path = None).
  { destruct (parseFilePath tza path) eqn:E; [|reflexivity].
    apply parseFilePath_staged in E. contradiction. }
  split; [exact Hnone|]. split.
  - intros config files1 files2 s w.
    assert (Hch : forall s w, choose tza config path s w = (dropNonMatching s, w))
      by (intros; unfold choose; now rewrite Hnone).
    rewrite !selectFiles_chosen, !chosen_app. cbn [chosen].
    rewrite !Hch. cbn [fst snd]. rewrite chosen_dropNonMatching. cbn [fst snd].
    do 3 eexists. split; [reflexivity|]. split; [reflexivity|].
    rewrite <- chosen_app.
    pose proof (chosen_frame tza config (files1 ++ files2) s w) as Hfr.
    simpl in Hfr. destruct Hfr as (-> & -> & _ & _ & _ & ->). auto 10.
  - intros config w out w' H. apply reorganizeToHive_requests in H.
    destruct H as (rs & Hrs & Hall). exists rs. split; [assumption|].
    intros r Hr. destruct (Hall r Hr) as [Hb|[->|(f & Hf & [->| ->])]].
    + destruct r; try discriminate; exact I.
    + exact I.
    + exact I.
    + simpl. intros E. apply Hns. rewrite <- E. eapply parseFilePath_staged; eauto.
Qed.

(** ** Keys that name no day of the calendar *)


(** With seven days to sync and no offset from UTC, the key of the
    13th month is retained at noon of the 12th of February 2025, and
    on the last day of 2024, and is out of range on the 1st of March
    2025. *)
Example rolledKey_window :
  let inRange now :=
    option_map (fun p => JSDate.ge (date p) (cutoffDate 0 now (Some 7)))
      (parseFilePath 0 rolledKey) in
  inRange 1739361600000 = Some true /\
  inRange 1735646400000 = Some true /\
  inRange 1740830400000 = Some false.
Proof. repeat split; reflexivity. Qed.

(** ** The Mirror Stage *)

Section MirrorStage.
Variable JSON_parse : string -> option Sync.JSValue.


Lemma jsonStats_none lines :
  (forall l, In l lines -> structured l = false \/ JSON_parse l = None) ->
  Sync.jsonStats JSON_parse lines = None.
Proof.
  induction lines as [|l lines IH]; intros Hb; simpl; [reflexivity|].
  fold (structured l). rewrite IH by (intros; apply Hb; now right).
  destruct (Hb l (or_introl eq_refl)) as [-> | ->]; [reflexivity|].
  now destruct (structured l).
Qed.

Lemma textStats_fields output :
  Sync.textStats output = Sync.Object (transferFields output ++ byteFields output).
Proof.
  unfold Sync.textStats, transferFields, byteFields.
  destruct (JSString.search Sync.transferredAt output) as [[[n m] p]|];
    destruct (JSString.search Sync.bytesAt output) as [[b u]|];
    rewrite ?app_nil_r; reflexivity.
Qed.

Lemma lookup_fields output :
  Sync.lookupProperty (transferFields output ++ byteFields output) "transfers" =
    Sync.lookupProperty (transferFields output) "transfers" /\
  Sync.lookupProperty (transferFields output ++ byteFields output) "bytes" =
    Sync.lookupProperty (byteFields output) "bytes".
Proof.
  unfold transferFields, byteFields.
  destruct (JSString.search Sync.transferredAt output) as [[[n m] p]|];
    destruct (JSString.search Sync.bytesAt output) as [[b u]|]; split; reflexivity.
Qed.

Lemma parseRcloneOutput_text output :
  (forall l, In l (JSString.splitLines output) ->
             structured l = false \/ JSON_parse l = None) ->
  Sync.parseRcloneOutput JSON_parse output =
  Sync.Object (transferFields output ++ byteFields output).
Proof.
  intros Hall. unfold Sync.parseRcloneOutput.
  rewrite jsonStats_none by assumption. apply textStats_fields.
Qed.


(** C6.  In live mode a transfer tool that exits with a code other
    than zero makes the stage throw, after logging the code and the
    tool's diagnostic output; the stage returns a result only when the
    tool has run and exited with zero. *)
Theorem mirror_fails_without_statistics config w :
  dryRun (job config) = false ->
  (forall proc,
      exec w (syncCommand config) = Ok proc ->
      exitCode proc <> 0 ->
      let message := "rclone sync failed with exit code " +:+ Sync.showZ (exitCode proc) in
      exists w',
        Sync.syncOciToGcs JSON_parse config w = (Throw message, w') /\
        errlog w' = errlog w ++ [("SYNC", message); ("SYNC", stderr proc)]) /\
  (forall r w',
      Sync.syncOciToGcs JSON_parse config w = (Ok r, w') ->
      exists proc, exec w (syncCommand config) = Ok proc /\ exitCode proc = 0).
Proof.
  intros Hlive. split.
  - intros proc Hexec Hcode message.
    unfold Sync.syncOciToGcs. rewrite Hlive.
    unfold bind at 1. unfold Date_now at 1. unfold bind at 1.
    unfold Sync.spawn at 1. cbn [exec tick].
    fold (syncCommand config). rewrite Hexec.
    apply Z.eqb_neq in Hcode. rewrite Hcode. simpl.
    eexists. split; [reflexivity|]. simpl. now rewrite <- app_assoc.
  - intros r w'.
    unfold Sync.syncOciToGcs. rewrite Hlive.
    unfold bind at 1. unfold Date_now at 1. unfold bind at 1.
    unfold Sync.spawn at 1. cbn [exec tick].
    fold (syncCommand config).
    destruct (exec w (syncCommand config)) as [proc|e]; [|discriminate].
    destruct (exitCode proc =? 0) eqn:Hcode.
    + intros _. exists proc. split; [reflexivity|]. now apply Z.eqb_eq.
    + simpl. discriminate.
Qed.

End MirrorStage.

(** ** The byte count read from the text *)

Lemma search_skip {A} (m : string -> option A) pre : forall rest,
  (forall a b, pre = a +:+ b -> b <> EmptyString -> m (b +:+ rest) = None) ->
  JSString.search m (pre +:+ rest) = JSString.search m rest.
Proof.
  induction pre as [|c pre IH]; intros rest H; [reflexivity|].
  rewrite append_cons. cbn [JSString.search]. rewrite <- append_cons.
  rewrite (H EmptyString (String c pre)) by (reflexivity || discriminate).
  apply IH.
  intros a b -> Hb. apply (H (String c a) b); [reflexivity|assumption].
Qed.

Lemma search_here {A} (m : string -> option A) s r :
  m s = Some r -> JSString.search m s = Some r.
Proof. intros H. destruct s; simpl; now rewrite H. Qed.

Lemma unitFactor_steps :
  Forall (fun u => Sync.unitFactor (fst u) = 1024 ^ snd u) unitSteps.
Proof. repeat constructor. Qed.

(** C8, as amended.  The units of the byte pattern stand for binary
    multiples, 1024 for each step from B to the terabyte.  When no
    structured line is parsed and the first place at which the byte
    pattern matches is the text [Transferred: 1.5 GiB], the byte count
    is 1.5 * 1024^3 = 1610612736. *)
Theorem first_byte_quantity_is_parsed JSON_parse pre post :
  let output := pre +:+ gibLine +:+ post in
  (forall l, In l (JSString.splitLines output) ->
             structured l = false \/ JSON_parse l = None) ->
  (forall a b, pre = a +:+ b -> b <> EmptyString ->
               Sync.bytesAt (b +:+ gibLine +:+ post) = None) ->
  property (Sync.parseRcloneOutput JSON_parse output) "bytes" =
    Sync.ofZ 1610612736 /\
  Forall (fun u => Sync.unitFactor (fst u) = 1024 ^ snd u) unitSteps.
Proof.
  intros output Hjson Hfirst. split; [|apply unitFactor_steps].
  rewrite parseRcloneOutput_text by assumption.
  simpl. rewrite (proj2 (lookup_fields output)).
  unfold byteFields, output.
  rewrite search_skip by assumption.
  rewrite (search_here _ _ ("1.5", "GiB")) by reflexivity.
  reflexivity.
Qed.

(** An output may hold the text [Transferred: 1.5 GiB] and give
    another byte count: the pattern stops at the first quantity, here
    one byte. *)
Lemma later_byte_quantity_is_ignored :
  JSString.includes twoQuantities gibLine = true /\
  property (Sync.parseRcloneOutput (fun _ => None) twoQuantities) "bytes"
    = Sync.ofZ 1 /\
  property (Sync.parseRcloneOutput (fun _ => None) twoQuantities) "bytes"
    <> Sync.ofZ 1610612736.
Proof.
  split; [reflexivity|]. split; [reflexivity|]. discriminate.
Qed.

(** ** The theorems at concrete inputs *)



Lemma per_object_error_isolation_witness :
  let config := exampleConfig full false in
  let w := exampleWorld tenReports (faultAt 8 "boom") in
  let out := reorganizeToHive 0 config w in
  let r := {| files_processed := 10; files_copied := 9; files_skipped := 0;
              files_errored := 1; duration_seconds := 0 |} in
  let third := "FOCUS-Reports/2024/06/08/report.csv.gz" in
  dryRun (job config) = false /\
  out = (Ok r, snd out) /\
  (forall n, faults w n <> None -> n = 8%nat) /\
  faults w 8 = Some "boom" /\
  (length (requests w) <= 8)%nat /\
  requests (snd out) !! 8%nat =
    Some (FileCopy "staging" third "hive" "year=2024/month=06/day=08/report.csv.gz") /\
  files_errored r = 1%nat /\
  length (List.filter isFileExists (drop (length (requests w)) (requests (snd out))))
  = files_processed r /\
  exists bad,
    requests (snd out) !! 8%nat = Some (copyRequest config bad) /\
    errlog (snd out) = errlog w ++
      [("REORGANIZE", errorLine bad "boom");
       ("REORGANIZE", "Errors encountered:");
       ("REORGANIZE", "  " +:+ fullPath bad +:+ ": " +:+ "boom")].
Proof.
  intros config w out r third.
  assert (L : dryRun (job config) = false) by reflexivity.
  assert (H : out = (Ok r, snd out)) by (vm_compute; reflexivity).
  assert (F1 : forall n, faults w n <> None -> n = 8%nat).
  { intros n. unfold w, exampleWorld, faultAt. cbn [faults].
    destruct (Nat.eqb_spec n 8); [auto | congruence]. }
  assert (F2 : faults w 8 = Some "boom") by reflexivity.
  assert (F3 : (length (requests w) <= 8)%nat) by (vm_compute; lia).
  assert (F4 : requests (snd out) !! 8%nat =
               Some (FileCopy "staging" third "hive"
                       "year=2024/month=06/day=08/report.csv.gz"))
    by (vm_compute; reflexivity).
  split; [exact L|]. split; [exact H|]. split; [exact F1|]. split; [exact F2|].
  split; [exact F3|]. split; [exact F4|].
  exact (proj2 (proj2 per_object_error_isolation) 0 config w r (snd out)
           8%nat "boom" L H F1 F2 F3
           (ex_intro _ _ (conj F4 eq_refl))).
Defined.

Lemma live_counters_add_up_witness :
  let config := exampleConfig full false in
  let out := reorganizeToHive 0 config (exampleWorld tenReports (faultAt 8 "boom")) in
  let r := {| files_processed := 10; files_copied := 9; files_skipped := 0;
              files_errored := 1; duration_seconds := 0 |} in
  dryRun (job config) = false /\
  out = (Ok r, snd out) /\
  (files_copied r + files_skipped r + files_errored r)%nat = files_processed r.
Proof.
  intros config out r.
  assert (L : dryRun (job config) = false) by reflexivity.
  assert (H : out = (Ok r, snd out)) by (vm_compute; reflexivity).
  split; [exact L|]. split; [exact H|].
  exact (proj2 live_counters_add_up 0 config _ r (snd out) L H).
Defined.

Lemma dry_run_no_side_effects_witness :
  let config := exampleConfig incremental true in
  let w := exampleWorld tenReports noFault in
  let out := reorganizeToHive 0 config w in
  let r := {| files_processed := 8; files_copied := 0; files_skipped := 0;
              files_errored := 0; duration_seconds := 0 |} in
  dryRun (job config) = true /\
  out = (Ok r, snd out) /\
  steadyWindow 0 config w (Some 1717804800000) /\
  store (snd out) = store w /\
  (exists rs, requests (snd out) = requests w ++ rs /\
              forallb (fun r => negb (mutating r)) rs = true) /\
  files_copied r = 0%nat /\ files_skipped r = 0%nat /\ files_errored r = 0%nat /\
  files_processed r =
  length (omap (eligible 0 incremental (Some 1717804800000))
            (objectNames (store w) "staging")).
Proof.
  intros config w out r.
  assert (L : dryRun (job config) = true) by reflexivity.
  assert (H : out = (Ok r, snd out)) by (vm_compute; reflexivity).
  assert (S : steadyWindow 0 config w (Some 1717804800000))
    by (right; intros i; vm_compute; reflexivity).
  destruct (dry_run_no_side_effects 0 config w (Ok r) (snd out) L H)
    as (Hstore & Hreq & Hres).
  destruct (Hres r eq_refl) as (Hc & Hs & He & Hp).
  split; [exact L|]. split; [exact H|]. split; [exact S|].
  split; [exact Hstore|]. split; [exact Hreq|].
  split; [exact Hc|]. split; [exact Hs|]. split; [exact He|].
  exact (Hp (Some 1717804800000) S).
Defined.

Lemma incremental_window_witness :
  let config := exampleConfig incremental false in
  let w := exampleWorld tenReports noFault in
  let name := "FOCUS-Reports/2024/06/08/report.csv.gz" in
  let parsed := {| year := "2024"; month := "06"; day := "08";
                   filename := "report.csv.gz"; fullPath := name;
                   date := Some 1717804800000 |} in
  Z.abs 0 <= JSDate.msPerDay /\
  parseFilePath 0 name = Some parsed /\
  daysToSync (job config) = Some 7 /\
  cutoffDate 0 (clock w (ticks w)) (Some 7) = Some 1717804800000 /\
  exists t,
    date parsed = Some t /\
    JSDate.TimeWithinDay (JSDate.LocalTime 0 t) = 0 /\
    JSDate.ge (date parsed) (Some 1717804800000) =
      (19889 - 7 <=? JSDate.Day (JSDate.LocalTime 0 t)) /\
    selectFiles 0 config [name] emptySelection w =
    selectFiles 0 config []
      (if 19889 - 7 <=? JSDate.Day (JSDate.LocalTime 0 t)
       then keepFile parsed emptySelection else dropOutOfRange emptySelection)
      (tick w).
Proof.
  intros config w name parsed.
  assert (Z0 : Z.abs 0 <= JSDate.msPerDay) by (vm_compute; discriminate).
  assert (P : parseFilePath 0 name = Some parsed) by (vm_compute; reflexivity).
  assert (C : cutoffDate 0 (clock w (ticks w)) (Some 7) = Some 1717804800000)
    by (vm_compute; reflexivity).
  destruct (incremental_window 0 config name parsed [] emptySelection w Z0 P)
    as (t & Ht & Hmid & H).
  destruct (H 7 1717804800000 eq_refl C) as (_ & Hge & Hsel).
  split; [exact Z0|]. split; [exact P|]. split; [reflexivity|]. split; [exact C|].
  exists t. split; [exact Ht|]. split; [exact Hmid|]. split; [exact Hge|exact Hsel].
Defined.

Lemma readme_not_staged : ~ stagedKey "FOCUS-Reports/readme.txt".
Proof.
  intros (y & m & d & name & H & [Hy1 Hy2] & _).
  destruct y as [|a y]; [discriminate Hy1|].
  cbv [String.append] in H. injection H as Ha _. subst a.
  discriminate Hy2.
Defined.

Lemma non_matching_keys_are_skipped_witness :
  let path := "FOCUS-Reports/readme.txt" in
  let config := exampleConfig full false in
  let w := exampleWorld (("FOCUS-Reports/readme.txt", "notes") :: tenReports) noFault in
  ~ stagedKey path /\
  parseFilePath 0 path = None /\
  (exists s1 s2 w1,
      selectFiles 0 config ([] ++ path :: map fst tenReports) emptySelection w = (Ok s1, w1) /\
      selectFiles 0 config ([] ++ map fst tenReports) emptySelection w = (Ok s2, w1) /\
      parsedFiles s1 = parsedFiles s2 /\
      skippedNonMatching s1 = S (skippedNonMatching s2) /\
      skippedOutOfRange s1 = skippedOutOfRange s2 /\
      requests w1 = requests w /\ errlog w1 = errlog w /\ store w1 = store w) /\
  fst (reorganizeToHive 0 config w) =
    Ok {| files_processed := 10; files_copied := 10; files_skipped := 0;
          files_errored := 0; duration_seconds := 0 |}.
Proof.
  intros path config w.
  destruct (non_matching_keys_are_skipped 0 path readme_not_staged) as (Hp & Hsel & _).
  split; [exact readme_not_staged|]. split; [exact Hp|].
  split; [exact (Hsel config [] (map fst tenReports) emptySelection w)|].
  vm_compute; reflexivity.
Defined.

Lemma mirror_fails_without_statistics_witness :
  let config := exampleConfig full false in
  let proc := {| stdout := "Transferred: 1.5 GiB"; stderr := "permission denied";
                 exitCode := 3 |} in
  let w := toolWorld (Ok proc) in
  dryRun (job config) = false /\
  exec w (syncCommand config) = Ok proc /\
  exitCode proc <> 0 /\
  exists w',
    Sync.syncOciToGcs parseKeysLine config w =
      (Throw "rclone sync failed with exit code 3", w') /\
    errlog w' = errlog w ++ [("SYNC", "rclone sync failed with exit code 3");
                             ("SYNC", "permission denied")].
Proof.
  intros config proc w.
  assert (L : dryRun (job config) = false) by reflexivity.
  assert (E : exec w (syncCommand config) = Ok proc) by reflexivity.
  assert (C : exitCode proc <> 0) by discriminate.
  split; [exact L|]. split; [exact E|]. split; [exact C|].
  exact (proj1 (mirror_fails_without_statistics parseKeysLine config w L) proc E C).
Defined.


Lemma first_byte_quantity_is_parsed_witness :
  let pre := "x" in
  let post := " / 1.5 GiB, 100%, 10 MiB/s" in
  let output := pre +:+ gibLine +:+ post in
  (forall l, In l (JSString.splitLines output) ->
             structured l = false \/ parseKeysLine l = None) /\
  (forall a b, pre = a +:+ b -> b <> EmptyString ->
               Sync.bytesAt (b +:+ gibLine +:+ post) = None) /\
  property (Sync.parseRcloneOutput parseKeysLine output) "bytes" = Sync.ofZ 1610612736.
Proof.
  intros pre post output.
  assert (H1 : forall l, In l (JSString.splitLines output) ->
                         structured l = false \/ parseKeysLine l = None).
  { intros l Hl. vm_compute in Hl. destruct Hl as [<-|[]]. left. vm_compute. reflexivity. }
  assert (H2 : forall a b, pre = a +:+ b -> b <> EmptyString ->
                           Sync.bytesAt (b +:+ gibLine +:+ post) = None).
  { intros a b Hab Hb. unfold pre in Hab.
    destruct a as [|c a].
    - cbv [String.append] in Hab. subst b. vm_compute. reflexivity.
    - destruct a as [|c' a]; cbv [String.append] in Hab; [|discriminate Hab].
      injection Hab as _ Hab. congruence. }
  split; [exact H1|]. split; [exact H2|].
  exact (proj1 (first_byte_quantity_is_parsed parseKeysLine pre post H1 H2)).
Defined.


(** * More properties *)

(** ** What the Partition Stage does to the objects *)

Lemma keepsObjects_refl s : keepsObjects s s.
Proof. intros b n c H. exact H. Qed.

Lemma keepsObjects_trans s1 s2 s3 :
  keepsObjects s1 s2 -> keepsObjects s2 s3 -> keepsObjects s1 s3.
Proof. intros H1 H2 b n c H. apply H2, H1, H. Qed.

Lemma hasObject_getObject b n :
  hasObject b n = false -> getObject (objects b) n = None.
Proof.
  unfold hasObject. induction (objects b) as [|[m c] os IH]; simpl; [reflexivity|].
  destruct (String.eqb m n); simpl; [discriminate|exact IH].
Qed.

Lemma getObject_hasObject b n c :
  getObject (objects b) n = Some c -> hasObject b n = true.
Proof.
  intros H. destruct (hasObject b n) eqn:E; [reflexivity|].
  apply hasObject_getObject in E. congruence.
Qed.

(** A copy to a destination that is absent keeps every object. *)
Lemma copied_keeps config f s s' :
  copied config f s = Some s' ->
  destExists config f s = false ->
  keepsObjects s s'.
Proof.
  unfold copied, copyObject, destExists, objectExists.
  destruct (s !! stagingBucket (gcs config)) as [sb|] eqn:Hsb; [|discriminate].
  destruct (s !! hiveBucket (gcs config)) as [db|] eqn:Hdb; [|discriminate].
  destruct (getObject (objects sb) (fullPath f)) as [c0|]; [|discriminate].
  intros [= <-] Hd b n c. unfold objectContent.
  destruct (decide (hiveBucket (gcs config) = b)) as [<-|E].
  - rewrite lookup_insert_eq, Hdb. simpl. rewrite getObject_putObject.
    destruct (String.eqb (buildHivePath f) n) eqn:En; [|auto].
    apply String.eqb_eq in En. subst n.
    rewrite (hasObject_getObject db _ Hd). discriminate.
  - now rewrite lookup_insert_ne.
Qed.

Lemma turn_keepsObjects config f p w :
  keepsObjects (store w) (store (snd (turn config f p w))).
Proof.
  unfold turn, failedWith.
  destruct (faults w (length (requests w))); simpl; [apply keepsObjects_refl|].
  destruct (destExists config f (store w)) eqn:Hd; simpl; [apply keepsObjects_refl|].
  destruct (faults w (S (length (requests w)))); simpl; [apply keepsObjects_refl|].
  destruct (copied config f (store w)) eqn:Hc; simpl; [|apply keepsObjects_refl].
  eapply copied_keeps; eassumption.
Qed.

Lemma turns_keepsObjects config files : forall p w,
  keepsObjects (store w) (store (snd (turns config files p w))).
Proof.
  induction files as [|f files IH]; intros p w; simpl; [apply keepsObjects_refl|].
  eapply keepsObjects_trans; [apply turn_keepsObjects|apply IH].
Qed.

(** Creating a bucket that was absent leaves the objects as they were. *)
Lemma created_sameObjects (s : gmap string Bucket) b loc :
  s !! b = None ->
  sameObjects s (<[b := {| location := loc; objects := [] |}]> s).
Proof.
  intros Hb b' n. unfold objectContent.
  destruct (decide (b = b')) as [<-|E].
  - now rewrite lookup_insert_eq, Hb.
  - now rewrite lookup_insert_ne.
Qed.

Lemma sameObjects_refl s : sameObjects s s.
Proof. intros b n. reflexivity. Qed.

Lemma sameObjects_trans s1 s2 s3 :
  sameObjects s1 s2 -> sameObjects s2 s3 -> sameObjects s1 s3.
Proof. intros H1 H2 b n. now rewrite H2, H1. Qed.

Lemma sameObjects_keeps s s' : sameObjects s s' -> keepsObjects s s'.
Proof. intros H b n c Hc. now rewrite H. Qed.

(** Ensuring a bucket adds no object and sends no request about one,
    whatever its outcome. *)
Lemma ensureBucketExists_objects b loc w out w1 :
  ensureBucketExists b loc w = (out, w1) ->
  sameObjects (store w) (store w1) /\
  exists rs, requests w1 = requests w ++ rs /\
             Forall (fun r => aboutObject r = false) rs.
Proof.
  rewrite ensureBucketExists_eq. simpl.
  destruct (faults w (length (requests w))).
  { intros [= <- <-]. split; [apply sameObjects_refl|].
    eexists. split; [reflexivity|]. repeat constructor. }
  destruct (store w !! b) eqn:Hb.
  { intros [= <- <-]. split; [apply sameObjects_refl|].
    eexists. split; [reflexivity|]. repeat constructor. }
  destruct (faults w (S (length (requests w)))); intros [= <- <-]; simpl.
  - split; [apply sameObjects_refl|]. rewrite <- app_assoc.
    eexists. split; [reflexivity|]. repeat constructor.
  - split; [now apply created_sameObjects|]. rewrite <- app_assoc.
    eexists. split; [reflexivity|]. repeat constructor.
Qed.

(** The store and the requests of a run from the listing on: when it
    throws, nothing was done to the objects. *)
Lemma reorganizeListed_objects tza config startTime w out w' :
  reorganizeListed tza config startTime w = (out, w') ->
  keepsObjects (store w) (store w') /\
  (forall e, out = Throw e ->
     store w' = store w /\ requests w' = requests w ++ [listRequest config]).
Proof.
  rewrite reorganizeListed_eq.
  destruct (faults w (length (requests w))).
  { intros [= <- <-]. simpl. split; [apply keepsObjects_refl|]. auto. }
  destruct (listing _ _ _) as [files|].
  2:{ intros [= <- <-]. simpl. split; [apply keepsObjects_refl|]. auto. }
  intros [= <- <-]. split; [|discriminate].
  unfold runListed.
  set (wl := addRequest (listRequest config) w).
  pose proof (chosen_frame tza config files emptySelection wl) as Hfr. simpl in Hfr.
  destruct Hfr as (Hst & _).
  destruct (dryRun (job config)); simpl.
  - rewrite Hst. apply keepsObjects_refl.
  - match goal with |- context [reported ?p ?x] =>
      destruct (reported_frame p x) as (Hr & _); rewrite Hr end.
    simpl. eapply keepsObjects_trans; [|apply turns_keepsObjects].
    rewrite Hst. apply keepsObjects_refl.
Qed.

(** X1.  The Partition Stage never removes an object and never
    overwrites one: whatever the mode, the failures and the outcome of
    a run, every object that a bucket held before the run is there with
    the same content after it. *)
Theorem partition_keeps_every_object tza config w out w' b n c :
  reorganizeToHive tza config w = (out, w') ->
  objectContent (store w) b n = Some c ->
  objectContent (store w') b n = Some c.
Proof.
  intros H. revert b n c. change (keepsObjects (store w) (store w')).
  unfold reorganizeToHive in H. unfold bind at 1 in H. unfold Date_now at 1 in H.
  destruct (dryRun (job config)).
  - unfold checkBucketExists in H. unfold bind at 1 in H.
    rewrite bucket_exists_eq in H. simpl in H.
    destruct (faults w (length (requests w))).
    { injection H as <- <-. apply keepsObjects_refl. }
    unfold bind at 1 in H. rewrite bucket_exists_eq in H. simpl in H.
    destruct (faults w (length (requests w ++ _))).
    { injection H as <- <-. apply keepsObjects_refl. }
    destruct (negb _).
    + unfold bind, Date_now, ret in H. simpl in H. injection H as <- <-.
      apply keepsObjects_refl.
    + apply reorganizeListed_objects in H. apply H.
  - unfold bind at 1 in H.
    destruct (ensureBucketExists _ _ (tick w)) as [[v1|e1] wa] eqn:Ha;
      apply ensureBucketExists_objects in Ha; destruct Ha as [Ha _];
      apply sameObjects_keeps in Ha; simpl in Ha.
    2:{ injection H as <- <-. exact Ha. }
    unfold bind at 1 in H.
    destruct (ensureBucketExists _ _ wa) as [[v2|e2] wb] eqn:Hb;
      apply ensureBucketExists_objects in Hb; destruct Hb as [Hb _];
      apply sameObjects_keeps in Hb.
    2:{ injection H as <- <-. eapply keepsObjects_trans; eassumption. }
    apply reorganizeListed_objects in H. destruct H as [H _].
    eapply keepsObjects_trans; [exact Ha|].
    eapply keepsObjects_trans; [exact Hb|exact H].
Qed.

(** X2.  A run that throws has done nothing to the objects: it has
    sent no request that checks or copies one, and the buckets hold
    the objects they held (a bucket may have been created, empty). *)
Theorem partition_throws_before_any_copy tza config w e w' :
  reorganizeToHive tza config w = (Throw e, w') ->
  sameObjects (store w) (store w') /\
  exists rs, requests w' = requests w ++ rs /\
             Forall (fun r => aboutObject r = false) rs.
Proof.
  intros H.
  unfold reorganizeToHive in H. unfold bind at 1 in H. unfold Date_now at 1 in H.
  destruct (dryRun (job config)).
  - unfold checkBucketExists in H. unfold bind at 1 in H.
    rewrite bucket_exists_eq in H. simpl in H.
    destruct (faults w (length (requests w))).
    { injection H as <- <-. simpl. split; [apply sameObjects_refl|].
      eexists. split; [reflexivity|]. repeat constructor. }
    unfold bind at 1 in H. rewrite bucket_exists_eq in H. simpl in H.
    destruct (faults w (length (requests w ++ _))).
    { injection H as <- <-. simpl. split; [apply sameObjects_refl|].
      rewrite <- app_assoc.
      eexists. split; [reflexivity|]. repeat constructor. }
    destruct (negb _).
    + unfold bind, Date_now, ret in H. simpl in H. discriminate H.
    + apply reorganizeListed_objects in H. destruct H as [_ H].
      destruct (H e eq_refl) as [-> ->]. simpl. split; [apply sameObjects_refl|].
      rewrite <- !app_assoc.
      eexists. split; [reflexivity|]. repeat constructor.
  - unfold bind at 1 in H.
    destruct (ensureBucketExists _ _ (tick w)) as [[v1|e1] wa] eqn:Ha;
      apply ensureBucketExists_objects in Ha; destruct Ha as (Ha & ra & Hra & Fa);
      simpl in Ha, Hra.
    2:{ injection H as <- <-. split; [exact Ha|]. eauto. }
    unfold bind at 1 in H.
    destruct (ensureBucketExists _ _ wa) as [[v2|e2] wb] eqn:Hb;
      apply ensureBucketExists_objects in Hb; destruct Hb as (Hb & rb & Hrb & Fb).
    2:{ injection H as <- <-. split; [eapply sameObjects_trans; eassumption|].
        exists (ra ++ rb). rewrite Hrb, Hra, app_assoc. split; [reflexivity|].
        apply Forall_app. auto. }
    apply reorganizeListed_objects in H. destruct H as [_ H].
    destruct (H e eq_refl) as [Hs Hr]. rewrite Hs, Hr, Hrb, Hra.
    split; [eapply sameObjects_trans; eassumption|].
    exists (ra ++ rb ++ [listRequest config]). rewrite <- !app_assoc.
    split; [reflexivity|]. rewrite !Forall_app. repeat split; auto.
Qed.

(** ** Staged keys and their destinations *)

Lemma append_inv_head (p a b : string) : p +:+ a = p +:+ b -> a = b.
Proof.
  induction p as [|c p IH]; [auto|].
  rewrite !append_cons. intros [= H]. auto.
Qed.

Lemma append_inj_length : forall (a a' b b' : string),
  String.length a = String.length a' ->
  a +:+ b = a' +:+ b' -> a = a' /\ b = b'.
Proof.
  induction a as [|c a IH]; intros [|c' a'] b b' Hl H; try discriminate Hl.
  - auto.
  - rewrite !append_cons in H. injection H as -> H.
    injection Hl as Hl. destruct (IH a' b b' Hl H) as [-> ->]. auto.
Qed.

(** The parts of a parsed key. *)
Lemma parseFilePath_parts tza path parsed :
  parseFilePath tza path = Some parsed ->
  exists name,
    filename parsed = name +:+ ".csv.gz" /\ name <> EmptyString /\
    oneLine name = true /\
    path = "FOCUS-Reports/" +:+ year parsed +:+ "/" +:+ month parsed +:+ "/"
             +:+ day parsed +:+ "/" +:+ filename parsed /\
    fullPath parsed = path /\
    digitString 4 (year parsed) /\ digitString 2 (month parsed) /\
    digitString 2 (day parsed).
Proof.
  intros H. apply parseFilePath_Some in H. destruct H as (Hr & Hp & _).
  apply FILE_PATH_REGEX_sound in Hr.
  destruct Hr as (name & Hf & Hn & Hl & Hpath & Hy & Hm & Hd).
  exists name. tauto.
Qed.

(** X3.  The keys that the stage recognises are exactly those of the
    form [FOCUS-Reports/YYYY/MM/DD/<name>.csv.gz], with four, two and
    two decimal digits and a name that is not empty and holds no line
    terminator; the fields of the parsed key are these parts, and its
    destination is [year=YYYY/month=MM/day=DD/<name>.csv.gz]. *)
Theorem recognised_keys tza path :
  (forall parsed, parseFilePath tza path = Some parsed ->
     exists y m d name,
       path = "FOCUS-Reports/" +:+ y +:+ "/" +:+ m +:+ "/" +:+ d +:+ "/"
                +:+ name +:+ ".csv.gz" /\
       digitString 4 y /\ digitString 2 m /\ digitString 2 d /\
       name <> EmptyString /\ oneLine name = true /\
       fullPath parsed = path /\
       buildHivePath parsed =
         "year=" +:+ y +:+ "/month=" +:+ m +:+ "/day=" +:+ d +:+ "/"
           +:+ name +:+ ".csv.gz") /\
  (forall y m d name,
     path = "FOCUS-Reports/" +:+ y +:+ "/" +:+ m +:+ "/" +:+ d +:+ "/"
              +:+ name +:+ ".csv.gz" ->
     digitString 4 y -> digitString 2 m -> digitString 2 d ->
     name <> EmptyString -> oneLine name = true ->
     exists parsed, parseFilePath tza path = Some parsed /\
       year parsed = y /\ month parsed = m /\ day parsed = d /\
       filename parsed = name +:+ ".csv.gz").
Proof.
  split.
  - intros parsed H. apply parseFilePath_parts in H.
    destruct H as (name & Hf & Hn & Hl & Hpath & Hfull & Hy & Hm & Hd).
    exists (year parsed), (month parsed), (day parsed), name.
    unfold buildHivePath. rewrite Hf in *. tauto.
  - intros y m d name -> Hy Hm Hd Hn Hl.
    unfold parseFilePath.
    rewrite (FILE_PATH_REGEX_complete y m d name Hy Hm Hd Hn Hl).
    eexists. split; [reflexivity|]. simpl. tauto.
Qed.

(** The destination determines the key. *)
Lemma buildHivePath_inj tza path1 path2 parsed1 parsed2 :
  parseFilePath tza path1 = Some parsed1 ->
  parseFilePath tza path2 = Some parsed2 ->
  buildHivePath parsed1 = buildHivePath parsed2 -> path1 = path2.
Proof.
  intros H1 H2.
  apply parseFilePath_parts in H1, H2.
  destruct H1 as (n1 & _ & _ & _ & -> & _ & [Hy1 _] & [Hm1 _] & [Hd1 _]).
  destruct H2 as (n2 & _ & _ & _ & -> & _ & [Hy2 _] & [Hm2 _] & [Hd2 _]).
  unfold buildHivePath. intros H.
  apply append_inv_head in H.
  apply append_inj_length in H; [|congruence]. destruct H as [-> H].
  apply append_inv_head in H.
  apply append_inj_length in H; [|congruence]. destruct H as [-> H].
  apply append_inv_head in H.
  apply append_inj_length in H; [|congruence]. destruct H as [-> H].
  apply append_inv_head in H. now rewrite H.
Qed.

(** X4.  Two recognised keys that differ have destinations that
    differ, and no destination is itself a key under the listed
    prefix: the copies of a run never collide and are never taken for
    sources, even when one bucket serves as both. *)
Theorem destinations_do_not_collide tza path1 path2 parsed1 parsed2 :
  parseFilePath tza path1 = Some parsed1 ->
  parseFilePath tza path2 = Some parsed2 ->
  (buildHivePath parsed1 = buildHivePath parsed2 -> path1 = path2) /\
  JSString.startsWith (buildHivePath parsed1) "FOCUS-Reports/" = false /\
  parseFilePath tza (buildHivePath parsed1) = None.
Proof.
  intros H1 H2.
  assert (Hpre : JSString.startsWith (buildHivePath parsed1) "FOCUS-Reports/" = false)
    by apply buildHivePath_prefix.
  split; [|split; [exact Hpre|]].
  - eapply buildHivePath_inj; eassumption.
  - destruct (parseFilePath tza (buildHivePath parsed1)) as [q|] eqn:Hq; [|reflexivity].
    apply parseFilePath_prefix in Hq. congruence.
Qed.

(** ** What a live run leaves at the destinations *)

Lemma hasObject_Some b n :
  hasObject b n = true -> exists c, getObject (objects b) n = Some c.
Proof.
  unfold hasObject. induction (objects b) as [|[m c] os IH]; simpl; [discriminate|].
  destruct (String.eqb m n); simpl; eauto.
Qed.

Lemma objectExists_content s b n :
  objectExists s b n = true <-> exists c, objectContent s b n = Some c.
Proof.
  unfold objectExists, objectContent. destruct (s !! b) as [bk|].
  - split; [apply hasObject_Some|]. intros [c Hc]. eapply getObject_hasObject, Hc.
  - split; [discriminate|]. intros [c Hc]. discriminate.
Qed.

Lemma objectExists_absent s b n :
  objectExists s b n = false -> objectContent s b n = None.
Proof.
  intros H. destruct (objectContent s b n) as [c|] eqn:E; [|reflexivity].
  assert (objectExists s b n = true) by (apply objectExists_content; eauto).
  congruence.
Qed.

(** What a copy writes, and all it changes. *)
Lemma copied_content config f s s' :
  copied config f s = Some s' ->
  exists d,
    objectContent s (stagingBucket (gcs config)) (fullPath f) = Some d /\
    objectContent s' (hiveBucket (gcs config)) (buildHivePath f) = Some d /\
    forall b n, (b = hiveBucket (gcs config) -> n <> buildHivePath f) ->
                objectContent s' b n = objectContent s b n.
Proof.
  unfold copied, copyObject, objectContent.
  destruct (s !! stagingBucket (gcs config)) as [sb|] eqn:Hsb; [|discriminate].
  destruct (s !! hiveBucket (gcs config)) as [db|] eqn:Hdb; [|discriminate].
  destruct (getObject (objects sb) (fullPath f)) as [c0|]; [|discriminate].
  intros [= <-]. exists c0. split; [reflexivity|]. split.
  - rewrite lookup_insert_eq. simpl. rewrite getObject_putObject.
    now rewrite String.eqb_refl.
  - intros b n Hne. destruct (decide (hiveBucket (gcs config) = b)) as [<-|E].
    + rewrite lookup_insert_eq, Hdb. simpl. rewrite getObject_putObject.
      destruct (String.eqb (buildHivePath f) n) eqn:En; [|reflexivity].
      apply String.eqb_eq in En. symmetry in En. now apply Hne in En.
    + now rewrite lookup_insert_ne.
Qed.

(** A turn that counts no error found the destination, or wrote the
    content of the source to it and changed nothing else. *)
Lemma turn_content config f p w :
  filesErrored (fst (turn config f p w)) = filesErrored p ->
  let s := store w in
  let s' := store (snd (turn config f p w)) in
  ((exists d, objectContent s (hiveBucket (gcs config)) (buildHivePath f) = Some d) /\
   s' = s) \/
  (objectContent s (hiveBucket (gcs config)) (buildHivePath f) = None /\
   exists d,
     objectContent s (stagingBucket (gcs config)) (fullPath f) = Some d /\
     objectContent s' (hiveBucket (gcs config)) (buildHivePath f) = Some d /\
     forall b n, (b = hiveBucket (gcs config) -> n <> buildHivePath f) ->
                 objectContent s' b n = objectContent s b n).
Proof.
  unfold turn, failedWith.
  destruct (faults w (length (requests w))); simpl; [lia|].
  destruct (destExists config f (store w)) eqn:Hd; simpl.
  { intros _. left. split; [|reflexivity]. now apply objectExists_content. }
  destruct (faults w (S (length (requests w)))); simpl; [lia|].
  destruct (copied config f (store w)) as [s'|] eqn:Hc; simpl; [|lia].
  intros _. right. split; [now apply objectExists_absent|].
  now apply copied_content.
Qed.

(** The loop, when it counts no error: every destination holds what
    it held, or else the content of a source of that destination. *)
Lemma turns_content config files : forall p w,
  filesErrored (fst (turns config files p w)) = filesErrored p ->
  (forall g, In g files ->
     is_Some (objectContent (store w) (stagingBucket (gcs config)) (fullPath g))) ->
  forall f, In f files ->
    exists d,
      objectContent (store (snd (turns config files p w)))
        (hiveBucket (gcs config)) (buildHivePath f) = Some d /\
      (objectContent (store w) (hiveBucket (gcs config)) (buildHivePath f) = Some d \/
       (objectContent (store w) (hiveBucket (gcs config)) (buildHivePath f) = None /\
        exists g, In g files /\ buildHivePath g = buildHivePath f /\
          objectContent (store w) (stagingBucket (gcs config)) (fullPath g) = Some d)).
Proof.
  induction files as [|f0 files IH]; intros p w Hclean Hsrc f Hin; [destruct Hin|].
  simpl in Hclean |- *.
  set (p1 := fst (turn config f0 p w)) in *.
  set (w1 := snd (turn config f0 p w)) in *.
  pose proof (turn_errored_le config f0 p w) as L1. fold p1 in L1.
  pose proof (turns_errored_le config files p1 w1) as L2.
  assert (E1 : filesErrored p1 = filesErrored p) by lia.
  assert (E2 : filesErrored (fst (turns config files p1 w1)) = filesErrored p1) by lia.
  pose proof (turn_keepsObjects config f0 p w) as K1. fold w1 in K1.
  pose proof (turns_keepsObjects config files p1 w1) as K2.
  pose proof (turn_content config f0 p w E1) as T. simpl in T. fold w1 in T.
  assert (Hsrc1 : forall g, In g files ->
     is_Some (objectContent (store w1) (stagingBucket (gcs config)) (fullPath g))).
  { intros g Hg. destruct (Hsrc g (or_intror Hg)) as [c Hc]. exists c. now apply K1. }
  destruct Hin as [<- | Hin].
  - destruct T as [[[d Hd] Hs] | (Hnone & d & Hsd & Hd & _)].
    + exists d. split; [apply K2; rewrite Hs; exact Hd|]. now left.
    + exists d. split; [apply K2; exact Hd|]. right. split; [exact Hnone|].
      exists f0. split; [now left|]. auto.
  - destruct (IH p1 w1 E2 Hsrc1 f Hin) as (d & Hfin & Hcase).
    exists d. split; [exact Hfin|].
    destruct Hcase as [Hd1 | (Hn1 & g & Hg & Hgp & Hgd)].
    + destruct T as [[_ Hs] | (Hnone & d0 & Hsd & Hd0 & Hother)].
      * left. now rewrite <- Hs.
      * destruct (String.eqb_spec (buildHivePath f) (buildHivePath f0)) as [E|NE].
        -- right. rewrite E. split; [exact Hnone|].
           exists f0. split; [now left|]. split; [now symmetry|].
           rewrite E, Hd0 in Hd1. congruence.
        -- left. rewrite <- Hother; [exact Hd1|]. intros _. exact NE.
    + right. split.
      * destruct (objectContent (store w) (hiveBucket (gcs config)) (buildHivePath f))
          as [c|] eqn:E; [|reflexivity].
        apply K1 in E. congruence.
      * exists g. split; [now right|]. split; [exact Hgp|].
        destruct (Hsrc g (or_intror Hg)) as [c Hc].
        pose proof (K1 _ _ _ Hc) as Hc1. congruence.
Qed.

(** A live run that returns, taken apart as [reorganizeToHive_live]
    does, with the objects of the store. *)
Lemma reorganizeToHive_live_objects tza config w r w' :
  dryRun (job config) = false ->
  reorganizeToHive tza config w = (Ok r, w') ->
  exists w1 files,
    sameObjects (store w) (store w1) /\
    clock w1 = clock w /\ faults w1 = faults w /\ errlog w1 = errlog w /\
    is_Some (store w1 !! stagingBucket (gcs config)) /\
    is_Some (store w1 !! hiveBucket (gcs config)) /\
    listing (store w1) (stagingBucket (gcs config)) "FOCUS-Reports/" = Some files /\
    r = fst (runListed tza config (clock w (ticks w)) files
               (addRequest (listRequest config) w1)) /\
    w' = snd (runListed tza config (clock w (ticks w)) files
                (addRequest (listRequest config) w1)).
Proof.
  intros Hlive H. unfold reorganizeToHive in H.
  apply bind_Ok in H. destruct H as (t0 & wa & Ha & H).
  unfold Date_now in Ha. injection Ha as <- <-.
  rewrite Hlive in H.
  apply bind_Ok in H. destruct H as (v1 & wb & Hb & H).
  apply bind_Ok in H. destruct H as (v2 & wc & Hc & H).
  pose proof (ensureBucketExists_objects _ _ _ _ _ Hb) as [O1 _].
  pose proof (ensureBucketExists_objects _ _ _ _ _ Hc) as [O2 _].
  apply ensureBucketExists_Ok in Hb, Hc.
  destruct Hb as ((Hf1 & Hk1 & He1) & Ht1 & Hl1 & Hs1 & Hp1 & Hu1 & rs1 & Hr1 & Ha1).
  destruct Hc as ((Hf2 & Hk2 & He2) & Ht2 & Hl2 & Hs2 & Hp2 & Hu2 & rs2 & Hr2 & Ha2).
  simpl in *.
  rewrite reorganizeListed_eq in H.
  destruct (faults wc (length (requests wc))) eqn:Hfault; [discriminate|].
  destruct (listing _ _ _) as [files|] eqn:Hlist; [|discriminate].
  injection H as <- <-.
  exists wc, files.
  split; [eapply sameObjects_trans; eassumption|].
  repeat split; try congruence. now apply Hp2.
Qed.

(** A name with content is a name of the bucket. *)
Lemma objectContent_listed s b prefix files name c :
  listing s b prefix = Some files ->
  objectContent s b name = Some c ->
  JSString.startsWith name prefix = true ->
  In name files.
Proof.
  unfold listing, objectContent. destruct (s !! b) as [bk|]; [|discriminate].
  intros [= <-] Hc Hp. apply filter_In. split; [|exact Hp].
  clear Hp. induction (objects bk) as [|[m c'] os IH]; simpl in *; [discriminate|].
  destruct (String.eqb_spec m name); [now left|right; auto].
Qed.

Lemma eligible_parsed tza mode c name parsed :
  eligible tza mode c name = Some parsed ->
  parseFilePath tza name = Some parsed.
Proof.
  unfold eligible. destruct (parseFilePath tza name) as [q|]; [|discriminate].
  destruct mode; [congruence|]. destruct (JSDate.ge _ _); congruence.
Qed.

(** What the copying loop leaves at the destination of a retained
    object, when it counts no error. *)
Lemma runListed_content tza config c startTime files w1 name parsed content :
  dryRun (job config) = false ->
  listing (store w1) (stagingBucket (gcs config)) "FOCUS-Reports/" = Some files ->
  steadyWindow tza config w1 c ->
  let run := runListed tza config startTime files (addRequest (listRequest config) w1) in
  files_errored (fst run) = 0%nat ->
  eligible tza (syncMode (job config)) c name = Some parsed ->
  objectContent (store w1) (stagingBucket (gcs config)) name = Some content ->
  objectContent (store (snd run)) (hiveBucket (gcs config)) (buildHivePath parsed) =
    Some (default content
            (objectContent (store w1) (hiveBucket (gcs config)) (buildHivePath parsed))).
Proof.
  intros Hlive Hlist Hc run He Hel Hcontent. unfold run in *. clear run.
  unfold runListed in *. rewrite Hlive in *. simpl in He |- *.
  set (wl := addRequest (listRequest config) w1) in *.
  pose proof (chosen_frame tza config files emptySelection wl) as F. simpl in F.
  destruct F as (Hs & _).
  pose proof (chosen_steady tza config c files emptySelection wl
                (steadyWindow_clock _ _ w1 wl _ eq_refl Hc)) as P. simpl in P.
  set (sel := fst (chosen tza config files emptySelection wl)) in *.
  set (v := snd (chosen tza config files emptySelection wl)) in *.
  destruct (reported_frame (fst (turns config (parsedFiles sel) noProgress v))
              (tick (snd (turns config (parsedFiles sel) noProgress v))))
    as (-> & _).
  simpl.
  pose proof (eligible_parsed _ _ _ _ _ Hel) as Hparse.
  pose proof (parseFilePath_Some _ _ _ Hparse) as (_ & Hfull & _).
  assert (Hin : In parsed (parsedFiles sel)).
  { rewrite P. apply list_elem_of_In, list_elem_of_omap.
    exists name. split; [|exact Hel]. apply list_elem_of_In.
    eapply objectContent_listed; [exact Hlist|exact Hcontent|].
    eapply parseFilePath_prefix; eassumption. }
  assert (Hsrc : forall g, In g (parsedFiles sel) ->
     is_Some (objectContent (store v) (stagingBucket (gcs config)) (fullPath g))).
  { intros g Hg. rewrite Hs. change (store wl) with (store w1).
    apply chosen_parsed in Hg. destruct Hg as [[] | [Hg _]].
    destruct (listing_getObject _ _ _ _ _ Hlist Hg) as (sb & cg & Hb & Hcg).
    exists cg. unfold objectContent. now rewrite Hb. }
  destruct (turns_content config (parsedFiles sel) noProgress v He Hsrc parsed Hin)
    as (d & Hfin & Hcase).
  rewrite Hfin. f_equal.
  rewrite Hs in Hcase. change (store wl) with (store w1) in Hcase.
  destruct Hcase as [-> | (-> & g & Hg & Hgp & Hgd)]; [reflexivity|].
  simpl. apply chosen_parsed in Hg. destruct Hg as [[] | [_ Hgparse]].
  pose proof (buildHivePath_inj tza _ _ _ _ Hgparse Hparse Hgp) as Hsame.
  rewrite Hsame in Hgd. congruence.
Qed.

(** X5.  After a live run that returned without counting an error,
    the destination of every object that the run retained holds the
    content it held before the run when there was one, and a copy of
    the content of the staged object otherwise. *)
Theorem clean_run_delivers_the_content tza config c w r w' name parsed content :
  dryRun (job config) = false ->
  reorganizeToHive tza config w = (Ok r, w') ->
  files_errored r = 0%nat ->
  steadyWindow tza config w c ->
  eligible tza (syncMode (job config)) c name = Some parsed ->
  objectContent (store w) (stagingBucket (gcs config)) name = Some content ->
  objectContent (store w') (hiveBucket (gcs config)) (buildHivePath parsed) =
    Some (default content
            (objectContent (store w) (hiveBucket (gcs config)) (buildHivePath parsed))).
Proof.
  intros Hlive H He Hc Hel Hcontent.
  apply reorganizeToHive_live_objects in H; [|assumption].
  destruct H as (w1 & files & Hobj & Hck & _ & _ & _ & _ & Hlist & -> & ->).
  rewrite <- (Hobj (hiveBucket (gcs config))).
  apply (runListed_content tza config c _ files w1 name parsed content);
    try assumption.
  - eapply steadyWindow_clock; [|exact Hc]. exact Hck.
  - now rewrite Hobj.
Qed.

(** ** Runs in which no request fails *)

Lemma ensureBucketExists_no_fault b loc w :
  (forall n, faults w n = None) ->
  exists w1,
    ensureBucketExists b loc w = (Ok true, w1) /\
    faults w1 = faults w /\ clock w1 = clock w /\ ticks w1 = ticks w /\
    errlog w1 = errlog w /\ is_Some (store w1 !! b) /\
    (forall b', is_Some (store w !! b') -> is_Some (store w1 !! b')).
Proof.
  intros Hf. rewrite ensureBucketExists_eq. simpl. rewrite !Hf.
  destruct (store w !! b) as [bk|] eqn:Hb.
  - eexists. split; [reflexivity|]. simpl. rewrite Hb. repeat split; eauto.
  - eexists. split; [reflexivity|]. simpl. rewrite lookup_insert_eq.
    repeat split; eauto.
    intros b' Hb'. destruct (decide (b = b')) as [->|Hne].
    + rewrite lookup_insert_eq. eauto.
    + now rewrite lookup_insert_ne.
Qed.

(** X6.  Only a failing request makes a live run fail: when every
    request succeeds, the run returns, whether the buckets existed or
    not, it counts no error and logs none, and every retained object
    is either copied or skipped. *)
Theorem live_run_without_failures_is_clean tza config w :
  dryRun (job config) = false ->
  (forall n, faults w n = None) ->
  exists r w',
    reorganizeToHive tza config w = (Ok r, w') /\
    files_errored r = 0%nat /\
    (files_copied r + files_skipped r)%nat = files_processed r /\
    errlog w' = errlog w.
Proof.
  intros Hlive Hf.
  unfold reorganizeToHive. unfold bind at 1. unfold Date_now at 1. rewrite Hlive.
  destruct (ensureBucketExists_no_fault (stagingBucket (gcs config)) "europe-west3"
              (tick w) Hf) as (wa & Ha & Hfa & Hca & Hta & Hea & Hsa & Hka).
  simpl in Hfa, Hca, Hta, Hea.
  rewrite (bind_eq _ _ _ _ _ Ha).
  assert (Hf1 : forall n, faults wa n = None) by (intros n; rewrite Hfa; apply Hf).
  destruct (ensureBucketExists_no_fault (hiveBucket (gcs config)) "europe-west3"
              wa Hf1) as (wb & Hb & Hfb & Hcb & Htb & Heb & Hsb & Hkb).
  rewrite (bind_eq _ _ _ _ _ Hb).
  assert (Hf2 : forall n, faults wb n = None) by (intros n; rewrite Hfb; apply Hf1).
  rewrite reorganizeListed_eq, Hf2.
  pose proof (Hkb _ Hsa) as [sb Hstag].
  unfold listing at 1. rewrite Hstag.
  set (files := List.filter _ _).
  assert (Hlist : listing (store wb) (stagingBucket (gcs config)) "FOCUS-Reports/"
                  = Some files).
  { unfold listing. now rewrite Hstag. }
  do 2 eexists. split; [reflexivity|].
  unfold runListed. rewrite Hlive. simpl.
  set (wl := addRequest (listRequest config) wb).
  pose proof (chosen_frame tza config files emptySelection wl) as F. simpl in F.
  destruct F as (Hs & Hr & Hfl & _ & _ & Hel).
  set (sel := fst (chosen tza config files emptySelection wl)) in *.
  set (v := snd (chosen tza config files emptySelection wl)) in *.
  assert (Hready : ready config (parsedFiles sel) (store v)).
  { rewrite Hs. apply (chosen_ready tza config files wl); [exact Hsb|exact Hlist]. }
  destruct (turns_no_fault config (parsedFiles sel) noProgress v Hready) as (E1 & E2 & E3).
  { intros n _. rewrite Hfl. apply Hf2. }
  pose proof (turns_accounted config (parsedFiles sel) noProgress v) as Hacc.
  unfold accounted in Hacc. simpl in Hacc, E1, E2.
  split; [exact E1|]. split; [lia|].
  unfold reported. rewrite E2. simpl. rewrite E3, Hel. simpl. congruence.
Qed.

(** ** Buckets that are missing *)

(** X7.  A dry run that finds no staging bucket stops after asking
    for the two buckets: it lists nothing, creates nothing and returns
    a result whose counters are all zero, without an error. *)
Theorem dry_run_without_staging_bucket tza config w :
  dryRun (job config) = true ->
  store w !! stagingBucket (gcs config) = None ->
  faults w (length (requests w)) = None ->
  faults w (S (length (requests w))) = None ->
  exists r w',
    reorganizeToHive tza config w = (Ok r, w') /\
    files_processed r = 0%nat /\ files_copied r = 0%nat /\
    files_skipped r = 0%nat /\ files_errored r = 0%nat /\
    store w' = store w /\ errlog w' = errlog w /\
    requests w' = requests w ++ [BucketExists (stagingBucket (gcs config));
                                 BucketExists (hiveBucket (gcs config))].
Proof.
  intros Hdry Hnone F0 F1. unfold reorganizeToHive, checkBucketExists.
  rewrite Hdry. unfold bind at 1. unfold Date_now at 1.
  unfold bind at 1. rewrite bucket_exists_eq. simpl. rewrite F0.
  unfold bind at 1. rewrite bucket_exists_eq. simpl.
  rewrite length_app, Nat.add_1_r. simpl. rewrite F1, Hnone.
  rewrite bool_decide_eq_false_2 by (intros [? ?]; discriminate). simpl.
  unfold bind, Date_now, ret. simpl.
  do 2 eexists. split; [reflexivity|]. simpl.
  rewrite <- app_assoc. repeat split.
Qed.

(** X8.  A live run that returns has made sure of both buckets: each
    exists afterwards.  When there was no staging bucket the run has
    created it in europe-west3, empty, and has processed nothing. *)
Theorem live_run_creates_missing_buckets tza config w r w' :
  dryRun (job config) = false ->
  reorganizeToHive tza config w = (Ok r, w') ->
  is_Some (store w' !! stagingBucket (gcs config)) /\
  is_Some (store w' !! hiveBucket (gcs config)) /\
  (store w !! stagingBucket (gcs config) = None ->
   files_processed r = 0%nat /\
   store w' !! stagingBucket (gcs config) =
     Some {| location := "europe-west3"; objects := [] |}).
Proof.
  intros Hlive H. unfold reorganizeToHive in H.
  apply bind_Ok in H. destruct H as (t0 & wa & Ha & H).
  unfold Date_now in Ha. injection Ha as <- <-.
  rewrite Hlive in H.
  apply bind_Ok in H. destruct H as (v1 & wb & Hb & H).
  apply bind_Ok in H. destruct H as (v2 & wc & Hc & H).
  pose proof Hb as Hb'. pose proof Hc as Hc'.
  apply ensureBucketExists_Ok in Hb', Hc'.
  destruct Hb' as (_ & _ & _ & Hs1 & Hp1 & _).
  destruct Hc' as (_ & _ & _ & Hs2 & Hp2 & _).
  rewrite reorganizeListed_eq in H.
  destruct (faults wc (length (requests wc))); [discriminate|].
  destruct (listing _ _ _) as [files|] eqn:Hlist; [|discriminate].
  injection H as <- <-.
  unfold runListed. rewrite Hlive. simpl.
  set (wl := addRequest (listRequest config) wc).
  pose proof (chosen_frame tza config files emptySelection wl) as F. simpl in F.
  destruct F as (Hst & _).
  set (sel := fst (chosen tza config files emptySelection wl)) in *.
  set (v := snd (chosen tza config files emptySelection wl)) in *.
  destruct (reported_frame (fst (turns config (parsedFiles sel) noProgress v))
              (tick (snd (turns config (parsedFiles sel) noProgress v))))
    as (-> & _).
  simpl.
  destruct (turns_keeps config (parsedFiles sel) noProgress v) as (_ & _ & K).
  rewrite Hst in K. change (store wl) with (store wc) in K.
  split; [apply K, Hp2, Hs1|]. split; [apply K, Hs2|].
  intros Hnone.
  (* the staging bucket was created, so the listing is empty *)
  rewrite ensureBucketExists_eq in Hb. simpl in Hb.
  destruct (faults w (length (requests w))); [discriminate|].
  rewrite Hnone in Hb.
  destruct (faults w (S (length (requests w)))); [discriminate|].
  injection Hb as _ <-.
  assert (Hwc : store wc !! stagingBucket (gcs config) =
                Some {| location := "europe-west3"; objects := [] |}).
  { rewrite ensureBucketExists_eq in Hc. cbn [faults store requests setStore addRequest tick] in Hc.
    destruct (faults w _); [discriminate|].
    destruct (decide (stagingBucket (gcs config) = hiveBucket (gcs config))) as [E|NE].
    - rewrite <- E in Hc. rewrite lookup_insert_eq in Hc.
      injection Hc as _ <-. simpl. now rewrite lookup_insert_eq.
    - rewrite lookup_insert_ne in Hc by assumption.
      destruct (store w !! hiveBucket (gcs config)).
      + injection Hc as _ <-. simpl. now rewrite lookup_insert_eq.
      + destruct (faults w _); [discriminate|].
        injection Hc as _ <-. simpl.
        rewrite lookup_insert_ne by congruence. now rewrite lookup_insert_eq. }
  assert (Hfiles : files = []).
  { unfold listing in Hlist. rewrite Hwc in Hlist. simpl in Hlist. congruence. }
  subst files. simpl in sel, v. subst sel v. simpl. split; [reflexivity|exact Hwc].
Qed.

(** ** A window without a number of days *)

Lemma eligible_no_cutoff tza (names : list string) :
  omap (eligible tza incremental None) names = [].
Proof.
  induction names as [|n names IH]; [reflexivity|].
  cbn [omap list_omap]. fold (omap (eligible tza incremental None) names).
  rewrite IH. unfold eligible.
  destruct (parseFilePath tza n) as [q|]; [|reflexivity].
  now destruct (date q).
Qed.

Lemma chosen_no_cutoff tza config files w :
  syncMode (job config) = incremental ->
  daysToSync (job config) = None ->
  parsedFiles (fst (chosen tza config files emptySelection w)) = [].
Proof.
  intros Hm Hd.
  rewrite (chosen_steady tza config None).
  - rewrite Hm. apply eligible_no_cutoff.
  - right. intros i. rewrite Hd.
    apply (no_cutoff_nothing_in_range tza (clock w i) None).
Qed.

Lemma runListed_no_cutoff tza config startTime files w :
  syncMode (job config) = incremental ->
  daysToSync (job config) = None ->
  let r := fst (runListed tza config startTime files w) in
  files_processed r = 0%nat /\ files_copied r = 0%nat /\
  files_skipped r = 0%nat /\ files_errored r = 0%nat.
Proof.
  intros Hm Hd. unfold runListed.
  rewrite (chosen_no_cutoff tza config files w Hm Hd).
  destruct (dryRun (job config)); simpl; auto.
Qed.

(** The result of a run that returns is that of the early return of
    a dry run, or that of [runListed]. *)
Lemma reorganizeToHive_results tza config w r w' :
  reorganizeToHive tza config w = (Ok r, w') ->
  (files_processed r = 0%nat /\ files_copied r = 0%nat /\
   files_skipped r = 0%nat /\ files_errored r = 0%nat) \/
  exists startTime files w1, r = fst (runListed tza config startTime files w1).
Proof.
  intros H.
  unfold reorganizeToHive in H. unfold bind at 1 in H. unfold Date_now at 1 in H.
  destruct (dryRun (job config)) eqn:Hdry.
  - unfold checkBucketExists in H. unfold bind at 1 in H.
    rewrite bucket_exists_eq in H. simpl in H.
    destruct (faults w (length (requests w))); [discriminate|].
    unfold bind at 1 in H. rewrite bucket_exists_eq in H. simpl in H.
    destruct (faults w (length (requests w ++ _))); [discriminate|].
    destruct (negb _).
    + unfold bind, Date_now, ret in H. simpl in H. injection H as <- <-.
      left. simpl. auto.
    + rewrite reorganizeListed_eq in H.
      destruct (faults _ _); [discriminate|].
      destruct (listing _ _ _) as [files|]; [|discriminate].
      injection H as <- _. right. eauto.
  - apply bind_Ok in H. destruct H as (v1 & wb & _ & H).
    apply bind_Ok in H. destruct H as (v2 & wc & _ & H).
    rewrite reorganizeListed_eq in H.
    destruct (faults _ _); [discriminate|].
    destruct (listing _ _ _) as [files|]; [|discriminate].
    injection H as <- _. right. eauto.
Qed.

(** X9.  In incremental mode a number of days that is not a number
    gives no cutoff, and no date is on or after it: the run retains
    nothing, so it copies and skips nothing and counts no error,
    whatever the staging bucket holds. *)
Theorem window_without_days_retains_nothing tza config w r w' :
  syncMode (job config) = incremental ->
  daysToSync (job config) = None ->
  reorganizeToHive tza config w = (Ok r, w') ->
  files_processed r = 0%nat /\ files_copied r = 0%nat /\
  files_skipped r = 0%nat /\ files_errored r = 0%nat.
Proof.
  intros Hm Hd H.
  destruct (reorganizeToHive_results tza config w r w' H)
    as [Hzero | (startTime & files & w1 & ->)].
  - exact Hzero.
  - now apply runListed_no_cutoff.
Qed.

(** ** The date of a key *)

(** [MakeDay] on a date of the calendar, and the way back. *)
Lemma MakeDay_calendar ym mn dt :
  0 <= mn <= 11 ->
  1 <= dt <= daysInMonth (JSDate.isLeapYear ym) (mn + 1) ->
  let t := (JSDate.MakeDay ym mn dt) * JSDate.msPerDay in
  JSDate.YearFromTime t = ym /\ JSDate.MonthFromTime t = mn /\
  JSDate.DateFromTime t = dt.
Proof.
  intros Hm Hd t.
  remember (if JSDate.isLeapYear ym then 1 else 0) as leap eqn:Eleap.
  assert (Hday : JSDate.Day t =
                 JSDate.DayFromYear ym + JSDate.monthStart leap mn + dt - 1).
  { unfold t, JSDate.MakeDay.
    replace (mn / 12) with 0 by div_lia. replace (mn mod 12) with mn by div_lia.
    rewrite Z.add_0_r, <- Eleap.
    rewrite <- (Z.add_0_r (_ * JSDate.msPerDay)).
    apply Day_midnight. unfold JSDate.msPerDay. lia. }
  assert (Hleap : 0 <= leap <= 1) by (subst leap; destruct (JSDate.isLeapYear ym); lia).
  assert (Hdiy : JSDate.DaysInYear ym = 365 + leap).
  { unfold JSDate.DaysInYear. subst leap. now destruct (JSDate.isLeapYear ym). }
  assert (Hin : JSDate.InLeapYear t = (if JSDate.isLeapYear (JSDate.YearFromTime t) then 1 else 0))
    by reflexivity.
  assert (C : mn = 0 \/ mn = 1 \/ mn = 2 \/ mn = 3 \/ mn = 4 \/ mn = 5 \/ mn = 6 \/
              mn = 7 \/ mn = 8 \/ mn = 9 \/ mn = 10 \/ mn = 11) by lia.
  assert (Hlen : daysInMonth (JSDate.isLeapYear ym) (mn + 1)
                 = (if mn =? 11 then 365 + leap else JSDate.monthStart leap (mn + 1))
                   - JSDate.monthStart leap mn).
  { subst leap. clear -C.
    repeat (destruct C as [->|C];
            [destruct (JSDate.isLeapYear ym); reflexivity|]).
    rewrite C. destruct (JSDate.isLeapYear ym); reflexivity. }
  rewrite Hlen in Hd. clear Hlen.
  pose proof (monthStart_range leap mn Hleap Hm) as Hs.
  assert (Hnext : JSDate.monthStart leap mn + dt - 1 < 365 + leap).
  { destruct (Z.eqb_spec mn 11) as [->|Hne].
    - lia.
    - pose proof (monthStart_range leap (mn + 1) Hleap ltac:(lia)). lia. }
  assert (Hy : JSDate.YearFromTime t = ym).
  { unfold JSDate.YearFromTime. apply YearFromDay_unique.
    rewrite Hday, DayFromYear_succ, Hdiy. lia. }
  assert (Hw : JSDate.DayWithinYear t = JSDate.monthStart leap mn + dt - 1).
  { unfold JSDate.DayWithinYear. rewrite Hy, Hday. lia. }
  assert (Hl : JSDate.InLeapYear t = leap).
  { rewrite Hin, Hy. now subst leap. }
  assert (Hmonth : JSDate.MonthFromTime t = mn).
  { unfold JSDate.MonthFromTime. rewrite Hw, Hl.
    clear Hin Hl Hw Hy Hday Hdiy Hnext Hs Eleap. clearbody t. clear t.
    repeat (destruct C as [->|C];
            [cbn in Hd;
             match type of Hd with
             | context [?k + 1] =>
                 let v := eval vm_compute in (k + 1) in change (k + 1) with v in Hd
             end;
             cbn [JSDate.monthStart] in Hd |- *;
             repeat match goal with
                    | |- context [?a <? ?b] =>
                        destruct (Z.ltb_spec a b); try lia
                    end; reflexivity|]).
    rewrite C in *. cbn in Hd. cbn [JSDate.monthStart].
    repeat match goal with
           | |- context [?a <? ?b] => destruct (Z.ltb_spec a b); try lia
           end; reflexivity. }
  split; [exact Hy|]. split; [exact Hmonth|].
  unfold JSDate.DateFromTime. rewrite Hw, Hl, Hmonth. lia.
Qed.

(** X10.  When the digits of a key name a day of the calendar, the
    date of the key is the local midnight that starts that very day:
    read back in local time it gives the year, the month and the day
    of the key.  A year from 0000 to 0099 stands for 1900 to 1999. *)
Theorem key_date_is_the_day_it_names tza path parsed y m d :
  Z.abs tza <= JSDate.msPerDay ->
  parseFilePath tza path = Some parsed ->
  JSNumber.parseInt (year parsed) None = Some y ->
  JSNumber.parseInt (month parsed) None = Some m ->
  JSNumber.parseInt (day parsed) None = Some d ->
  1 <= m <= 12 ->
  1 <= d <= daysInMonth (JSDate.isLeapYear (fullYear y)) m ->
  exists t,
    date parsed = Some t /\
    JSDate.YearFromTime (JSDate.LocalTime tza t) = fullYear y /\
    JSDate.MonthFromTime (JSDate.LocalTime tza t) = m - 1 /\
    JSDate.DateFromTime (JSDate.LocalTime tza t) = d /\
    JSDate.TimeWithinDay (JSDate.LocalTime tza t) = 0.
Proof.
  intros Htz Hp Hy Hm Hd Rm Rd.
  destruct (parsed_date_valid tza path parsed Htz Hp) as [t Ht].
  exists t. split; [exact Ht|].
  pose proof Hp as Hp'. apply parseFilePath_Some in Hp'. destruct Hp' as (_ & _ & Hdate).
  rewrite Ht, Hy, Hm, Hd in Hdate. simpl JSDate.sub in Hdate. symmetry in Hdate.
  pose proof (construct_midnight _ _ _ _ _ Hdate) as Hmid.
  unfold JSDate.construct in Hdate. fold (fullYear y) in Hdate.
  apply TimeClip_Some in Hdate.
  assert (Hlocal : JSDate.LocalTime tza t =
                   JSDate.MakeDay (fullYear y) (m - 1) d * JSDate.msPerDay).
  { rewrite Hdate. unfold JSDate.LocalTime, JSDate.UTC, JSDate.MakeDate, JSDate.MakeTime.
    lia. }
  rewrite Hlocal in *.
  destruct (MakeDay_calendar (fullYear y) (m - 1) d) as (A & B & C).
  - lia.
  - now replace (m - 1 + 1) with m by lia.
  - auto.
Qed.

(** ** The configuration *)

Lemma getRequiredEnv_provided env name w :
  provided env name = true ->
  exists value, env !! name = Some value /\ value <> EmptyString /\
    Configuration.getRequiredEnv env name w = (Ok value, w).
Proof.
  unfold provided, Configuration.getRequiredEnv.
  destruct (env !! name) as [v|]; [|discriminate].
  destruct (String.eqb_spec v EmptyString); [discriminate|].
  intros _. exists v. auto.
Qed.

Lemma getRequiredEnv_missing env name w :
  provided env name = false ->
  Configuration.getRequiredEnv env name w =
  (Throw ("Missing required environment variable: " +:+ name), w).
Proof.
  unfold provided, Configuration.getRequiredEnv.
  destruct (env !! name) as [v|]; [|reflexivity].
  destruct (String.eqb v EmptyString); [reflexivity|discriminate].
Qed.

Lemma getOptionalEnv_default env name default :
  provided env name = false ->
  Configuration.getOptionalEnv env name default = default.
Proof.
  unfold provided, Configuration.getOptionalEnv.
  destruct (env !! name) as [v|]; [|reflexivity].
  now destruct (String.eqb v EmptyString).
Qed.

Lemma getOptionalEnv_value env name default value :
  env !! name = Some value -> value <> EmptyString ->
  Configuration.getOptionalEnv env name default = value.
Proof.
  unfold Configuration.getOptionalEnv. intros -> Hv.
  now destruct (String.eqb_spec value EmptyString).
Qed.

Lemma getOptionalEnv_cases env name default :
  (provided env name = false /\
   Configuration.getOptionalEnv env name default = default) \/
  (exists value, env !! name = Some value /\ value <> EmptyString /\
     provided env name = true /\
     Configuration.getOptionalEnv env name default = value).
Proof.
  unfold provided, Configuration.getOptionalEnv.
  destruct (env !! name) as [v|]; [|now left].
  destruct (String.eqb_spec v EmptyString); [now left|].
  right. exists v. auto.
Qed.

(** What [loadConfig] returns when the four variables are provided. *)
Lemma loadConfig_provided env w :
  Forall (fun n => provided env n = true) required ->
  exists tenancy staging hive project,
    env !! "OCI_TENANCY_OCID" = Some tenancy /\
    env !! "GCS_STAGING_BUCKET" = Some staging /\
    env !! "GCS_HIVE_BUCKET" = Some hive /\
    env !! "GCS_PROJECT_ID" = Some project /\
    Configuration.loadConfig env w =
    (Ok {| oci := {| oci_remoteName :=
                       Configuration.getOptionalEnv env "OCI_RCLONE_REMOTE"
                         "oci-usage-reports-config";
                     tenancyOcid := tenancy |};
           gcs := {| gcs_remoteName :=
                       Configuration.getOptionalEnv env "GCS_RCLONE_REMOTE" "gcs-config";
                     stagingBucket := staging; hiveBucket := hive;
                     projectId := project |};
           job := {| syncMode :=
                       Configuration.asSyncMode
                         (Configuration.getOptionalEnv env "SYNC_MODE" "incremental");
                     daysToSync :=
                       JSNumber.parseInt
                         (Configuration.getOptionalEnv env "DAYS_TO_SYNC" "7") (Some 10);
                     dryRun :=
                       String.eqb
                         (toLowerCase (Configuration.getOptionalEnv env "DRY_RUN" "false"))
                         "true";
                     logLevel :=
                       Configuration.asLogLevel
                         (Configuration.getOptionalEnv env "LOG_LEVEL" "info") |} |}, w).
Proof.
  intros H. unfold required in H.
  apply Forall_cons in H as [H1 H]. apply Forall_cons in H as [H2 H].
  apply Forall_cons in H as [H3 H]. apply Forall_cons in H as [H4 _].
  destruct (getRequiredEnv_provided env _ w H1) as (t & Et & _ & Ht).
  destruct (getRequiredEnv_provided env _ w H2) as (s & Es & _ & Hs).
  destruct (getRequiredEnv_provided env _ w H3) as (h & Eh & _ & Hh).
  destruct (getRequiredEnv_provided env _ w H4) as (p & Ep & _ & Hp).
  exists t, s, h, p. repeat (split; [assumption|]).
  unfold Configuration.loadConfig.
  rewrite (bind_eq _ _ _ _ _ Ht), (bind_eq _ _ _ _ _ Hs),
    (bind_eq _ _ _ _ _ Hh), (bind_eq _ _ _ _ _ Hp).
  reflexivity.
Qed.

(** [loadConfig] never changes the world, and returns only when the
    four variables are provided. *)
Lemma loadConfig_Ok env w config w' :
  Configuration.loadConfig env w = (Ok config, w') ->
  w' = w /\ Forall (fun n => provided env n = true) required.
Proof.
  unfold Configuration.loadConfig. intros H.
  destruct (provided env "OCI_TENANCY_OCID") eqn:H1.
  2:{ rewrite (bind_throw _ _ _ _ _ (getRequiredEnv_missing env _ w H1)) in H.
      discriminate. }
  destruct (getRequiredEnv_provided env _ w H1) as (t & _ & _ & Ht).
  rewrite (bind_eq _ _ _ _ _ Ht) in H.
  destruct (provided env "GCS_STAGING_BUCKET") eqn:H2.
  2:{ rewrite (bind_throw _ _ _ _ _ (getRequiredEnv_missing env _ w H2)) in H.
      discriminate. }
  destruct (getRequiredEnv_provided env _ w H2) as (s & _ & _ & Hs).
  rewrite (bind_eq _ _ _ _ _ Hs) in H.
  destruct (provided env "GCS_HIVE_BUCKET") eqn:H3.
  2:{ rewrite (bind_throw _ _ _ _ _ (getRequiredEnv_missing env _ w H3)) in H.
      discriminate. }
  destruct (getRequiredEnv_provided env _ w H3) as (h & _ & _ & Hh).
  rewrite (bind_eq _ _ _ _ _ Hh) in H.
  destruct (provided env "GCS_PROJECT_ID") eqn:H4.
  2:{ rewrite (bind_throw _ _ _ _ _ (getRequiredEnv_missing env _ w H4)) in H.
      discriminate. }
  destruct (getRequiredEnv_provided env _ w H4) as (p & _ & _ & Hp).
  rewrite (bind_eq _ _ _ _ _ Hp) in H.
  unfold ret in H. injection H as _ <-.
  split; [reflexivity|]. repeat constructor; assumption.
Qed.

Lemma loadConfig_Throw env w e w' :
  Configuration.loadConfig env w = (Throw e, w') ->
  w' = w /\
  exists before name after,
    required = before ++ name :: after /\
    Forall (fun n => provided env n = true) before /\
    provided env name = false /\
    e = "Missing required environment variable: " +:+ name.
Proof.
  unfold Configuration.loadConfig. intros H.
  destruct (provided env "OCI_TENANCY_OCID") eqn:H1.
  2:{ rewrite (bind_throw _ _ _ _ _ (getRequiredEnv_missing env _ w H1)) in H.
      injection H as <- <-. split; [reflexivity|].
      exists [], "OCI_TENANCY_OCID", (tail required). repeat split; auto. }
  destruct (getRequiredEnv_provided env _ w H1) as (t & _ & _ & Ht).
  rewrite (bind_eq _ _ _ _ _ Ht) in H.
  destruct (provided env "GCS_STAGING_BUCKET") eqn:H2.
  2:{ rewrite (bind_throw _ _ _ _ _ (getRequiredEnv_missing env _ w H2)) in H.
      injection H as <- <-. split; [reflexivity|].
      exists (take 1 required), "GCS_STAGING_BUCKET", (drop 2 required).
      repeat split; auto. repeat constructor; assumption. }
  destruct (getRequiredEnv_provided env _ w H2) as (s & _ & _ & Hs).
  rewrite (bind_eq _ _ _ _ _ Hs) in H.
  destruct (provided env "GCS_HIVE_BUCKET") eqn:H3.
  2:{ rewrite (bind_throw _ _ _ _ _ (getRequiredEnv_missing env _ w H3)) in H.
      injection H as <- <-. split; [reflexivity|].
      exists (take 2 required), "GCS_HIVE_BUCKET", (drop 3 required).
      repeat split; auto. repeat constructor; assumption. }
  destruct (getRequiredEnv_provided env _ w H3) as (h & _ & _ & Hh).
  rewrite (bind_eq _ _ _ _ _ Hh) in H.
  destruct (provided env "GCS_PROJECT_ID") eqn:H4.
  2:{ rewrite (bind_throw _ _ _ _ _ (getRequiredEnv_missing env _ w H4)) in H.
      injection H as <- <-. split; [reflexivity|].
      exists (take 3 required), "GCS_PROJECT_ID", [].
      repeat split; auto. repeat constructor; assumption. }
  destruct (getRequiredEnv_provided env _ w H4) as (p & _ & _ & Hp).
  rewrite (bind_eq _ _ _ _ _ Hp) in H.
  discriminate H.
Qed.

(** The variable that the message names is the first that is not
    provided. *)
Lemma loadConfig_first_missing env w before name after :
  required = before ++ name :: after ->
  Forall (fun n => provided env n = true) before ->
  provided env name = false ->
  Configuration.loadConfig env w =
  (Throw ("Missing required environment variable: " +:+ name), w).
Proof.
  intros Hreq Hb Hn.
  destruct (Configuration.loadConfig env w) as [[config|e] w'] eqn:E.
  - apply loadConfig_Ok in E. destruct E as [_ E].
    rewrite Hreq in E. apply Forall_app in E as [_ E].
    apply Forall_cons in E as [E _]. congruence.
  - apply loadConfig_Throw in E.
    destruct E as (-> & b' & n' & a' & Hreq' & Hb' & Hn' & ->).
    assert (b' = before /\ n' = name) as [_ ->]; [|reflexivity].
    clear -Hreq Hreq' Hb Hb' Hn Hn'. rewrite Hreq in Hreq'. clear Hreq.
    revert b' Hreq' Hb'. induction before as [|x before IH]; intros b' Hreq' Hb'.
    + destruct b' as [|y b']; simpl in Hreq'.
      * injection Hreq' as -> _. auto.
      * injection Hreq' as -> _. apply Forall_cons in Hb' as [Hy _]. congruence.
    + apply Forall_cons in Hb as [Hx Hb].
      destruct b' as [|y b']; simpl in Hreq'.
      * injection Hreq' as -> _. congruence.
      * injection Hreq' as -> Hreq'. apply Forall_cons in Hb' as [_ Hb'].
        destruct (IH Hb b' Hreq' Hb') as [-> ->]. auto.
Qed.

(** X11.  [loadConfig] returns exactly when the four required
    variables are set to values that are not empty, and then it gives
    these values unchanged.  Otherwise it throws, and its message
    names the first of them, in the order OCI_TENANCY_OCID,
    GCS_STAGING_BUCKET, GCS_HIVE_BUCKET, GCS_PROJECT_ID, that is unset
    or empty. *)
Theorem loadConfig_required_variables env w :
  (Forall (fun n => provided env n = true) required ->
   exists config,
     Configuration.loadConfig env w = (Ok config, w) /\
     env !! "OCI_TENANCY_OCID" = Some (tenancyOcid (oci config)) /\
     env !! "GCS_STAGING_BUCKET" = Some (stagingBucket (gcs config)) /\
     env !! "GCS_HIVE_BUCKET" = Some (hiveBucket (gcs config)) /\
     env !! "GCS_PROJECT_ID" = Some (projectId (gcs config))) /\
  (forall config w', Configuration.loadConfig env w = (Ok config, w') ->
     Forall (fun n => provided env n = true) required) /\
  (forall before name after,
     required = before ++ name :: after ->
     Forall (fun n => provided env n = true) before ->
     provided env name = false ->
     Configuration.loadConfig env w =
     (Throw ("Missing required environment variable: " +:+ name), w)).
Proof.
  split; [|split].
  - intros H. destruct (loadConfig_provided env w H) as (t & s & h & p & Et & Es & Eh & Ep & E).
    eexists. split; [exact E|]. simpl. auto.
  - intros config w' H. now apply loadConfig_Ok in H.
  - intros before name after. apply loadConfig_first_missing.
Qed.

(** The settings of the job that [loadConfig] returns. *)
Lemma loadConfig_job env w config w' :
  Configuration.loadConfig env w = (Ok config, w') ->
  job config =
  {| syncMode :=
       Configuration.asSyncMode
         (Configuration.getOptionalEnv env "SYNC_MODE" "incremental");
     daysToSync :=
       JSNumber.parseInt (Configuration.getOptionalEnv env "DAYS_TO_SYNC" "7") (Some 10);
     dryRun :=
       String.eqb (toLowerCase (Configuration.getOptionalEnv env "DRY_RUN" "false"))
         "true";
     logLevel :=
       Configuration.asLogLevel (Configuration.getOptionalEnv env "LOG_LEVEL" "info") |}.
Proof.
  intros H. pose proof (loadConfig_Ok _ _ _ _ H) as [-> Hreq].
  destruct (loadConfig_provided env w Hreq) as (t & s & h & p & _ & _ & _ & _ & E).
  rewrite E in H. now injection H as <-.
Qed.

(** X12.  The settings of the job are not validated.  The run is a
    dry run exactly when DRY_RUN is set to [true] in any mix of cases:
    unset, it is a live run.  The mode is incremental when SYNC_MODE
    is unset, empty or exactly [incremental], and full for every other
    value.  The number of days is what [parseInt] reads in radix 10
    from DAYS_TO_SYNC, 7 when it is unset or empty. *)
Theorem job_settings_are_not_validated env w config w' :
  Configuration.loadConfig env w = (Ok config, w') ->
  (dryRun (job config) = true <->
   exists value, env !! "DRY_RUN" = Some value /\ toLowerCase value = "true") /\
  (syncMode (job config) = incremental <->
   provided env "SYNC_MODE" = false \/ env !! "SYNC_MODE" = Some "incremental") /\
  (provided env "DAYS_TO_SYNC" = false -> daysToSync (job config) = Some 7) /\
  (forall value, env !! "DAYS_TO_SYNC" = Some value -> value <> EmptyString ->
     daysToSync (job config) = JSNumber.parseInt value (Some 10)).
Proof.
  intros H. rewrite (loadConfig_job _ _ _ _ H). simpl.
  split; [|split; [|split]].
  - destruct (getOptionalEnv_cases env "DRY_RUN" "false") as [[Hp ->] | (v & Hv & Hne & Hp & ->)].
    + split; [discriminate|]. intros (v & Hv & Hl).
      unfold provided in Hp. rewrite Hv in Hp.
      destruct v; [discriminate Hl|discriminate Hp].
    + rewrite Hv. split.
      * intros Heq. apply String.eqb_eq in Heq. eauto.
      * intros (v' & [= <-] & ->). reflexivity.
  - unfold Configuration.asSyncMode.
    destruct (getOptionalEnv_cases env "SYNC_MODE" "incremental")
      as [[Hp ->] | (v & Hv & Hne & Hp & ->)].
    + simpl. split; auto.
    + destruct (String.eqb_spec v "incremental") as [->|Hd].
      * split; auto.
      * split; [discriminate|]. intros [Hc|Hc]; [congruence|].
        rewrite Hv in Hc. congruence.
  - intros Hp. now rewrite getOptionalEnv_default.
  - intros v Hv Hne. now rewrite (getOptionalEnv_value _ _ _ v).
Qed.

(** ** The Mirror Stage, its command and its counters *)

Section MirrorCounters.
Variable JSON_parse : string -> option Sync.JSValue.

(** The stage, case by case. *)
Lemma syncOciToGcs_eq config w :
  Sync.syncOciToGcs JSON_parse config w =
  match exec w (Main.command config) with
  | Throw e => (Throw e, tick w)
  | Ok proc =>
      if exitCode proc =? 0 then
        if dryRun (job config) then
          (Ok {| Sync.files_transferred := Sync.ofZ 0;
                 Sync.bytes_transferred := Sync.ofZ 0;
                 Sync.duration_seconds :=
                   roundSeconds (clock w (S (ticks w)) - clock w (ticks w)) |},
           tick (tick w))
        else
          let stats :=
            Sync.parseRcloneOutput JSON_parse
              (stdout proc +:+ newline +:+ stderr proc) in
          match stats with
          | Sync.Undefined | Sync.Null => (Throw "TypeError", tick w)
          | _ =>
              (Ok {| Sync.files_transferred := counter stats "transfers";
                     Sync.bytes_transferred := counter stats "bytes";
                     Sync.duration_seconds :=
                       roundSeconds (clock w (S (ticks w)) - clock w (ticks w)) |},
               tick (tick w))
          end
      else
        (Throw (failedCommand config (exitCode proc)),
         if dryRun (job config)
         then addError "SYNC" ("rclone lsf failed: " +:+ stderr proc) (tick w)
         else addError "SYNC" (stderr proc)
                (addError "SYNC" (failedCommand config (exitCode proc)) (tick w)))
  end.
Proof.
  unfold Sync.syncOciToGcs, Main.command, failedCommand, counter.
  unfold bind at 1. unfold Date_now at 1.
  destruct (dryRun (job config)).
  - unfold bind at 1. unfold Sync.spawn at 1. cbn [exec tick].
    fold (listCommand config).
    destruct (exec w (listCommand config)) as [proc|msg]; [|reflexivity].
    destruct (exitCode proc =? 0); reflexivity.
  - unfold bind at 1. unfold Sync.spawn at 1. cbn [exec tick].
    fold (syncCommand config).
    destruct (exec w (syncCommand config)) as [proc|msg]; [|reflexivity].
    destruct (exitCode proc =? 0); [|reflexivity].
    cbn [negb]. fold newline.
    destruct (Sync.parseRcloneOutput _ _) as [| |b|n|s|l|ps]; reflexivity.
Qed.

(** X13.  The stage runs one command and no other: the listing in a
    dry run, the transfer in a live run.  Its outcome and the lines it
    logs are those that this command gives, whatever the tool would do
    for any other command; a dry run never starts a transfer. *)
Theorem mirror_runs_one_command config e w :
  e (Main.command config) = exec w (Main.command config) ->
  fst (Sync.syncOciToGcs JSON_parse config (withExec e w)) =
  fst (Sync.syncOciToGcs JSON_parse config w) /\
  errlog (snd (Sync.syncOciToGcs JSON_parse config (withExec e w))) =
  errlog (snd (Sync.syncOciToGcs JSON_parse config w)).
Proof.
  intros He. rewrite !syncOciToGcs_eq. cbn [exec withExec]. rewrite He.
  destruct (exec w (Main.command config)) as [proc|msg]; [|split; reflexivity].
  destruct (exitCode proc =? 0); destruct (dryRun (job config));
    try (split; reflexivity).
  cbv zeta. destruct (Sync.parseRcloneOutput _ _); split; reflexivity.
Qed.

(** X14.  A dry run of the stage reads nothing from what the tool
    prints: when the listing exits with zero the two counters are
    zero, and when it exits with another code the stage logs the
    diagnostic output and throws, naming the code. *)
Theorem dry_run_mirror_counts_nothing config w proc :
  dryRun (job config) = true ->
  exec w (listCommand config) = Ok proc ->
  (exitCode proc = 0 ->
   exists r w',
     Sync.syncOciToGcs JSON_parse config w = (Ok r, w') /\
     Sync.files_transferred r = Sync.ofZ 0 /\
     Sync.bytes_transferred r = Sync.ofZ 0 /\
     errlog w' = errlog w) /\
  (exitCode proc <> 0 ->
   exists w',
     Sync.syncOciToGcs JSON_parse config w =
       (Throw ("rclone lsf failed with exit code " +:+ Sync.showZ (exitCode proc)), w') /\
     errlog w' = errlog w ++ [("SYNC", "rclone lsf failed: " +:+ stderr proc)]).
Proof.
  intros Hdry Hexec. rewrite syncOciToGcs_eq. unfold Main.command, failedCommand.
  rewrite Hdry, Hexec. split; intros Hcode.
  - rewrite Hcode. simpl. eauto 10.
  - apply Z.eqb_neq in Hcode. rewrite Hcode. eauto.
Qed.

End MirrorCounters.

(** ** The counters read from the text *)














(** ** The byte quantity, in general *)















(** ** The job as a whole *)

(** A dry run of the Partition Stage leaves the store as it is and
    sends no request that changes it. *)
Lemma dry_run_frame tza config w out w' :
  dryRun (job config) = true ->
  reorganizeToHive tza config w = (out, w') ->
  store w' = store w /\
  exists rs, requests w' = requests w ++ rs /\
             forallb (fun r => negb (mutating r)) rs = true.
Proof.
  intros Hdry. unfold reorganizeToHive, checkBucketExists.
  rewrite Hdry. unfold bind at 1. unfold Date_now at 1.
  unfold bind at 1. rewrite bucket_exists_eq. simpl.
  destruct (faults w (length (requests w))) as [e|].
  { intros [= <- <-]. simpl. split; [reflexivity|].
    eexists. split; reflexivity. }
  unfold bind at 1. rewrite bucket_exists_eq. simpl.
  destruct (faults w (length (requests w ++ _))) as [e|].
  { intros [= <- <-]. simpl. split; [reflexivity|].
    eexists. rewrite <- app_assoc. split; reflexivity. }
  destruct (negb _).
  - unfold bind, Date_now, ret. simpl.
    intros [= <- <-]. simpl. split; [reflexivity|].
    eexists. rewrite <- !app_assoc. split; reflexivity.
  - rewrite reorganizeListed_eq. simpl.
    destruct (faults w (length ((requests w ++ _) ++ _))) as [e|].
    { intros [= <- <-]. simpl. split; [reflexivity|].
      eexists. rewrite <- !app_assoc. split; reflexivity. }
    destruct (listing _ _ _) as [files|].
    2:{ intros [= <- <-]. simpl. split; [reflexivity|].
        eexists. rewrite <- !app_assoc. split; reflexivity. }
    intros [= <- <-]. unfold runListed. rewrite Hdry. simpl.
    match goal with |- context [chosen tza config ?fs emptySelection ?wl] =>
      pose proof (chosen_frame tza config fs emptySelection wl) as Hfr
    end.
    simpl in Hfr. destruct Hfr as (-> & -> & _).
    simpl. split; [reflexivity|].
    eexists. rewrite <- !app_assoc. split; reflexivity.
Qed.

Section WholeJob.
Variable tza : Z.
Variable JSON_parse : string -> option Sync.JSValue.
Variable env : gmap string string.
Variable rclone : list string -> gmap string Bucket -> gmap string Bucket.

Local Abbreviation main := (Main.main tza JSON_parse env rclone).
Local Abbreviation mirror := (Main.mirror JSON_parse rclone).

(** The Mirror Stage sends no request and leaves the buckets to its
    command. *)
Lemma mirror_frame config w out w' :
  mirror config w = (out, w') ->
  store w' = rclone (Main.command config) (store w) /\
  requests w' = requests w /\ faults w' = faults w /\ clock w' = clock w /\
  exec w' = exec w.
Proof.
  unfold Main.mirror. rewrite syncOciToGcs_eq.
  destruct (exec w (Main.command config)) as [proc|msg].
  2:{ intros [= <- <-]. simpl. auto. }
  destruct (exitCode proc =? 0).
  - destruct (dryRun (job config)).
    + intros [= <- <-]. simpl. auto.
    + cbv zeta. destruct (Sync.parseRcloneOutput _ _); intros [= <- <-]; simpl; auto.
  - destruct (dryRun (job config)); intros [= <- <-]; simpl; auto.
Qed.

(** The ways in which the job ends. *)
Lemma main_cases w :
  (exists e,
     Configuration.loadConfig env (tick w) = (Throw e, tick w) /\
     main w = ({| Main.status := 1; Main.printed := None |},
               addError "MAIN" ("Configuration error: " +:+ e) (tick w))) \/
  (exists config,
     Configuration.loadConfig env (tick w) = (Ok config, tick w) /\
     ((exists e w1,
         mirror config (tick w) = (Throw e, w1) /\
         main w = ({| Main.status := 1; Main.printed := None |},
                   addError "MAIN" ("Sync step failed: " +:+ e) w1)) \/
      (exists s w1,
         mirror config (tick w) = (Ok s, w1) /\
         ((exists e w2,
             reorganizeToHive tza config w1 = (Throw e, w2) /\
             main w = ({| Main.status := 1; Main.printed := None |},
                       addError "MAIN" ("Reorganize step failed: " +:+ e) w2)) \/
          (exists r w2,
             reorganizeToHive tza config w1 = (Ok r, w2) /\
             let statistics :=
               {| Main.sync := s; Main.reorganize := r;
                  Main.total_duration_seconds :=
                    roundSeconds (clock w2 (ticks w2) - clock w (ticks w)) |} in
             main w =
             if (0 <? files_errored r)%nat
             then ({| Main.status := 1; Main.printed := Some statistics |},
                   addError "MAIN"
                     ("Job completed with " +:+ Sync.showZ (Z.of_nat (files_errored r))
                        +:+ " errors") (tick w2))
             else ({| Main.status := 0; Main.printed := Some statistics |},
                   tick w2)))))).
Proof.
  unfold Main.main, Main.orExit.
  destruct (Configuration.loadConfig env (tick w)) as [[config|e] w0] eqn:Hc.
  - pose proof (loadConfig_Ok _ _ _ _ Hc) as [-> _].
    right. exists config. split; [reflexivity|].
    destruct (mirror config (tick w)) as [[s|e] w1] eqn:Hm.
    + right. exists s, w1. split; [reflexivity|].
      destruct (reorganizeToHive tza config w1) as [[r|e] w2] eqn:Hr.
      * right. exists r, w2. split; [reflexivity|]. reflexivity.
      * left. exists e, w2. auto.
    + left. exists e, w1. auto.
  - pose proof (loadConfig_Throw _ _ _ _ Hc) as [-> _].
    left. exists e. auto.
Qed.

(** X17.  The job exits with the status 0 exactly when the
    configuration loads, both stages return and the Partition Stage
    counted no error, and with 1 otherwise.  It prints its statistics
    exactly when both stages returned, also when it then exits with 1
    for the errors counted, and they hold the results of the two
    stages. *)
Theorem exit_status_of_the_job w :
  (Main.status (fst (main w)) = 0 \/ Main.status (fst (main w)) = 1) /\
  (Main.status (fst (main w)) = 0 <->
   exists config s w1 r w2,
     Configuration.loadConfig env (tick w) = (Ok config, tick w) /\
     mirror config (tick w) = (Ok s, w1) /\
     reorganizeToHive tza config w1 = (Ok r, w2) /\
     files_errored r = 0%nat) /\
  (forall statistics,
     Main.printed (fst (main w)) = Some statistics <->
     exists config w1 w2,
       Configuration.loadConfig env (tick w) = (Ok config, tick w) /\
       mirror config (tick w) = (Ok (Main.sync statistics), w1) /\
       reorganizeToHive tza config w1 = (Ok (Main.reorganize statistics), w2) /\
       Main.total_duration_seconds statistics =
         roundSeconds (clock w2 (ticks w2) - clock w (ticks w))).
Proof.
  destruct (main_cases w) as
    [(e & Hc & ->) |
     (config & Hc & [(e & w1 & Hm & ->) |
                     (s & w1 & Hm & [(e & w2 & Hr & ->) | (r & w2 & Hr & Hmain)])])].
  - simpl. split; [auto|]. split.
    + split; [discriminate|]. intros (c & s & w1 & r & w2 & Hc' & _). congruence.
    + intros st. split; [discriminate|]. intros (c & w1 & w2 & Hc' & _). congruence.
  - simpl. split; [auto|]. split.
    + split; [discriminate|]. intros (c & s & w1' & r & w2 & Hc' & Hm' & _).
      rewrite Hc in Hc'. injection Hc' as <-. congruence.
    + intros st. split; [discriminate|]. intros (c & w1' & w2 & Hc' & Hm' & _).
      rewrite Hc in Hc'. injection Hc' as <-. congruence.
  - simpl. split; [auto|]. split.
    + split; [discriminate|]. intros (c & s' & w1' & r & w2' & Hc' & Hm' & Hr' & _).
      rewrite Hc in Hc'. injection Hc' as <-.
      rewrite Hm in Hm'. injection Hm' as <- <-. congruence.
    + intros st. split; [discriminate|]. intros (c & w1' & w2' & Hc' & Hm' & Hr' & _).
      rewrite Hc in Hc'. injection Hc' as <-.
      rewrite Hm in Hm'. injection Hm' as _ <-. congruence.
  - cbv zeta in Hmain. rewrite Hmain. clear Hmain.
    destruct (Nat.ltb_spec 0 (files_errored r)) as [Hpos|Hzero]; simpl.
    + split; [auto|]. split.
      * split; [discriminate|].
        intros (c & s' & w1' & r' & w2' & Hc' & Hm' & Hr' & He).
        rewrite Hc in Hc'. injection Hc' as <-.
        rewrite Hm in Hm'. injection Hm' as <- <-.
        rewrite Hr in Hr'. injection Hr' as <- <-. lia.
      * intros st. split.
        -- intros [= <-]. simpl. exists config, w1, w2. auto.
        -- intros (c & w1' & w2' & Hc' & Hm' & Hr' & Ht).
           rewrite Hc in Hc'. injection Hc' as <-.
           rewrite Hm in Hm'. injection Hm' as Hs <-.
           rewrite Hr in Hr'. injection Hr' as Hr' <-.
           destruct st as [s0 r0 t0]. simpl in *. congruence.
    + split; [auto|]. split.
      * split; [|reflexivity]. intros _. exists config, s, w1, r, w2.
        repeat split; try assumption. lia.
      * intros st. split.
        -- intros [= <-]. simpl. exists config, w1, w2. auto.
        -- intros (c & w1' & w2' & Hc' & Hm' & Hr' & Ht).
           rewrite Hc in Hc'. injection Hc' as <-.
           rewrite Hm in Hm'. injection Hm' as Hs <-.
           rewrite Hr in Hr'. injection Hr' as Hr' <-.
           destruct st as [s0 r0 t0]. simpl in *. congruence.
Qed.

(** X18.  When a required variable is unset or empty the job does
    nothing but log it: it exits with 1 after one line at error level
    that names the first such variable, having run no command and sent
    no request. *)
Theorem missing_variable_stops_the_job w before name after :
  required = before ++ name :: after ->
  Forall (fun n => provided env n = true) before ->
  provided env name = false ->
  main w =
  ({| Main.status := 1; Main.printed := None |},
   addError "MAIN"
     ("Configuration error: Missing required environment variable: " +:+ name)
     (tick w)).
Proof.
  intros Hreq Hb Hn. unfold Main.main, Main.orExit.
  now rewrite (loadConfig_first_missing env (tick w) before name after Hreq Hb Hn).
Qed.

(** X19.  When the command of the Mirror Stage exits with a code
    other than zero, the job stops there: it exits with 1 and prints
    no statistics, the Partition Stage is not started, so that no
    request is sent to the object store, and the last line logged
    names the failure of the step. *)
Theorem failed_transfer_stops_the_job w config proc :
  Configuration.loadConfig env (tick w) = (Ok config, tick w) ->
  exec w (Main.command config) = Ok proc ->
  exitCode proc <> 0 ->
  Main.status (fst (main w)) = 1 /\
  Main.printed (fst (main w)) = None /\
  requests (snd (main w)) = requests w /\
  store (snd (main w)) = rclone (Main.command config) (store w) /\
  exists lines,
    errlog (snd (main w)) =
    errlog w ++ lines ++
    [("MAIN", "Sync step failed: " +:+ failedCommand config (exitCode proc))].
Proof.
  intros Hc Hexec Hcode. unfold Main.main, Main.orExit. rewrite Hc.
  unfold Main.mirror. rewrite syncOciToGcs_eq. cbn [exec tick].
  rewrite Hexec. apply Z.eqb_neq in Hcode. rewrite Hcode.
  destruct (dryRun (job config)); simpl.
  - repeat split. eexists [_]. now rewrite <- app_assoc.
  - repeat split. eexists [_; _]. now rewrite <- !app_assoc.
Qed.

(** X20.  A number of days that [parseInt] cannot read is not
    reported: in incremental mode the job then retains no object,
    copies nothing and, when both stages return, prints statistics
    with zero objects processed and exits with 0. *)
Theorem unreadable_days_make_the_job_do_nothing w value statistics :
  provided env "SYNC_MODE" = false \/ env !! "SYNC_MODE" = Some "incremental" ->
  env !! "DAYS_TO_SYNC" = Some value ->
  value <> EmptyString ->
  JSNumber.parseInt value (Some 10) = None ->
  Main.printed (fst (main w)) = Some statistics ->
  Main.status (fst (main w)) = 0 /\
  files_processed (Main.reorganize statistics) = 0%nat /\
  files_copied (Main.reorganize statistics) = 0%nat /\
  files_skipped (Main.reorganize statistics) = 0%nat /\
  files_errored (Main.reorganize statistics) = 0%nat.
Proof.
  intros Hmode Hvalue Hne Hnan.
  destruct (main_cases w) as
    [(e & Hc & ->) |
     (config & Hc & [(e & w1 & Hm & ->) |
                     (s & w1 & Hm & [(e & w2 & Hr & ->) | (r & w2 & Hr & Hmain)])])];
    try discriminate.
  pose proof (loadConfig_job _ _ _ _ Hc) as Hjob.
  assert (Hsync : syncMode (job config) = incremental).
  { rewrite Hjob. simpl. destruct Hmode as [Hp | Hv].
    - now rewrite getOptionalEnv_default.
    - now rewrite (getOptionalEnv_value _ _ _ "incremental" Hv). }
  assert (Hnone : daysToSync (job config) = None).
  { rewrite Hjob. simpl. now rewrite (getOptionalEnv_value _ _ _ value Hvalue Hne). }
  cbv zeta in Hmain. rewrite Hmain.
  destruct (reorganizeToHive_results tza config w1 r w2 Hr)
    as [(P & C & S & E) | (startTime & files & w0 & ->)].
  - rewrite E. simpl. intros [= <-]. simpl. auto.
  - destruct (runListed_no_cutoff tza config startTime files w0 Hsync Hnone)
      as (P & C & S & E).
    rewrite E. simpl. intros [= <-]. simpl. auto.
Qed.

(** X21.  With DRY_RUN set to [true], in any mix of cases, the job
    changes nothing in the object store by itself: it sends no request
    that creates a bucket or copies an object, and the buckets hold
    what the listing command of the transfer tool left there. *)
Theorem dry_run_job_changes_nothing w value config :
  env !! "DRY_RUN" = Some value ->
  toLowerCase value = "true" ->
  Configuration.loadConfig env (tick w) = (Ok config, tick w) ->
  store (snd (main w)) = rclone (listCommand config) (store w) /\
  exists rs, requests (snd (main w)) = requests w ++ rs /\
             forallb (fun r => negb (mutating r)) rs = true.
Proof.
  intros Hvalue Hlower Hc.
  assert (Hdry : dryRun (job config) = true).
  { rewrite (loadConfig_job _ _ _ _ Hc). simpl.
    rewrite (getOptionalEnv_value _ _ _ value Hvalue).
    - now rewrite Hlower.
    - intros ->. discriminate Hlower. }
  assert (Hcmd : Main.command config = listCommand config).
  { unfold Main.command. now rewrite Hdry. }
  unfold Main.main, Main.orExit. rewrite Hc.
  destruct (mirror config (tick w)) as [[s|e] w1] eqn:Hm;
    apply mirror_frame in Hm; destruct Hm as (Hs & Hq & _);
    rewrite Hcmd in Hs; simpl in Hs, Hq.
  2:{ simpl. split; [exact Hs|]. exists []. rewrite app_nil_r. auto. }
  destruct (reorganizeToHive tza config w1) as [[r|e] w2] eqn:Hr;
    apply (dry_run_frame _ _ _ _ _ Hdry) in Hr; destruct Hr as (Hs2 & rs & Hq2 & Hrs).
  - destruct (0 <? files_errored r)%nat; simpl;
      (split; [congruence|]); exists rs; (split; [congruence|exact Hrs]).
  - simpl. split; [congruence|]. exists rs. split; [congruence|exact Hrs].
Qed.

(** X22.  The status 0 of a live job means that the objects were
    delivered: every object that the transfer left in the staging
    bucket and that the run retains is at its destination afterwards,
    with the content that was there before or else a copy of the
    staged content. *)
Theorem exit_status_zero_means_delivered w config c name parsed content :
  Main.status (fst (main w)) = 0 ->
  Configuration.loadConfig env (tick w) = (Ok config, tick w) ->
  dryRun (job config) = false ->
  steadyWindow tza config w c ->
  eligible tza (syncMode (job config)) c name = Some parsed ->
  let staged := rclone (syncCommand config) (store w) in
  objectContent staged (stagingBucket (gcs config)) name = Some content ->
  objectContent (store (snd (main w))) (hiveBucket (gcs config)) (buildHivePath parsed) =
    Some (default content
            (objectContent staged (hiveBucket (gcs config)) (buildHivePath parsed))).
Proof.
  intros Hstatus Hc Hlive Hwin Hel staged Hcontent.
  assert (Hcmd : Main.command config = syncCommand config).
  { unfold Main.command. now rewrite Hlive. }
  destruct (main_cases w) as
    [(e & Hc' & Hmain) |
     (config' & Hc' & [(e & w1 & Hm & Hmain) |
                     (s & w1 & Hm & [(e & w2 & Hr & Hmain) | (r & w2 & Hr & Hmain)])])];
    try (rewrite Hmain in Hstatus; discriminate Hstatus).
  rewrite Hc in Hc'. injection Hc' as <-.
  cbv zeta in Hmain. rewrite Hmain in Hstatus |- *.
  destruct (Nat.ltb_spec 0 (files_errored r)) as [Hpos|Hzero]; [discriminate Hstatus|].
  simpl. apply mirror_frame in Hm. destruct Hm as (Hs & _ & _ & Hck & _).
  rewrite Hcmd in Hs. simpl in Hs, Hck. fold staged in Hs.
  apply reorganizeToHive_live_objects in Hr; [|assumption].
  destruct Hr as (w0 & files & Hobj & Hck0 & _ & _ & _ & _ & Hlist & -> & ->).
  rewrite <- Hs, <- (Hobj (hiveBucket (gcs config))).
  apply (runListed_content tza config c _ files w0 name parsed content);
    try assumption.
  - eapply steadyWindow_clock; [|exact Hwin]. congruence.
  - lia.
  - rewrite Hobj, Hs. exact Hcontent.
Qed.

End WholeJob.

(** ** The further theorems at concrete inputs *)

Lemma partition_keeps_every_object_witness :
  let config := exampleConfig full false in
  let w := seededWorld (faultAt 8 "boom") in
  let run := reorganizeToHive 0 config w in
  let partition := "year=2024/month=06/day=10/report.csv.gz" in
  run = (fst run, snd run) /\
  objectContent (store w) "hive" partition = Some "older" /\
  objectContent (store (snd run)) "hive" partition = Some "older".
Proof.
  intros config w run partition.
  assert (H : run = (fst run, snd run)) by apply surjective_pairing.
  assert (C : objectContent (store w) "hive" partition = Some "older")
    by (vm_compute; reflexivity).
  split; [exact H|]. split; [exact C|].
  exact (partition_keeps_every_object 0 config w (fst run) (snd run)
           "hive" partition "older" H C).
Defined.

Lemma partition_throws_before_any_copy_witness :
  let config := exampleConfig full false in
  let w := seededWorld (faultAt 0 "unreachable") in
  let run := reorganizeToHive 0 config w in
  run = (Throw "unreachable", snd run) /\
  sameObjects (store w) (store (snd run)) /\
  exists rs, requests (snd run) = requests w ++ rs /\
             Forall (fun r => aboutObject r = false) rs.
Proof.
  intros config w run.
  assert (H : run = (Throw "unreachable", snd run)) by (vm_compute; reflexivity).
  split; [exact H|].
  exact (partition_throws_before_any_copy 0 config w "unreachable" (snd run) H).
Defined.

Lemma recognised_keys_witness :
  let path := "FOCUS-Reports/2024/06/15/report.csv.gz" in
  digitString 4 "2024" /\ digitString 2 "06" /\ digitString 2 "15" /\
  "report" <> EmptyString /\ oneLine "report" = true /\
  exists parsed,
    parseFilePath 0 path = Some parsed /\
    year parsed = "2024" /\ month parsed = "06" /\ day parsed = "15" /\
    filename parsed = "report.csv.gz".
Proof.
  intros path.
  assert (Hy : digitString 4 "2024") by (split; reflexivity).
  assert (Hm : digitString 2 "06") by (split; reflexivity).
  assert (Hd : digitString 2 "15") by (split; reflexivity).
  assert (Hn : "report" <> EmptyString) by discriminate.
  assert (Hl : oneLine "report" = true) by reflexivity.
  split; [exact Hy|]. split; [exact Hm|]. split; [exact Hd|].
  split; [exact Hn|]. split; [exact Hl|].
  exact (proj2 (recognised_keys 0 path) "2024" "06" "15" "report" eq_refl
           Hy Hm Hd Hn Hl).
Defined.

Lemma destinations_do_not_collide_witness :
  let path1 := "FOCUS-Reports/2024/06/14/report.csv.gz" in
  let path2 := "FOCUS-Reports/2024/06/15/report.csv.gz" in
  let parsed1 := reportOf "14" 1718323200000 in
  let parsed2 := reportOf "15" 1718409600000 in
  parseFilePath 0 path1 = Some parsed1 /\
  parseFilePath 0 path2 = Some parsed2 /\
  (buildHivePath parsed1 = buildHivePath parsed2 -> path1 = path2) /\
  JSString.startsWith (buildHivePath parsed1) "FOCUS-Reports/" = false /\
  parseFilePath 0 (buildHivePath parsed1) = None.
Proof.
  intros path1 path2 parsed1 parsed2.
  assert (H1 : parseFilePath 0 path1 = Some parsed1) by (vm_compute; reflexivity).
  assert (H2 : parseFilePath 0 path2 = Some parsed2) by (vm_compute; reflexivity).
  split; [exact H1|]. split; [exact H2|].
  exact (destinations_do_not_collide 0 path1 path2 parsed1 parsed2 H1 H2).
Defined.

Lemma clean_run_delivers_the_content_witness :
  let config := exampleConfig incremental false in
  let w := seededWorld noFault in
  let run := reorganizeToHive 0 config w in
  let r := {| files_processed := 8; files_copied := 7; files_skipped := 1;
              files_errored := 0; duration_seconds := 0 |} in
  let window := Some 1717804800000 in
  let name10 := "FOCUS-Reports/2024/06/10/report.csv.gz" in
  let name15 := "FOCUS-Reports/2024/06/15/report.csv.gz" in
  let parsed10 := reportOf "10" 1717977600000 in
  let parsed15 := reportOf "15" 1718409600000 in
  dryRun (job config) = false /\
  run = (Ok r, snd run) /\
  files_errored r = 0%nat /\
  steadyWindow 0 config w window /\
  eligible 0 incremental window name10 = Some parsed10 /\
  eligible 0 incremental window name15 = Some parsed15 /\
  objectContent (store w) "staging" name10 = Some "data 10" /\
  objectContent (store w) "staging" name15 = Some "data 15" /\
  objectContent (store (snd run)) "hive" (buildHivePath parsed10) = Some "older" /\
  objectContent (store (snd run)) "hive" (buildHivePath parsed15) = Some "data 15".
Proof.
  intros config w run r window name10 name15 parsed10 parsed15.
  assert (L : dryRun (job config) = false) by reflexivity.
  assert (H : run = (Ok r, snd run)) by (vm_compute; reflexivity).
  assert (E : files_errored r = 0%nat) by reflexivity.
  assert (S : steadyWindow 0 config w window)
    by (right; intros i; vm_compute; reflexivity).
  assert (E10 : eligible 0 (syncMode (job config)) window name10 = Some parsed10)
    by (vm_compute; reflexivity).
  assert (E15 : eligible 0 (syncMode (job config)) window name15 = Some parsed15)
    by (vm_compute; reflexivity).
  assert (C10 : objectContent (store w) (stagingBucket (gcs config)) name10
                = Some "data 10") by (vm_compute; reflexivity).
  assert (C15 : objectContent (store w) (stagingBucket (gcs config)) name15
                = Some "data 15") by (vm_compute; reflexivity).
  split; [exact L|]. split; [exact H|]. split; [exact E|]. split; [exact S|].
  split; [exact E10|]. split; [exact E15|]. split; [exact C10|]. split; [exact C15|].
  split.
  - exact (clean_run_delivers_the_content 0 config window w r (snd run)
             name10 parsed10 "data 10" L H E S E10 C10).
  - exact (clean_run_delivers_the_content 0 config window w r (snd run)
             name15 parsed15 "data 15" L H E S E15 C15).
Defined.

Lemma live_run_without_failures_is_clean_witness :
  let config := exampleConfig full false in
  let w := seededWorld noFault in
  dryRun (job config) = false /\
  (forall n, faults w n = None) /\
  exists r w',
    reorganizeToHive 0 config w = (Ok r, w') /\
    files_errored r = 0%nat /\
    (files_copied r + files_skipped r)%nat = files_processed r /\
    errlog w' = errlog w.
Proof.
  intros config w.
  assert (L : dryRun (job config) = false) by reflexivity.
  assert (F : forall n, faults w n = None) by reflexivity.
  split; [exact L|]. split; [exact F|].
  exact (live_run_without_failures_is_clean 0 config w L F).
Defined.

Lemma window_without_days_retains_nothing_witness :
  let config := loadedConfig incremental None false in
  let w := seededWorld noFault in
  let run := reorganizeToHive 0 config w in
  let r := {| files_processed := 0; files_copied := 0; files_skipped := 0;
              files_errored := 0; duration_seconds := 0 |} in
  syncMode (job config) = incremental /\
  daysToSync (job config) = None /\
  run = (Ok r, snd run) /\
  files_processed r = 0%nat /\ files_copied r = 0%nat /\
  files_skipped r = 0%nat /\ files_errored r = 0%nat.
Proof.
  intros config w run r.
  assert (M : syncMode (job config) = incremental) by reflexivity.
  assert (D : daysToSync (job config) = None) by reflexivity.
  assert (H : run = (Ok r, snd run)) by (vm_compute; reflexivity).
  split; [exact M|]. split; [exact D|]. split; [exact H|].
  exact (window_without_days_retains_nothing 0 config w r (snd run) M D H).
Defined.

Lemma key_date_is_the_day_it_names_witness :
  let tza := 7200000 in
  let path := "FOCUS-Reports/2024/02/29/report.csv.gz" in
  let parsed := {| year := "2024"; month := "02"; day := "29";
                   filename := "report.csv.gz"; fullPath := path;
                   date := Some 1709157600000 |} in
  Z.abs tza <= JSDate.msPerDay /\
  parseFilePath tza path = Some parsed /\
  JSNumber.parseInt (year parsed) None = Some 2024 /\
  JSNumber.parseInt (month parsed) None = Some 2 /\
  JSNumber.parseInt (day parsed) None = Some 29 /\
  1 <= 2 <= 12 /\
  1 <= 29 <= daysInMonth (JSDate.isLeapYear (fullYear 2024)) 2 /\
  exists t,
    date parsed = Some t /\
    JSDate.YearFromTime (JSDate.LocalTime tza t) = fullYear 2024 /\
    JSDate.MonthFromTime (JSDate.LocalTime tza t) = 2 - 1 /\
    JSDate.DateFromTime (JSDate.LocalTime tza t) = 29 /\
    JSDate.TimeWithinDay (JSDate.LocalTime tza t) = 0.
Proof.
  intros tza path parsed.
  assert (Z0 : Z.abs tza <= JSDate.msPerDay) by (vm_compute; discriminate).
  assert (P : parseFilePath tza path = Some parsed) by (vm_compute; reflexivity).
  assert (Y : JSNumber.parseInt (year parsed) None = Some 2024) by (vm_compute; reflexivity).
  assert (M : JSNumber.parseInt (month parsed) None = Some 2) by (vm_compute; reflexivity).
  assert (D : JSNumber.parseInt (day parsed) None = Some 29) by (vm_compute; reflexivity).
  assert (Rm : 1 <= 2 <= 12) by lia.
  assert (Rd : 1 <= 29 <= daysInMonth (JSDate.isLeapYear (fullYear 2024)) 2)
    by (split; vm_compute; discriminate).
  split; [exact Z0|]. split; [exact P|]. split; [exact Y|]. split; [exact M|].
  split; [exact D|]. split; [exact Rm|]. split; [exact Rd|].
  exact (key_date_is_the_day_it_names tza path parsed 2024 2 29 Z0 P Y M D Rm Rd).
Defined.

Lemma loadConfig_required_variables_witness :
  let env := exampleEnv [] in
  let partial : gmap string string :=
    list_to_map [("OCI_TENANCY_OCID", "tenancy"); ("GCS_STAGING_BUCKET", "staging");
                 ("GCS_PROJECT_ID", "project")] in
  let w := toolWorld (Throw "ENOENT") in
  Forall (fun n => provided env n = true) required /\
  required = ["OCI_TENANCY_OCID"; "GCS_STAGING_BUCKET"] ++
             "GCS_HIVE_BUCKET" :: ["GCS_PROJECT_ID"] /\
  Forall (fun n => provided partial n = true)
    ["OCI_TENANCY_OCID"; "GCS_STAGING_BUCKET"] /\
  provided partial "GCS_HIVE_BUCKET" = false /\
  (exists config,
     Configuration.loadConfig env w = (Ok config, w) /\
     env !! "OCI_TENANCY_OCID" = Some (tenancyOcid (oci config)) /\
     env !! "GCS_STAGING_BUCKET" = Some (stagingBucket (gcs config)) /\
     env !! "GCS_HIVE_BUCKET" = Some (hiveBucket (gcs config)) /\
     env !! "GCS_PROJECT_ID" = Some (projectId (gcs config))) /\
  Configuration.loadConfig partial w =
  (Throw "Missing required environment variable: GCS_HIVE_BUCKET", w).
Proof.
  intros env partial w.
  assert (A : Forall (fun n => provided env n = true) required)
    by (repeat constructor).
  assert (R : required = ["OCI_TENANCY_OCID"; "GCS_STAGING_BUCKET"] ++
                         "GCS_HIVE_BUCKET" :: ["GCS_PROJECT_ID"]) by reflexivity.
  assert (B : Forall (fun n => provided partial n = true)
                ["OCI_TENANCY_OCID"; "GCS_STAGING_BUCKET"])
    by (repeat constructor).
  assert (M : provided partial "GCS_HIVE_BUCKET" = false) by reflexivity.
  split; [exact A|]. split; [exact R|]. split; [exact B|]. split; [exact M|].
  split.
  - exact (proj1 (loadConfig_required_variables env w) A).
  - exact (proj2 (proj2 (loadConfig_required_variables partial w)) _ _ _ R B M).
Defined.

Lemma job_settings_are_not_validated_witness :
  let env := exampleEnv [("DRY_RUN", "True"); ("SYNC_MODE", "Incremental");
                         ("DAYS_TO_SYNC", "30 days")] in
  let w := toolWorld (Throw "ENOENT") in
  let config := loadedConfig full (Some 30) true in
  Configuration.loadConfig env w = (Ok config, w) /\
  (dryRun (job config) = true <->
   exists value, env !! "DRY_RUN" = Some value /\ toLowerCase value = "true") /\
  (syncMode (job config) = incremental <->
   provided env "SYNC_MODE" = false \/ env !! "SYNC_MODE" = Some "incremental") /\
  (provided env "DAYS_TO_SYNC" = false -> daysToSync (job config) = Some 7) /\
  (forall value, env !! "DAYS_TO_SYNC" = Some value -> value <> EmptyString ->
     daysToSync (job config) = JSNumber.parseInt value (Some 10)).
Proof.
  intros env w config.
  assert (H : Configuration.loadConfig env w = (Ok config, w))
    by (vm_compute; reflexivity).
  split; [exact H|].
  exact (job_settings_are_not_validated env w config w H).
Defined.

Lemma mirror_runs_one_command_witness :
  let config := exampleConfig incremental true in
  let listed := toolThat "a.csv.gz" EmptyString 0 in
  let w := toolWorld listed in
  let e := listingOnly listed in
  e (Main.command config) = exec w (Main.command config) /\
  fst (Sync.syncOciToGcs parseKeysLine config (withExec e w)) =
  fst (Sync.syncOciToGcs parseKeysLine config w) /\
  errlog (snd (Sync.syncOciToGcs parseKeysLine config (withExec e w))) =
  errlog (snd (Sync.syncOciToGcs parseKeysLine config w)).
Proof.
  intros config listed w e.
  assert (H : e (Main.command config) = exec w (Main.command config)) by reflexivity.
  split; [exact H|].
  exact (mirror_runs_one_command parseKeysLine config e w H).
Defined.

Lemma dry_run_mirror_counts_nothing_witness :
  let config := exampleConfig incremental true in
  let listed := {| stdout := threeFiles; stderr := EmptyString; exitCode := 0 |} in
  let refused := {| stdout := EmptyString; stderr := "denied"; exitCode := 1 |} in
  dryRun (job config) = true /\
  exec (toolWorld (Ok listed)) (listCommand config) = Ok listed /\
  exec (toolWorld (Ok refused)) (listCommand config) = Ok refused /\
  exitCode listed = 0 /\ exitCode refused <> 0 /\
  (exists r w',
     Sync.syncOciToGcs parseKeysLine config (toolWorld (Ok listed)) = (Ok r, w') /\
     Sync.files_transferred r = Sync.ofZ 0 /\
     Sync.bytes_transferred r = Sync.ofZ 0 /\
     errlog w' = errlog (toolWorld (Ok listed))) /\
  (exists w',
     Sync.syncOciToGcs parseKeysLine config (toolWorld (Ok refused)) =
       (Throw ("rclone lsf failed with exit code " +:+ Sync.showZ (exitCode refused)), w') /\
     errlog w' = errlog (toolWorld (Ok refused)) ++
                 [("SYNC", "rclone lsf failed: " +:+ stderr refused)]).
Proof.
  intros config listed refused.
  assert (D : dryRun (job config) = true) by reflexivity.
  assert (E1 : exec (toolWorld (Ok listed)) (listCommand config) = Ok listed)
    by reflexivity.
  assert (E2 : exec (toolWorld (Ok refused)) (listCommand config) = Ok refused)
    by reflexivity.
  assert (C1 : exitCode listed = 0) by reflexivity.
  assert (C2 : exitCode refused <> 0) by discriminate.
  split; [exact D|]. split; [exact E1|]. split; [exact E2|].
  split; [exact C1|]. split; [exact C2|]. split.
  - exact (proj1 (dry_run_mirror_counts_nothing parseKeysLine config _ listed D E1) C1).
  - exact (proj2 (dry_run_mirror_counts_nothing parseKeysLine config _ refused D E2) C2).
Defined.



Lemma dry_run_without_staging_bucket_witness :
  let config := exampleConfig full true in
  let w := toolWorld (Throw "ENOENT") in
  dryRun (job config) = true /\
  store w !! stagingBucket (gcs config) = None /\
  faults w (length (requests w)) = None /\
  faults w (S (length (requests w))) = None /\
  exists r w',
    reorganizeToHive 0 config w = (Ok r, w') /\
    files_processed r = 0%nat /\ files_copied r = 0%nat /\
    files_skipped r = 0%nat /\ files_errored r = 0%nat /\
    store w' = store w /\ errlog w' = errlog w /\
    requests w' = requests w ++ [BucketExists (stagingBucket (gcs config));
                                 BucketExists (hiveBucket (gcs config))].
Proof.
  intros config w.
  assert (D : dryRun (job config) = true) by reflexivity.
  assert (N : store w !! stagingBucket (gcs config) = None) by reflexivity.
  assert (F0 : faults w (length (requests w)) = None) by reflexivity.
  assert (F1 : faults w (S (length (requests w))) = None) by reflexivity.
  split; [exact D|]. split; [exact N|]. split; [exact F0|]. split; [exact F1|].
  exact (dry_run_without_staging_bucket 0 config w D N F0 F1).
Defined.

Lemma live_run_creates_missing_buckets_witness :
  let config := exampleConfig full false in
  let w := toolWorld (Throw "ENOENT") in
  let run := reorganizeToHive 0 config w in
  let r := {| files_processed := 0; files_copied := 0; files_skipped := 0;
              files_errored := 0; duration_seconds := 0 |} in
  dryRun (job config) = false /\
  run = (Ok r, snd run) /\
  store w !! stagingBucket (gcs config) = None /\
  is_Some (store (snd run) !! stagingBucket (gcs config)) /\
  is_Some (store (snd run) !! hiveBucket (gcs config)) /\
  files_processed r = 0%nat /\
  store (snd run) !! stagingBucket (gcs config) =
    Some {| location := "europe-west3"; objects := [] |}.
Proof.
  intros config w run r.
  assert (L : dryRun (job config) = false) by reflexivity.
  assert (H : run = (Ok r, snd run)) by (vm_compute; reflexivity).
  assert (N : store w !! stagingBucket (gcs config) = None) by reflexivity.
  destruct (live_run_creates_missing_buckets 0 config w r (snd run) L H)
    as (S1 & S2 & C).
  destruct (C N) as (P & B).
  split; [exact L|]. split; [exact H|]. split; [exact N|]. split; [exact S1|].
  split; [exact S2|]. split; [exact P|exact B].
Defined.

Lemma missing_variable_stops_the_job_witness :
  let env : gmap string string :=
    list_to_map [("OCI_TENANCY_OCID", "tenancy"); ("GCS_STAGING_BUCKET", "staging");
                 ("GCS_HIVE_BUCKET", EmptyString); ("GCS_PROJECT_ID", "project")] in
  let w := toolWorld (toolThat threeFiles EmptyString 0) in
  required = ["OCI_TENANCY_OCID"; "GCS_STAGING_BUCKET"] ++
             "GCS_HIVE_BUCKET" :: ["GCS_PROJECT_ID"] /\
  Forall (fun n => provided env n = true) ["OCI_TENANCY_OCID"; "GCS_STAGING_BUCKET"] /\
  provided env "GCS_HIVE_BUCKET" = false /\
  Main.main 0 parseKeysLine env deliverReports w =
  ({| Main.status := 1; Main.printed := None |},
   addError "MAIN"
     ("Configuration error: Missing required environment variable: "
        +:+ "GCS_HIVE_BUCKET")
     (tick w)).
Proof.
  intros env w.
  assert (R : required = ["OCI_TENANCY_OCID"; "GCS_STAGING_BUCKET"] ++
                         "GCS_HIVE_BUCKET" :: ["GCS_PROJECT_ID"]) by reflexivity.
  assert (B : Forall (fun n => provided env n = true)
                ["OCI_TENANCY_OCID"; "GCS_STAGING_BUCKET"])
    by (repeat constructor).
  assert (M : provided env "GCS_HIVE_BUCKET" = false) by reflexivity.
  split; [exact R|]. split; [exact B|]. split; [exact M|].
  exact (missing_variable_stops_the_job 0 parseKeysLine env deliverReports w _ _ _ R B M).
Defined.

Lemma failed_transfer_stops_the_job_witness :
  let env := exampleEnv [] in
  let config := loadedConfig incremental (Some 7) false in
  let proc := {| stdout := EmptyString; stderr := "quota exceeded"; exitCode := 7 |} in
  let w := toolWorld (Ok proc) in
  let run := Main.main 0 parseKeysLine env deliverReports w in
  Configuration.loadConfig env (tick w) = (Ok config, tick w) /\
  exec w (Main.command config) = Ok proc /\
  exitCode proc <> 0 /\
  Main.status (fst run) = 1 /\
  Main.printed (fst run) = None /\
  requests (snd run) = requests w /\
  store (snd run) = deliverReports (Main.command config) (store w) /\
  exists lines,
    errlog (snd run) =
    errlog w ++ lines ++
    [("MAIN", "Sync step failed: " +:+ failedCommand config (exitCode proc))].
Proof.
  intros env config proc w run.
  assert (C : Configuration.loadConfig env (tick w) = (Ok config, tick w))
    by (vm_compute; reflexivity).
  assert (E : exec w (Main.command config) = Ok proc) by reflexivity.
  assert (N : exitCode proc <> 0) by discriminate.
  split; [exact C|]. split; [exact E|]. split; [exact N|].
  exact (failed_transfer_stops_the_job 0 parseKeysLine env deliverReports w config proc
           C E N).
Defined.

Lemma unreadable_days_make_the_job_do_nothing_witness :
  let env := exampleEnv [("DAYS_TO_SYNC", "seven")] in
  let w := toolWorld (toolThat threeFiles EmptyString 0) in
  let run := Main.main 0 parseKeysLine env deliverReports w in
  let statistics :=
    {| Main.sync := {| Sync.files_transferred := Sync.ofZ 3;
                       Sync.bytes_transferred := Sync.ofZ 2621440;
                       Sync.duration_seconds := 0 |};
       Main.reorganize := {| files_processed := 0; files_copied := 0;
                             files_skipped := 0; files_errored := 0;
                             duration_seconds := 0 |};
       Main.total_duration_seconds := 0 |} in
  (provided env "SYNC_MODE" = false \/ env !! "SYNC_MODE" = Some "incremental") /\
  env !! "DAYS_TO_SYNC" = Some "seven" /\
  "seven" <> EmptyString /\
  JSNumber.parseInt "seven" (Some 10) = None /\
  Main.printed (fst run) = Some statistics /\
  Main.status (fst run) = 0 /\
  files_processed (Main.reorganize statistics) = 0%nat /\
  files_copied (Main.reorganize statistics) = 0%nat /\
  files_skipped (Main.reorganize statistics) = 0%nat /\
  files_errored (Main.reorganize statistics) = 0%nat.
Proof.
  intros env w run statistics.
  assert (M : provided env "SYNC_MODE" = false \/ env !! "SYNC_MODE" = Some "incremental")
    by (left; reflexivity).
  assert (D : env !! "DAYS_TO_SYNC" = Some "seven") by reflexivity.
  assert (N : "seven" <> EmptyString) by discriminate.
  assert (P : JSNumber.parseInt "seven" (Some 10) = None) by reflexivity.
  assert (S : Main.printed (fst run) = Some statistics) by (vm_compute; reflexivity).
  split; [exact M|]. split; [exact D|]. split; [exact N|]. split; [exact P|].
  split; [exact S|].
  exact (unreadable_days_make_the_job_do_nothing 0 parseKeysLine env deliverReports w
           "seven" statistics M D N P S).
Defined.

Lemma dry_run_job_changes_nothing_witness :
  let env := exampleEnv [("DRY_RUN", "TRUE")] in
  let config := loadedConfig incremental (Some 7) true in
  let w := seededWorld noFault in
  let run := Main.main 0 parseKeysLine env deliverReports w in
  env !! "DRY_RUN" = Some "TRUE" /\
  toLowerCase "TRUE" = "true" /\
  Configuration.loadConfig env (tick w) = (Ok config, tick w) /\
  store (snd run) = deliverReports (listCommand config) (store w) /\
  exists rs, requests (snd run) = requests w ++ rs /\
             forallb (fun r => negb (mutating r)) rs = true.
Proof.
  intros env config w run.
  assert (D : env !! "DRY_RUN" = Some "TRUE") by reflexivity.
  assert (T : toLowerCase "TRUE" = "true") by reflexivity.
  assert (C : Configuration.loadConfig env (tick w) = (Ok config, tick w))
    by (vm_compute; reflexivity).
  split; [exact D|]. split; [exact T|]. split; [exact C|].
  exact (dry_run_job_changes_nothing 0 parseKeysLine env deliverReports w "TRUE" config
           D T C).
Defined.

Lemma exit_status_zero_means_delivered_witness :
  let env := exampleEnv [] in
  let config := loadedConfig incremental (Some 7) false in
  let w := toolWorld (toolThat threeFiles EmptyString 0) in
  let run := Main.main 0 parseKeysLine env deliverReports w in
  let window := Some 1717804800000 in
  let name := "FOCUS-Reports/2024/06/15/report.csv.gz" in
  let parsed := reportOf "15" 1718409600000 in
  let staged := deliverReports (syncCommand config) (store w) in
  Main.status (fst run) = 0 /\
  Configuration.loadConfig env (tick w) = (Ok config, tick w) /\
  dryRun (job config) = false /\
  steadyWindow 0 config w window /\
  eligible 0 (syncMode (job config)) window name = Some parsed /\
  objectContent staged (stagingBucket (gcs config)) name = Some "data 15" /\
  objectContent (store (snd run)) "hive" "year=2024/month=06/day=15/report.csv.gz"
  = Some "data 15".
Proof.
  intros env config w run window name parsed staged.
  assert (Z : Main.status (fst run) = 0) by (vm_compute; reflexivity).
  assert (C : Configuration.loadConfig env (tick w) = (Ok config, tick w))
    by (vm_compute; reflexivity).
  assert (L : dryRun (job config) = false) by reflexivity.
  assert (S : steadyWindow 0 config w window)
    by (right; intros i; vm_compute; reflexivity).
  assert (E : eligible 0 (syncMode (job config)) window name = Some parsed)
    by (vm_compute; reflexivity).
  assert (O : objectContent staged (stagingBucket (gcs config)) name = Some "data 15")
    by (vm_compute; reflexivity).
  split; [exact Z|]. split; [exact C|]. split; [exact L|]. split; [exact S|].
  split; [exact E|]. split; [exact O|].
  exact (exit_status_zero_means_delivered 0 parseKeysLine env deliverReports w config
           window name parsed "data 15" Z C L S E O).
Defined.
